(** * FinOpsAI-Platform: the budget-alert engine

    A shallow embedding of the budget evaluation and notification cycle
    ([src/analyzers/budget_alerts.py], [src/utils/db.py],
    [src/utils/notification.py], [src/scripts/check_budgets.py]) and the
    properties its specification states about it, followed by the budget
    page ([src/dashboards/budget_page.py]) and further properties of the
    code.

    Python [float]s are IEEE 754 binary64 numbers and are embedded as Rocq's
    primitive floats; Python [int]s as [Z]; [str] as [string]; [None]-able
    values as [option]; exceptions through the [result] type below. *)

From Stdlib Require Import ZArith List String Ascii Bool Lia.
From Stdlib Require Import Floats DecimalString.
Import ListNotations.

Local Open Scope string_scope.
Local Open Scope list_scope.
Local Open Scope Z_scope.

(** ** Python values and exceptions *)

Module Py.

(** The exception classes the modelled code can let escape. *)
Inductive exn : Type :=
| KeyError (key : string)
| TypeError
| ValueError
| DatabaseError (msg : string).

Inductive result (A : Type) : Type :=
| Ok (a : A)
| Raise (e : exn).

Arguments Ok {A} a.
Arguments Raise {A} e.

Definition bind {A B : Type} (m : result A) (k : A -> result B) : result B :=
  match m with
  | Ok a => k a
  | Raise e => Raise e
  end.

(** Truth value of an optional string: [None] and [''] are falsy. *)
Definition truthy (o : option string) : bool :=
  match o with
  | Some s => negb (String.eqb s "")
  | None => false
  end.

(** [x or default] on an optional string. *)
Definition or_else (o : option string) (default : string) : string :=
  match o with
  | Some s => if String.eqb s "" then default else s
  | None => default
  end.

(** [k in l] for a list of strings. *)
Definition mem (k : string) (l : list string) : bool :=
  existsb (String.eqb k) l.

(** A [dict] with string keys. Python dictionaries iterate in insertion
    order, and assigning to a key that is present keeps its position. *)
Definition dict (V : Type) : Type := list (string * V).

Fixpoint dict_set {V : Type} (k : string) (v : V) (d : dict V) : dict V :=
  match d with
  | [] => [(k, v)]
  | (k', v') :: d' =>
      if String.eqb k' k then (k, v) :: d' else (k', v') :: dict_set k v d'
  end.

Fixpoint dict_get {V : Type} (k : string) (d : dict V) : option V :=
  match d with
  | [] => None
  | (k', v') :: d' => if String.eqb k' k then Some v' else dict_get k d'
  end.

Definition keys {V : Type} (d : dict V) : list string := map fst d.

End Py.

Export Py.

Declare Scope py_scope.
Delimit Scope py_scope with py.
Notation "x <- m ;; k" := (bind m (fun x => k))
  (at level 100, m at next level, right associativity) : py_scope.
Local Open Scope py_scope.

(** ** [datetime]: calendar dates *)

Module datetime.

Record date : Type := mkdate { year : Z; month : Z; day : Z }.

Definition is_leap (y : Z) : bool :=
  (y mod 4 =? 0) && (negb (y mod 100 =? 0) || (y mod 400 =? 0)).

Definition days_in_month (y m : Z) : Z :=
  if m =? 2 then (if is_leap y then 29 else 28)
  else if (m =? 4) || (m =? 6) || (m =? 9) || (m =? 11) then 30
  else 31.

(** The range check of the [datetime.date] constructor. *)
Definition valid (y m d : Z) : bool :=
  (1 <=? y) && (y <=? 9999) && (1 <=? m) && (m <=? 12) &&
  (1 <=? d) && (d <=? days_in_month y m).

(** [datetime.date(y, m, d)]: raises [ValueError] outside the calendar. *)
Definition date_new (y m d : Z) : result date :=
  if valid y m d then Ok (mkdate y m d) else Raise ValueError.

Definition valid_date (d : date) : bool := valid (year d) (month d) (day d).

(** The order of dates: by year, then month, then day. *)
Definition date_compare (a b : date) : comparison :=
  match year a ?= year b with
  | Eq => match month a ?= month b with
          | Eq => day a ?= day b
          | c => c
          end
  | c => c
  end.

Definition date_leb (a b : date) : bool :=
  match date_compare a b with
  | Gt => false
  | _ => true
  end.

(** Strictly before, on dates. *)
Definition date_ltb (a b : date) : bool :=
  match date_compare a b with
  | Lt => true
  | _ => false
  end.

(** A value of [datetime.datetime.now()]: only its calendar part is read by
    the code ([now.year], [now.month], [now.date()], [now.strftime]). *)
Record datetime : Type := mkdatetime
  { dt_date : date; hour : Z; minute : Z; second : Z }.

Definition valid_datetime (now : datetime) : bool :=
  valid (year (dt_date now)) (month (dt_date now)) (day (dt_date now)).

Definition digit (n : Z) : ascii :=
  ascii_of_nat (48 + Z.to_nat (n mod 10)).

Definition pad2 (n : Z) : string :=
  String (digit (n / 10)) (String (digit n) "").

Definition pad4 (n : Z) : string :=
  String (digit (n / 1000)) (String (digit (n / 100)) (pad2 n)).

(** [d.strftime('%Y-%m-%d')], for the years 1..9999 of a [datetime.date],
    the year on four digits (the C library may print a year below 1000 on
    fewer; no clock reads such a year). *)
Definition strftime_Ymd (d : date) : string :=
  (pad4 (year d) ++ "-" ++ pad2 (month d) ++ "-" ++ pad2 (day d))%string.

End datetime.

Import datetime.

(** ** [budget_alerts.py]: the evaluation window *)

Module window.

(** Lines 59-67 of [check_budgets]: the start of the evaluation window, and
    [None] for the [else: continue] branch. *)
Definition period_start (now : datetime) (period : string)
  : option (result date) :=
  let d := dt_date now in
  if String.eqb period "monthly" then
    Some (date_new (year d) (month d) 1)
  else if String.eqb period "quarterly" then
    let quarter_month := ((month d - 1) / 3) * 3 + 1 in
    Some (date_new (year d) quarter_month 1)
  else if String.eqb period "yearly" then
    Some (date_new (year d) 1 1)
  else None.

(** Lines 59-69: [(start_date, end_date)], with [end_date = now.date()]. *)
Definition period_window (now : datetime) (period : string)
  : option (result (date * date)) :=
  match period_start now period with
  | None => None
  | Some r => Some (start_date <- r ;; Ok (start_date, dt_date now))
  end.

(** The periods the evaluator knows. *)
Definition known_period (period : string) : Prop :=
  period = "monthly" \/ period = "quarterly" \/ period = "yearly".

End window.

Import window.

(** ** [pandas]: the data frames the code reads *)

Module pd.

(** A cell as SQLite hands it over: NULL, INTEGER, REAL or TEXT. *)
Inductive value : Type :=
| VNull
| VInt (z : Z)
| VReal (f : float)
| VText (s : string).

(** A row maps column names to cells. *)
Definition row : Type := dict value.

Record DataFrame : Type := mkframe { columns : list string; rows : list row }.

Definition cell (r : row) (c : string) : value :=
  match dict_get c r with
  | Some v => v
  | None => VNull
  end.

(** [df.empty]: some axis has length 0. *)
Definition empty (df : DataFrame) : bool :=
  match columns df, rows df with
  | [], _ => true
  | _, [] => true
  | _, _ => false
  end.

(** [df[c] == s], one boolean per row. *)
Definition eq_str (v : value) (s : string) : bool :=
  match v with
  | VText t => String.eqb t s
  | _ => false
  end.

(** [df[df[c] == s]]: [KeyError] when the frame has no column [c]. *)
Definition where_eq (df : DataFrame) (c s : string) : result DataFrame :=
  if mem c (columns df)
  then Ok (mkframe (columns df) (filter (fun r => eq_str (cell r c) s) (rows df)))
  else Raise (KeyError c).

(** [df[c]]: the cells of a column. *)
Definition getitem (df : DataFrame) (c : string) : result (list value) :=
  if mem c (columns df)
  then Ok (map (fun r => cell r c) (rows df))
  else Raise (KeyError c).

Definition float_of_Z (z : Z) : float :=
  SF2Prim (binary_normalize prec emax z 0 false).

(** The number a cell brings to the sum of a column read from SQLite: a
    missing value (NULL, NaN) is filled with 0, an INTEGER counts with its
    float value, and text cannot be added to (or compared with) a number. *)
Definition summand (v : value) : result float :=
  match v with
  | VNull => Ok 0%float
  | VInt z => Ok (float_of_Z z)
  | VReal f => Ok (if is_nan f then 0%float else f)
  | VText _ => Raise TypeError
  end.

Fixpoint summands (cells : list value) : result (list float) :=
  match cells with
  | [] => Ok []
  | v :: rest =>
      x <- summand v ;;
      xs <- summands rest ;;
      Ok (x :: xs)
  end.

(** numpy's summation of a float64 array ([DOUBLE_pairwise_sum]). Fewer
    than 8 numbers are added left to right. Up to 128 numbers go to eight
    running sums [r[0..7]], the number at index [i] to [r[i mod 8]], as long
    as whole groups of 8 remain; the eight are added as a tree and the
    numbers left over are added to the result one by one. *)
Definition add8 (r a : list float) : list float :=
  map (fun p => (fst p + snd p)%float) (combine r a).

Fixpoint unrolled (groups : nat) (r a : list float)
  : list float * list float :=
  match groups with
  | O => (r, a)
  | S k => unrolled k (add8 r (firstn 8 a)) (skipn 8 a)
  end.

Definition tree8 (r : list float) : float :=
  match r with
  | [r0; r1; r2; r3; r4; r5; r6; r7] =>
      (((r0 + r1) + (r2 + r3)) + ((r4 + r5) + (r6 + r7)))%float
  | _ => 0%float
  end.

Definition block_sum (a : list float) : float :=
  let n := List.length a in
  let '(r, rest) := unrolled (n / 8 - 1) (firstn 8 a) (skipn 8 a) in
  fold_left PrimFloat.add rest (tree8 r).

(** More than 128 numbers are split in two, the first part a multiple of 8
    long, and the sums of the parts are added. [fuel] bounds the depth of
    the splitting; the length of the array is enough of it (lemma
    [pairwise_sum_fuel]). *)
Fixpoint pairwise_sum (fuel : nat) (a : list float) : float :=
  let n := List.length a in
  if (n <? 8)%nat then fold_left PrimFloat.add a 0%float
  else if (n <=? 128)%nat then block_sum a
  else
    match fuel with
    | O => block_sum a
    | S fuel' =>
        let n2 := (n / 2 - (n / 2) mod 8)%nat in
        (pairwise_sum fuel' (firstn n2 a) + pairwise_sum fuel' (skipn n2 a))%float
    end.

(** [Series.sum()] on a column read from SQLite: the missing values are
    filled with 0 and the array is reduced by numpy's [add], from the initial
    value 0. *)
Definition sum (cells : list value) : result float :=
  a <- summands cells ;;
  Ok (0 + pairwise_sum (List.length a) a)%float.

End pd.

(** ** [utils/db.py] *)

Module db.

Import pd.

(** A row of [budgets] ([created_at], which nothing reads, left out). *)
Module Budget.
Record t : Type := mk
  { id : Z; name : string; amount : float; period : string;
    provider : option string; service : option string }.
End Budget.

(** A row of [budget_alerts]. *)
Module BudgetAlert.
Record t : Type := mk
  { id : Z; budget_id : Z; actual_cost : float; percentage : float;
    alert_date : datetime; notified : bool }.
End BudgetAlert.

(** The three tables of the database the budget cycle touches. The cost
    table is kept with its column list: it is written both through the
    declared model (column [cost]) and by the collectors' frames (column
    [amount]). *)
Record Database : Type := mkdb
  { cost_data : DataFrame;
    budgets : list Budget.t;
    budget_alerts : list BudgetAlert.t }.

(** SQLite's comparison of a cell with a TEXT parameter: NULL compares to
    nothing, a number sorts before any text, two texts compare bytewise. *)
Inductive sql_op : Type := SqlGe | SqlLe | SqlEq.

Definition sql_compare (v : value) (p : string) : option comparison :=
  match v with
  | VNull => None
  | VInt _ | VReal _ => Some Lt
  | VText s => Some (String.compare s p)
  end.

Definition sql_test (op : sql_op) (v : value) (p : string) : bool :=
  match sql_compare v p, op with
  | Some Eq, _ => true
  | Some Gt, SqlGe => true
  | Some Lt, SqlLe => true
  | _, _ => false
  end.

Definition condition : Type := string * sql_op * string.

(** [if param: query += " AND col op ?"; params.append(param)] *)
Definition and_where (c : string) (op : sql_op) (param : option string)
  : list condition :=
  if truthy param then [(c, op, or_else param "")] else [].

Definition holds (r : row) (q : condition) : bool :=
  let '(c, op, p) := q in sql_test op (cell r c) p.

(** [pd.read_sql_query("SELECT * FROM t WHERE 1=1 AND ...")]: a condition on
    a column the table does not have is a database error. *)
Definition read_sql_query (table : DataFrame) (query : list condition)
  : result DataFrame :=
  match find (fun q : condition => negb (mem (fst (fst q)) (columns table))) query with
  | Some q => Raise (DatabaseError ("no such column: " ++ fst (fst q)))
  | None =>
      Ok (mkframe (columns table)
            (filter (fun r => forallb (holds r) query) (rows table)))
  end.

Definition get_cost_data (start_date end_date provider : option string)
    (d : Database) : result DataFrame :=
  let query :=
    (and_where "date" SqlGe start_date ++
     and_where "date" SqlLe end_date ++
     and_where "provider" SqlEq provider)%list in
  read_sql_query (cost_data d) query.

(** What the two date conditions of [get_cost_data] test on a row: its
    [date] cell is a text that lies, in the order of texts, between the two
    parameters. *)
Definition date_between (start_date end_date : string) (r : row) : bool :=
  match cell r "date" with
  | VText day => String.leb start_date day && String.leb day end_date
  | _ => false
  end.

Definition get_budgets (d : Database) : list Budget.t := budgets d.

(** The row id SQLite gives to an insert: 1 in an empty table, one more
    than the largest id in use otherwise. *)
Definition next_rowid (ids : list Z) : Z :=
  match ids with
  | [] => 1
  | i :: rest => fold_left Z.max rest i + 1
  end.

(** [store_budget_alert]: [alert_date] and [notified] take the column
    defaults, the clock [now] and [False]. Returns the new id. *)
Definition store_budget_alert (now : datetime) (budget_id : Z)
    (actual_cost percentage : float) (d : Database) : Z * Database :=
  let alert_id := next_rowid (map BudgetAlert.id (budget_alerts d)) in
  let alert :=
    BudgetAlert.mk alert_id budget_id actual_cost percentage now false in
  (alert_id,
   mkdb (cost_data d) (budgets d) (budget_alerts d ++ [alert])%list).

Definition get_budget_alerts (budget_id : option Z) (notified : option bool)
    (d : Database) : list BudgetAlert.t :=
  filter
    (fun a =>
       match budget_id with
       | Some b => BudgetAlert.budget_id a =? b
       | None => true
       end &&
       match notified with
       | Some n => Bool.eqb (BudgetAlert.notified a) n
       | None => true
       end)
    (budget_alerts d).

Definition set_notified (a : BudgetAlert.t) : BudgetAlert.t :=
  BudgetAlert.mk (BudgetAlert.id a) (BudgetAlert.budget_id a)
    (BudgetAlert.actual_cost a) (BudgetAlert.percentage a)
    (BudgetAlert.alert_date a) true.

(** [mark_alert_notified]: the first row with this id, if any, gets
    [notified = True], written back by its primary key. *)
Definition mark_alert_notified (alert_id : Z) (d : Database) : Database :=
  match find (fun a => BudgetAlert.id a =? alert_id) (budget_alerts d) with
  | Some alert =>
      mkdb (cost_data d) (budgets d)
        (map (fun a =>
                if BudgetAlert.id a =? BudgetAlert.id alert
                then set_notified a else a)
           (budget_alerts d))
  | None => d
  end.

End db.

(** ** [analyzers/budget_alerts.py] *)

Module budget_alerts.

Import pd db.

(** The dictionary [add_budget] stores under a budget's name. *)
Module entry.
Record t : Type := mk
  { amount : float; period : string;
    provider : option string; service : option string;
    last_alert : option datetime }.
End entry.

(** The dictionary [check_budgets] builds for a breach. *)
Module alert.
Record t : Type := mk
  { name : string; budget : float; actual : float; percentage : float;
    period : string; provider : string; service : string; date : string }.
End alert.

(** The attributes of a [BudgetAlert] object. *)
Record BudgetAlert : Type := mkself
  { budgets : dict entry.t; notifications : list alert.t }.

Definition init : BudgetAlert := mkself [] [].

Definition add_budget (name : string) (amount : float) (period : string)
    (provider service : option string) (self : BudgetAlert) : BudgetAlert :=
  mkself
    (dict_set name (entry.mk amount period provider service None) (budgets self))
    (notifications self).

(** Lines 59-87 of [check_budgets]: the spend of one budget over its window.
    [Ok None] stands for the two [continue] statements (unknown period, empty
    query result). *)
Definition total_cost (now : datetime) (d : Database) (budget : entry.t)
  : result (option float) :=
  match period_window now (entry.period budget) with
  | None => Ok None
  | Some w =>
      w <- w ;;
      let '(start_date, end_date) := w in
      cost_data <- get_cost_data (Some (strftime_Ymd start_date))
                     (Some (strftime_Ymd end_date)) (entry.provider budget) d ;;
      if empty cost_data then Ok None
      else
        cost_data <-
          (if truthy (entry.service budget)
           then where_eq cost_data "service" (or_else (entry.service budget) "")
           else Ok cost_data) ;;
        let cost_column :=
          if mem "cost" (columns cost_data) then "cost" else "amount" in
        cells <- getitem cost_data cost_column ;;
        total_cost <- pd.sum cells ;;
        Ok (Some total_cost)
  end.

(** Lines 95-104: the alert dictionary. *)
Definition make_alert (now : datetime) (name : string) (budget : entry.t)
    (total_cost : float) : alert.t :=
  let percentage :=
    ((total_cost - entry.amount budget) / entry.amount budget * 100)%float in
  alert.mk name (entry.amount budget) total_cost percentage
    (entry.period budget)
    (or_else (entry.provider budget) "All")
    (or_else (entry.service budget) "All")
    (strftime_Ymd (dt_date now)).

(** One turn of the loop of [check_budgets]: the alert of this budget, if
    it is breached. *)
Definition check_budget (now : datetime) (d : Database) (name : string)
    (budget : entry.t) : result (option alert.t) :=
  total <- total_cost now d budget ;;
  match total with
  | None => Ok None
  | Some total_cost =>
      if (entry.amount budget <? total_cost)%float
      then Ok (Some (make_alert now name budget total_cost))
      else Ok None
  end.

Definition touch (now : datetime) (budget : entry.t) : entry.t :=
  entry.mk (entry.amount budget) (entry.period budget)
    (entry.provider budget) (entry.service budget) (Some now).

(** The loop over [self.budgets.items()]: the alerts in registry order, and
    the registry with [last_alert] set on the breached budgets. The first
    exception ends the loop. *)
Fixpoint check_items (now : datetime) (d : Database) (items : dict entry.t)
  : result (list alert.t * dict entry.t) :=
  match items with
  | [] => Ok ([], [])
  | (name, budget) :: rest =>
      a <- check_budget now d name budget ;;
      r <- check_items now d rest ;;
      let '(alerts, rest') := r in
      match a with
      | Some alert => Ok (alert :: alerts, (name, touch now budget) :: rest')
      | None => Ok (alerts, (name, budget) :: rest')
      end
  end.

Definition check_budgets (now : datetime) (d : Database) (self : BudgetAlert)
  : result (list alert.t * BudgetAlert) :=
  r <- check_items now d (budgets self) ;;
  let '(alerts, budgets') := r in
  Ok (alerts, mkself budgets' (notifications self)).

End budget_alerts.

(** ** Sequences of [add_budget] calls *)

Module registry.

Import budget_alerts.

(** The arguments of one [add_budget] call, but the name. *)
Record definition : Type := mkdef
  { def_amount : float; def_period : string;
    def_provider : option string; def_service : option string }.

Definition add (name : string) (def : definition) (self : BudgetAlert)
  : BudgetAlert :=
  add_budget name (def_amount def) (def_period def) (def_provider def)
    (def_service def) self.

Definition add_all (calls : list (string * definition)) (self : BudgetAlert)
  : BudgetAlert :=
  fold_left (fun self c => add (fst c) (snd c) self) calls self.

Definition entry_of (def : definition) : entry.t :=
  entry.mk (def_amount def) (def_period def) (def_provider def)
    (def_service def) None.

(** Two dictionaries that agree except, at most, on the value stored at the
    first occurrence of the key [k]. *)
Inductive differ_at {V : Type} (k : string) : dict V -> dict V -> Prop :=
| differ_here (v v' : V) (d : dict V) :
    differ_at k ((k, v) :: d) ((k, v') :: d)
| differ_later (k0 : string) (v0 : V) (d d' : dict V) :
    k0 <> k -> differ_at k d d' -> differ_at k ((k0, v0) :: d) ((k0, v0) :: d')
| differ_none (d : dict V) : differ_at k d d.

End registry.

(** ** [utils/notification.py] *)

Module notification.

(** The settings of [config.py] the two channels read. *)
Module config.
Record t : Type := mk
  { ENABLE_EMAIL : bool; EMAIL_SENDER : string;
    EMAIL_RECIPIENTS : list string;
    SMTP_SERVER : string; SMTP_PORT : Z;
    SMTP_USERNAME : string; SMTP_PASSWORD : string;
    ENABLE_SLACK : bool; SLACK_WEBHOOK_URL : string }.
End config.

(** What a channel asks of the network: the SMTP session of [send_email]
    (connect, STARTTLS, optional login, [send_message]) and the POST of
    [send_slack_notification]. *)
Inductive request : Type :=
| SmtpSend (server : string) (port : Z) (login : bool)
    (sender : string) (recipients : list string) (subject body : string)
    (html : bool)
| HttpPost (url : string) (text : string).

(** How the [try] block of a channel ends: it runs through (for a POST,
    with the status code of the response) or an [Exception] is raised. *)
Inductive outcome : Type :=
| Completed (status_code : Z)
| Failed.

(** The network answers a request knowing the requests made so far. *)
Definition network : Type := list request -> request -> outcome.

Definition attempt (net : network) (rq : request) (trace : list request)
  : outcome * list request :=
  (net trace rq, (trace ++ [rq])%list).

Definition send_email (cfg : config.t) (net : network)
    (subject body : string) (recipients : option (list string)) (html : bool)
    (trace : list request) : bool * list request :=
  if negb (config.ENABLE_EMAIL cfg) || String.eqb (config.EMAIL_SENDER cfg) ""
  then (false, trace)
  else
    let recipients :=
      match recipients with
      | Some (r :: rs) => r :: rs
      | _ => config.EMAIL_RECIPIENTS cfg
      end in
    match recipients with
    | [] => (false, trace)
    | _ =>
        let login :=
          negb (String.eqb (config.SMTP_USERNAME cfg) "") &&
          negb (String.eqb (config.SMTP_PASSWORD cfg) "") in
        let rq := SmtpSend (config.SMTP_SERVER cfg) (config.SMTP_PORT cfg)
                    login (config.EMAIL_SENDER cfg) recipients subject body
                    html in
        match attempt net rq trace with
        | (Completed _, trace') => (true, trace')
        | (Failed, trace') => (false, trace')
        end
    end.

Definition send_slack_notification (cfg : config.t) (net : network)
    (message : string) (webhook_url : option string)
    (trace : list request) : bool * list request :=
  if negb (config.ENABLE_SLACK cfg) then (false, trace)
  else
    let webhook_url := or_else webhook_url (config.SLACK_WEBHOOK_URL cfg) in
    if String.eqb webhook_url "" then (false, trace)
    else
      match attempt net (HttpPost webhook_url message) trace with
      | (Completed status_code, trace') => (status_code =? 200, trace')
      | (Failed, trace') => (false, trace')
      end.

End notification.

(** ** [scripts/check_budgets.py] *)

Module script.

Import db budget_alerts notification.

(** The database and the requests sent so far. *)
Record state : Type := mkstate { database : Database; trace : list request }.

(** The number formats of the messages, [{x:.1f}] and [{x:,.2f}]. *)
Record formats : Type := mkformats
  { format_1f : float -> string; format_2f : float -> string }.

Section Messages.

Variable fmt : formats.

Definition subject (a : alert.t) : string :=
  "Budget Alert: " ++ alert.name a ++ " exceeded by "
    ++ format_1f fmt (alert.percentage a) ++ "%".

(** The HTML body, without the indentation of the source text. *)
Definition body (a : alert.t) : string :=
  "<html><body><h2>Budget Alert</h2>"
    ++ "<p>The following budget has been exceeded:</p><ul>"
    ++ "<li><strong>Budget:</strong> " ++ alert.name a ++ "</li>"
    ++ "<li><strong>Amount:</strong> $" ++ format_2f fmt (alert.budget a) ++ "</li>"
    ++ "<li><strong>Actual Spend:</strong> $" ++ format_2f fmt (alert.actual a) ++ "</li>"
    ++ "<li><strong>Over Budget:</strong> $"
    ++ format_2f fmt (alert.actual a - alert.budget a)%float
    ++ " (" ++ format_1f fmt (alert.percentage a) ++ "%)</li>"
    ++ "<li><strong>Period:</strong> " ++ alert.period a ++ "</li>"
    ++ "<li><strong>Provider:</strong> " ++ alert.provider a ++ "</li>"
    ++ "<li><strong>Service:</strong> " ++ alert.service a ++ "</li></ul>"
    ++ "<p>Please review your cloud spending and take appropriate action.</p>"
    ++ "</body></html>".

Definition message (a : alert.t) : string :=
  "*Budget Alert*: " ++ alert.name a ++ " exceeded by "
    ++ format_1f fmt (alert.percentage a) ++ "%" ++ String "010" ""
    ++ "Budget: $" ++ format_2f fmt (alert.budget a)
    ++ ", Actual: $" ++ format_2f fmt (alert.actual a) ++ String "010" ""
    ++ "Please review your cloud spending.".

Variable cfg : config.t.
Variable net : network.

(** Lines 77-106: both channels are called, one after the other. *)
Definition dispatch (a : alert.t) (tr : list request)
  : bool * bool * list request :=
  let '(email_sent, tr) := send_email cfg net (subject a) (body a) None true tr in
  let '(slack_sent, tr) := send_slack_notification cfg net (message a) None tr in
  (email_sent, slack_sent, tr).

(** Lines 52-113: one turn of the loop over the alerts. The id of a budget
    row, a primary key, is never [None]. *)
Definition process_alert (now : datetime) (budgets_df : list Budget.t)
    (st : state) (a : alert.t) : state :=
  match find (fun b => String.eqb (Budget.name b) (alert.name a)) budgets_df with
  | None => st
  | Some b =>
      let budget_id := Budget.id b in
      let '(alert_id, d) :=
        store_budget_alert now budget_id (alert.actual a)
          (alert.percentage a) (database st) in
      if alert_id =? 0 then mkstate d (trace st)
      else
        let '(email_sent, slack_sent, tr) := dispatch a (trace st) in
        if email_sent || slack_sent
        then mkstate (mark_alert_notified alert_id d) tr
        else mkstate d tr
  end.

(** Lines 33-40: the registry built from the rows of the budget table. *)
Definition load_budgets (budgets_df : list Budget.t) : BudgetAlert :=
  fold_left
    (fun self b =>
       add_budget (Budget.name b) (Budget.amount b) (Budget.period b)
         (Budget.provider b) (Budget.service b) self)
    budgets_df init.

(** One run of the script. The clock readings of a run ([check_budgets],
    the [alert_date] defaults) are taken at one instant [now]; the progress
    lines it prints are left out. An exception can only come from
    [check_budgets], before anything is written. *)
Definition check_budgets_and_send_alerts (now : datetime) (st : state)
  : result state :=
  let budgets_df := get_budgets (database st) in
  match budgets_df with
  | [] => Ok st
  | _ =>
      let alert_system := load_budgets budgets_df in
      r <- check_budgets now (database st) alert_system ;;
      match fst r with
      | [] => Ok st
      | alerts => Ok (fold_left (process_alert now budgets_df) alerts st)
      end
  end.

(** The state a run leaves behind: a run that raises has written nothing. *)
Definition run (st : state) (now : datetime) : state :=
  match check_budgets_and_send_alerts now st with
  | Ok st' => st'
  | Raise _ => st
  end.

(** The script run once at each of the given instants, as a scheduler does. *)
Definition runs (nows : list datetime) (st : state) : state :=
  fold_left run nows st.

End Messages.

End script.

(** ** The spend of a budget as the specification words it

    "Query the ledger for records in the window; if the provider is set,
    filter by provider equality; if the service is set, additionally filter
    by service equality; sum the cost field, falling back to the alternate
    field name if the canonical one is absent." A cost record carries a
    calendar date, and the window is "the calendar date range (start,
    today)". *)

Module spec.

Import pd db budget_alerts.

(** The value of a decimal digit, and of two of them. *)
Definition digit_value (c : ascii) : option Z :=
  let n := Z.of_N (N_of_ascii c) in
  if (48 <=? n) && (n <=? 57) then Some (n - 48) else None.

Definition two_digits (c1 c2 : ascii) : option Z :=
  match digit_value c1, digit_value c2 with
  | Some a, Some b => Some (10 * a + b)
  | _, _ => None
  end.

(** The calendar day a text starts with, written ['YYYY-MM-DD'], and what
    follows it. *)
Definition day_prefix (s : string) : option (date * string) :=
  match s with
  | String y1 (String y2 (String y3 (String y4 (String h1
      (String m1 (String m2 (String h2 (String d1 (String d2 rest))))))))) =>
      match two_digits y1 y2, two_digits y3 y4,
            two_digits m1 m2, two_digits d1 d2 with
      | Some yh, Some yl, Some m, Some d =>
          if Ascii.eqb h1 "-" && Ascii.eqb h2 "-" && valid (100 * yh + yl) m d
          then Some (mkdate (100 * yh + yl) m d, rest)
          else None
      | _, _, _, _ => None
      end
  | _ => None
  end.

(** The calendar date of a cost record: the day its [date] cell holds, alone
    or followed by a time of day. *)
Definition record_date (r : row) : option date :=
  match cell r "date" with
  | VText s => option_map fst (day_prefix s)
  | _ => None
  end.

(** The record is dated within the window: from [start_date] to [end_date],
    both days included. *)
Definition in_window (start_date end_date : date) (r : row) : bool :=
  match record_date r with
  | Some x => date_leb start_date x && date_leb x end_date
  | None => false
  end.

(** The record passes an optional equality filter; a filter is set when it
    is neither [None] nor empty. *)
Definition scoped (filter : option string) (v : value) : bool :=
  match filter with
  | Some f => if String.eqb f "" then true else eq_str v f
  | None => true
  end.

Definition in_scope (start_date end_date : date) (budget : entry.t)
    (r : row) : bool :=
  in_window start_date end_date r &&
  scoped (entry.provider budget) (cell r "provider") &&
  scoped (entry.service budget) (cell r "service").

(** The records of the ledger a budget is measured on; none for a budget
    without a window. *)
Definition matching_records (now : datetime) (budget : entry.t)
    (d : Database) : list row :=
  match period_window now (entry.period budget) with
  | Some (Ok (start_date, end_date)) =>
      filter (in_scope start_date end_date budget) (rows (cost_data d))
  | _ => []
  end.

(** The records the ledger query is to return: window and provider only. *)
Definition queried_records (now : datetime) (budget : entry.t)
    (d : Database) : list row :=
  match period_window now (entry.period budget) with
  | Some (Ok (start_date, end_date)) =>
      filter
        (fun r =>
           in_window start_date end_date r &&
           scoped (entry.provider budget) (cell r "provider"))
        (rows (cost_data d))
  | _ => []
  end.

Definition cost_field (df : DataFrame) : string :=
  if mem "cost" (columns df) then "cost" else "amount".

Definition spend (now : datetime) (budget : entry.t) (d : Database)
  : result float :=
  pd.sum (map (fun r => cell r (cost_field (cost_data d)))
            (matching_records now budget d)).

(** The columns the evaluator reads are there. *)
Definition cost_schema (df : DataFrame) : bool :=
  mem "date" (columns df) && mem "provider" (columns df) &&
  mem "service" (columns df) &&
  (mem "cost" (columns df) || mem "amount" (columns df)).




(** The [date] cells hold a calendar date and nothing else, as the declared
    type [Date] of the column has it. *)
Definition plain_date (r : row) : bool :=
  match cell r "date" with
  | VText s =>
      match day_prefix s with
      | Some (_, rest) => String.eqb rest ""
      | None => false
      end
  | _ => false
  end.

Definition plain_dates (df : DataFrame) : bool := forallb plain_date (rows df).

(** Every record has a calendar date, with or without a time of day. *)
Definition dated (df : DataFrame) : bool :=
  forallb
    (fun r => match record_date r with Some _ => true | None => false end)
    (rows df).

End spec.

(** ** The alert ledger and the channels as the specification names them *)

Module ledger.

Import db notification.

(** The operations of the alert ledger (record, mark notified, query), each
    carried out by the function of [db.py] that implements it. *)
Inductive operation : Type :=
| Record_alert (now : datetime) (budget_id : Z) (actual_cost percentage : float)
| Mark_notified (alert_id : Z)
| Query_alerts (budget_id : option Z) (notified : option bool)
| Query_budgets.

Definition apply (d : Database) (op : operation) : Database :=
  match op with
  | Record_alert now budget_id actual_cost percentage =>
      snd (store_budget_alert now budget_id actual_cost percentage d)
  | Mark_notified alert_id => mark_alert_notified alert_id d
  | Query_alerts budget_id notified =>
      let _ := get_budget_alerts budget_id notified d in d
  | Query_budgets => let _ := get_budgets d in d
  end.

(** Two states of one row: everything but the [notified] flag agrees. *)
Definition same_alert (a a' : BudgetAlert.t) : Prop :=
  BudgetAlert.id a' = BudgetAlert.id a /\
  BudgetAlert.budget_id a' = BudgetAlert.budget_id a /\
  BudgetAlert.actual_cost a' = BudgetAlert.actual_cost a /\
  BudgetAlert.percentage a' = BudgetAlert.percentage a /\
  BudgetAlert.alert_date a' = BudgetAlert.alert_date a.

(** A row later on: the same row, its flag still raised if it was. *)
Definition row_later (a a' : BudgetAlert.t) : Prop :=
  same_alert a a' /\
  (BudgetAlert.notified a = true -> BudgetAlert.notified a' = true).

(** A table later on: its rows, each possibly later, and new rows behind. *)
Definition table_later (l l' : list BudgetAlert.t) : Prop :=
  exists olds news, l' = olds ++ news /\ Forall2 row_later l olds.

(** A channel is configured when it is enabled and addressed. *)
Definition email_configured (cfg : config.t) : bool :=
  config.ENABLE_EMAIL cfg && negb (String.eqb (config.EMAIL_SENDER cfg) "") &&
  match config.EMAIL_RECIPIENTS cfg with [] => false | _ => true end.

Definition slack_configured (cfg : config.t) : bool :=
  config.ENABLE_SLACK cfg &&
  negb (String.eqb (config.SLACK_WEBHOOK_URL cfg) "").

Definition channels (cfg : config.t) : nat :=
  ((if email_configured cfg then 1 else 0) +
   (if slack_configured cfg then 1 else 0))%nat.

End ledger.

(** ** What the runs of the script find and leave behind *)

Module cycle.

Import db budget_alerts notification script ledger spec.

(** The alerts one evaluation at [now] finds on a database: those of
    [check_budgets] on the registry loaded from the budget table, none when
    the evaluation raises. *)
Definition alerts_at (d : Database) (now : datetime) : list alert.t :=
  match check_budgets now d (load_budgets (get_budgets d)) with
  | Ok r => fst r
  | Raise _ => []
  end.

(** The registry entry a row of the budget table is loaded as. *)
Definition entry_of_row (b : Budget.t) : string * entry.t :=
  (Budget.name b,
   entry.mk (Budget.amount b) (Budget.period b) (Budget.provider b)
     (Budget.service b) None).


(** [st'] is [st] after the given alerts were stored and dispatched: the
    ledger and the budget table as they were, one new alert row per alert
    carrying its spend and percentage, no flag raised and no request made when
    both channels are disabled; and, when the ids in use are positive, one
    request per alert and configured channel. *)
Definition grows_by (cfg : config.t) (alerts : list alert.t)
    (st st' : state) : Prop :=
  cost_data (database st') = cost_data (database st) /\
  db.budgets (database st') = db.budgets (database st) /\
  exists news,
    budget_alerts (database st') = budget_alerts (database st) ++ news /\
    Forall2
      (fun a row =>
         BudgetAlert.actual_cost row = alert.actual a /\
         BudgetAlert.percentage row = alert.percentage a)
      alerts news /\
    (config.ENABLE_EMAIL cfg = false -> config.ENABLE_SLACK cfg = false ->
     Forall (fun row => BudgetAlert.notified row = false) news /\
     trace st' = trace st) /\
    (Forall (fun row => 0 < BudgetAlert.id row) (budget_alerts (database st)) ->
     Forall (fun row => 0 < BudgetAlert.id row) news /\
     List.length (trace st') =
       (List.length (trace st) + List.length alerts * channels cfg)%nat).

End cycle.

(** ** Concrete ledgers *)

Module scenario.

Import pd db budget_alerts notification.

Definition record (cost_column : string) (id : Z) (date service : string)
    (cost : float) (provider : string) : row :=
  [("id", VInt id); ("date", VText date); ("service", VText service);
   (cost_column, VReal cost); ("currency", VText "USD");
   ("provider", VText provider)].

(** Mid March 2024: EC2 and S3 spend on AWS, a GCP record, a record of
    February and one dated after [now]. *)
Definition ledger_rows (cost_column : string) : list row :=
  [ record cost_column 1 "2024-03-02" "EC2" 400 "AWS";
    record cost_column 2 "2024-03-05" "S3" 300 "AWS";
    record cost_column 3 "2024-03-10" "EC2" 220 "AWS";
    record cost_column 4 "2024-03-10" "EC2" 50 "GCP";
    record cost_column 5 "2024-02-28" "EC2" 999 "AWS";
    record cost_column 6 "2024-03-16" "EC2" 999 "AWS" ].

Definition cost_table (cost_column : string) : DataFrame :=
  mkframe ["id"; "date"; "service"; cost_column; "currency"; "provider"]
    (ledger_rows cost_column).

Definition now : datetime := mkdatetime (mkdate 2024 3 15) 9 0 0.

Definition aws_compute : Budget.t :=
  Budget.mk 1 "AWS-Compute" 500 "monthly" (Some "AWS") (Some "EC2").

Definition aws_compute_entry : entry.t :=
  entry.mk 500 "monthly" (Some "AWS") (Some "EC2") None.

Definition aws_compute_alert : alert.t :=
  alert.mk "AWS-Compute" 500 620 24 "monthly" "AWS" "EC2" "2024-03-15".

(** The ledger under the declared column name and under the collectors'. *)
Definition database : Database := mkdb (cost_table "cost") [aws_compute] [].
Definition database_amount : Database := mkdb (cost_table "amount") [aws_compute] [].

(** The AWS-Compute budget met exactly: EC2 records of 300 and 200. *)
Definition exact_database : Database :=
  mkdb
    (mkframe ["id"; "date"; "service"; "cost"; "currency"; "provider"]
       [ record "cost" 1 "2024-03-01" "EC2" 300 "AWS";
         record "cost" 2 "2024-03-15" "EC2" 200 "AWS" ])
    [aws_compute] [].

(** A budget of 1000 on everything, against 1250 spent in the window. *)
Definition total_entry : entry.t := entry.mk 1000 "monthly" None None None.

Definition total_ledger : DataFrame :=
  mkframe ["date"; "service"; "amount"; "currency"; "provider"]
    [ [("date", VText "2024-03-01"); ("service", VText "EC2");
       ("amount", VReal 1000); ("currency", VText "USD");
       ("provider", VText "AWS")];
      [("date", VText "2024-03-15"); ("service", VText "BigQuery");
       ("amount", VReal 250); ("currency", VText "USD");
       ("provider", VText "GCP")] ].

Definition total_database : Database :=
  mkdb total_ledger [Budget.mk 7 "Total" 1000 "monthly" None None] [].

Definition total_alert : alert.t :=
  alert.mk "Total" 1000 1250 25 "monthly" "All" "All" "2024-03-15".

(** A budget on a service the ledger has no record of. *)
Definition lambda_entry : entry.t :=
  entry.mk 100 "monthly" (Some "AWS") (Some "Lambda") None.

(** The same with an amount below zero, which nothing in the code rules
    out. *)
Definition negative_entry : entry.t :=
  entry.mk (-5) "monthly" (Some "AWS") (Some "Lambda") None.

(** Email off, the chat channel on; and both channels off. *)
Definition chat_only : config.t :=
  config.mk false "" [] "smtp.gmail.com" 587 "" ""
    true "https://hooks.slack.test/services/T0".

Definition channels_off : config.t :=
  config.mk false "" [] "smtp.gmail.com" 587 "" "" false "".

(** A network on which every request goes through with status 200. *)
Definition healthy : network := fun _ _ => Completed 200.

(** An alert table holding alerts 1 and 2, the first one notified. *)
Definition two_alerts : Database :=
  mkdb (cost_table "cost") [aws_compute]
    [ BudgetAlert.mk 1 1 620 24 now true;
      BudgetAlert.mk 2 1 620 24 now false ].

Definition plain : script.formats :=
  script.mkformats (fun _ => "24.0") (fun _ => "0.00").

(** A budget with a period the evaluator does not know. *)
Definition weekly_entry : entry.t :=
  entry.mk 10 "weekly" (Some "AWS") None None.

End scenario.

(** ** [analyzers/budget_alerts.py]: the email path of the class *)

Module analyzer.

Import db budget_alerts notification script.

Section Email.

Variable fmt : formats.
Variable cfg : config.t.
Variable net : network.

(** The message [send_alert_email] hands to the SMTP session (lines
    128-160): subject and body are the texts the script builds
    ([script.subject], [script.body]). *)
Definition alert_mail (a : alert.t) : request :=
  let login :=
    negb (String.eqb (config.SMTP_USERNAME cfg) "") &&
    negb (String.eqb (config.SMTP_PASSWORD cfg) "") in
  SmtpSend (config.SMTP_SERVER cfg) (config.SMTP_PORT cfg)
    login (config.EMAIL_SENDER cfg) (config.EMAIL_RECIPIENTS cfg)
    (subject fmt a) (body fmt a) true.

(** [BudgetAlert.send_alert_email]. *)
Definition send_alert_email (a : alert.t) (tr : list request)
  : bool * list request :=
  if negb (config.ENABLE_EMAIL cfg)
     || String.eqb (config.EMAIL_SENDER cfg) ""
     || match config.EMAIL_RECIPIENTS cfg with [] => true | _ => false end
  then (false, tr)
  else
    match attempt net (alert_mail a) tr with
    | (Completed _, tr') => (true, tr')
    | (Failed, tr') => (false, tr')
    end.

(** One turn of the loop of [process_alerts]: the alert is appended to
    [self.notifications], and mailed when [ENABLE_EMAIL] is on; the result
    of the mail is dropped. *)
Definition notify (acc : list alert.t * list request) (a : alert.t)
  : list alert.t * list request :=
  let '(notes, tr) := acc in
  (notes ++ [a],
   if config.ENABLE_EMAIL cfg then snd (send_alert_email a tr) else tr).

(** [BudgetAlert.process_alerts]: the alerts, the object afterwards and the
    requests made. *)
Definition process_alerts (now : datetime) (d : Database) (self : BudgetAlert)
    (tr : list request) : result (list alert.t * BudgetAlert * list request) :=
  r <- check_budgets now d self ;;
  let '(alerts, self') := r in
  let '(notes, tr') := fold_left notify alerts (notifications self', tr) in
  Ok (alerts, mkself (budgets self') notes, tr').

End Email.

End analyzer.

(** ** [utils/db.py]: budgets and resource tags *)

Module db_more.

Import db.

(** [create_budget]: a new row of [budgets] under the next row id, which
    is returned. Nothing is checked: neither the name nor the amount. *)
Definition create_budget (name : string) (amount : float) (period : string)
    (provider service : option string) (d : Database) : Z * Database :=
  let budget_id := next_rowid (map Budget.id (budgets d)) in
  let budget := Budget.mk budget_id name amount period provider service in
  (budget_id, mkdb (cost_data d) (budgets d ++ [budget]) (budget_alerts d)).

(** A row of [resource_tags] ([created_at] left out). *)
Module ResourceTag.
Record t : Type := mk
  { id : Z; resource_id : string; provider : string;
    key : string; value : string }.
End ResourceTag.

(** [store_resource_tag] on the rows of [resource_tags]. *)
Definition store_resource_tag (resource_id provider key value : string)
    (tags : list ResourceTag.t) : Z * list ResourceTag.t :=
  let tag_id := next_rowid (map ResourceTag.id tags) in
  (tag_id, tags ++ [ResourceTag.mk tag_id resource_id provider key value]).

(** [if param: query += " AND col = ?"] on a TEXT column. *)
Definition text_filter (param : option string) (v : string) : bool :=
  if truthy param then String.eqb v (or_else param "") else true.

Definition get_resource_tags (resource_id provider key : option string)
    (tags : list ResourceTag.t) : list ResourceTag.t :=
  filter
    (fun t =>
       text_filter resource_id (ResourceTag.resource_id t) &&
       text_filter provider (ResourceTag.provider t) &&
       text_filter key (ResourceTag.key t))
    tags.

End db_more.

(** ** [dashboards/budget_page.py] *)

Module budget_page.

Import pd db.

(** An entry of the list [budget_status] (lines 89-97). *)
Module status.
Record t : Type := mk
  { name : string; period : string; budget : float; actual : float;
    percentage : float; provider : string; service : string }.
End status.

(** What escapes [render_budget_overview] while it builds the list: an
    exception of the spend computation, or that of the division of line
    86. *)
Inductive failure : Type :=
| Raised (e : exn)
| ZeroDivisionError.

Inductive attempt (A : Type) : Type :=
| Returns (a : A)
| Fails (f : failure).

Arguments Returns {A} a.
Arguments Fails {A} f.

Definition lift {A : Type} (r : result A) : attempt A :=
  match r with
  | Ok a => Returns a
  | Raise e => Fails (Raised e)
  end.

Definition then_ {A B : Type} (m : attempt A) (k : A -> attempt B)
  : attempt B :=
  match m with
  | Returns a => k a
  | Fails f => Fails f
  end.

(** [str(n)] for an [int]. *)
Definition str (n : Z) : string := NilZero.string_of_int (Z.to_int n).

(** [now.strftime('%B')], in the C locale. *)
Definition month_name (m : Z) : string :=
  nth (Z.to_nat (m - 1))
    ["January"; "February"; "March"; "April"; "May"; "June"; "July";
     "August"; "September"; "October"; "November"; "December"] "".

(** Lines 49-61: the label of the period, for the three periods the page
    knows. *)
Definition period_name (now : datetime) (period : string) : string :=
  let d := dt_date now in
  if String.eqb period "monthly" then
    month_name (month d) ++ " " ++ pad4 (year d)
  else if String.eqb period "quarterly" then
    "Q" ++ str ((month d - 1) / 3 + 1) ++ " " ++ str (year d)
  else str (year d).

Definition is_text (v : value) : bool :=
  match v with
  | VText _ => true
  | _ => false
  end.

Definition is_null (v : value) : bool :=
  match v with
  | VNull => true
  | _ => false
  end.

(** Whether a column read from SQLite holds Python objects and not numpy
    numbers: some cell is text, or no cell holds a number. The sum of such a
    column is a Python number. *)
Definition object_column (cells : list value) : bool :=
  existsb is_text cells || forallb is_null cells.

(** Lines 74-84: the actual cost, and whether it is a Python number (the
    [0] of line 75, or the sum of a column of objects) rather than a numpy
    one. *)
Definition actual_cost (budget : Budget.t) (cost_data : DataFrame)
  : result (float * bool) :=
  if empty cost_data then Ok (0%float, true)
  else
    filtered <-
      (if truthy (Budget.service budget)
       then where_eq cost_data "service" (or_else (Budget.service budget) "")
       else Ok cost_data) ;;
    let cost_column :=
      if mem "cost" (columns filtered) then "cost" else "amount" in
    cells <- getitem filtered cost_column ;;
    actual_cost <- pd.sum cells ;;
    Ok (actual_cost,
        object_column (map (fun r => cell r cost_column) (rows cost_data))).

(** Line 86, [(actual_cost / budget['amount']) * 100]: the amount of a row
    of [iterrows()] is a Python float, and dividing a Python number by a zero
    raises, where a numpy number gives an infinity or a NaN. *)
Definition percentage_used (actual_cost : float) (python : bool)
    (amount : float) : attempt float :=
  if python && (amount =? 0)%float then Fails ZeroDivisionError
  else Returns (actual_cost / amount * 100)%float.

(** Lines 49-97: one turn of the loop over the rows of the budget table;
    [None] for the [continue] of an unknown period. *)
Definition status_of (now : datetime) (d : Database) (budget : Budget.t)
  : attempt (option status.t) :=
  match period_window now (Budget.period budget) with
  | None => Returns None
  | Some w =>
      then_ (lift w) (fun w =>
      let '(start_date, end_date) := w in
      then_ (lift (get_cost_data (Some (strftime_Ymd start_date))
                     (Some (strftime_Ymd end_date)) (Budget.provider budget) d))
        (fun cost_data =>
      then_ (lift (actual_cost budget cost_data)) (fun actual =>
      then_ (percentage_used (fst actual) (snd actual) (Budget.amount budget))
        (fun percentage =>
      Returns
        (Some
           (status.mk (Budget.name budget)
              (period_name now (Budget.period budget))
              (Budget.amount budget) (fst actual) percentage
              (or_else (Budget.provider budget) "All")
              (or_else (Budget.service budget) "All")))))))
  end.

(** Lines 46-97: the list [budget_status]; the first exception ends the
    loop and the rendering. *)
Fixpoint budget_status (now : datetime) (d : Database)
    (budgets_df : list Budget.t) : attempt (list status.t) :=
  match budgets_df with
  | [] => Returns []
  | budget :: rest =>
      then_ (status_of now d budget) (fun s =>
      then_ (budget_status now d rest) (fun l =>
      Returns (match s with Some s => s :: l | None => l end)))
  end.

(** The choices of the two select boxes of the budget form. *)
Inductive period_choice : Type := Monthly | Quarterly | Yearly.

Inductive provider_choice : Type := All | AWS | GCP | Azure.

Definition period_text (p : period_choice) : string :=
  match p with
  | Monthly => "monthly"
  | Quarterly => "quarterly"
  | Yearly => "yearly"
  end.

Definition provider_text (p : provider_choice) : string :=
  match p with
  | All => "All"
  | AWS => "AWS"
  | GCP => "GCP"
  | Azure => "Azure"
  end.

(** [render_create_budget]: what one rendering of the form does to the
    database, given the values of its widgets; [None] when no budget is
    created (the form is not submitted, or the name is missing). *)
Definition render_create_budget (name : string) (amount : float)
    (period : period_choice) (provider : provider_choice) (service : string)
    (submit : bool) (d : Database) : option (Z * Database) :=
  let provider :=
    if String.eqb (provider_text provider) "All" then None
    else Some (provider_text provider) in
  let service := if String.eqb service "" then None else Some service in
  if submit then
    if String.eqb name "" then None
    else Some (db_more.create_budget name amount (period_text period)
                 provider service d)
  else None.

(** A line of the alert history, as selected from the merged frame, before
    its numbers are formatted. *)
Record line : Type := mkline
  { Budget_Name : string; Actual_Cost : float; Budget_Amount : float;
    Percentage : float; Alert_Date : datetime; Notified : bool }.

(** [pd.merge(alerts_df, budgets_df, left_on='budget_id', right_on='id')]:
    the inner join, in the order of the alerts. *)
Definition merge (alerts_df : list BudgetAlert.t) (budgets_df : list Budget.t)
  : list (BudgetAlert.t * Budget.t) :=
  flat_map
    (fun a =>
       map (pair a)
         (filter (fun b => Budget.id b =? BudgetAlert.budget_id a) budgets_df))
    alerts_df.

(** What [render_alert_history] shows: one of its two notices, or the
    table. *)
Inductive history : Type :=
| No_alerts
| No_budgets
| Lines (display_df : list line).

Definition render_alert_history (d : Database) : history :=
  let alerts_df := get_budget_alerts None None d in
  match alerts_df with
  | [] => No_alerts
  | _ =>
      let budgets_df := get_budgets d in
      match budgets_df with
      | [] => No_budgets
      | _ =>
          Lines
            (map
               (fun m : BudgetAlert.t * Budget.t =>
                  mkline (Budget.name (snd m)) (BudgetAlert.actual_cost (fst m))
                    (Budget.amount (snd m)) (BudgetAlert.percentage (fst m))
                    (BudgetAlert.alert_date (fst m)) (BudgetAlert.notified (fst m)))
               (merge alerts_df budgets_df))
      end
  end.

End budget_page.

(** ** The turns of the evaluation loop, one by one *)

Module evaluation.

Import pd db budget_alerts notification.

(** The alerts of one item of the registry: the alert of its turn of the loop
    of [check_budgets], if there is one. *)
Definition alert_of (now : datetime) (d : Database) (item : string * entry.t)
  : list alert.t :=
  match check_budget now d (fst item) (snd item) with
  | Ok (Some a) => [a]
  | _ => []
  end.

(** The item after its turn (line 109). *)
Definition stamp (now : datetime) (d : Database) (item : string * entry.t)
  : string * entry.t :=
  match alert_of now d item with
  | [] => item
  | _ => (fst item, touch now (snd item))
  end.

(** What the caller of [check_budgets] gets: the alerts, or the exception. *)
Definition found (r : result (list alert.t * BudgetAlert))
  : result (list alert.t) :=
  r <- r ;; Ok (fst r).

(** The rows the ledger query of [check_budgets] returns for a period and a
    provider (lines 59-76); none when there is no window or the query
    raises. *)
Definition window_rows (now : datetime) (period : string)
    (provider : option string) (d : Database) : list row :=
  match period_window now period with
  | Some (Ok (start_date, end_date)) =>
      match get_cost_data (Some (strftime_Ymd start_date))
              (Some (strftime_Ymd end_date)) provider d with
      | Ok cost_data => rows cost_data
      | Raise _ => []
      end
  | _ => []
  end.

Definition is_smtp (rq : request) : bool :=
  match rq with
  | SmtpSend _ _ _ _ _ _ _ _ => true
  | HttpPost _ _ => false
  end.

End evaluation.

(** ** Further ledgers and settings *)

Module coverage.

Import pd db budget_alerts notification.

(** Two budget rows under one name: 1000 first, 100 after it. *)
Definition twice_named : list Budget.t :=
  [ Budget.mk 1 "AWS-Compute" 1000 "monthly" (Some "AWS") (Some "EC2");
    Budget.mk 2 "AWS-Compute" 100 "monthly" (Some "AWS") (Some "EC2") ].

Definition twice_named_database : Database :=
  mkdb (scenario.cost_table "cost") twice_named [].

(** A ledger without the [service] column: AWS spend of 700 in March. *)
Definition unserviced_table : DataFrame :=
  mkframe ["id"; "date"; "cost"; "currency"; "provider"]
    [ [("id", VInt 1); ("date", VText "2024-03-02"); ("cost", VReal 700);
       ("currency", VText "USD"); ("provider", VText "AWS")] ].

(** A budget on all of AWS, which that spend breaches, and the AWS-Compute
    budget, which filters on the service. *)
Definition aws_all : Budget.t :=
  Budget.mk 2 "AWS-All" 500 "monthly" (Some "AWS") None.

Definition unserviced_database : Database :=
  mkdb unserviced_table [aws_all; scenario.aws_compute] [].

(** Email on and addressed, the chat channel off. *)
Definition mail_only : config.t :=
  config.mk true "finops@example.org" ["team@example.org"]
    "smtp.gmail.com" 587 "" "" false "".

(** A record dated with a timestamp on the day of [scenario.now]. *)
Definition stamped_today : row :=
  [("id", VInt 9); ("date", VText "2024-03-15 00:00:00.000000");
   ("service", VText "EC2"); ("cost", VReal 900); ("currency", VText "USD");
   ("provider", VText "AWS")].

Definition stamped_database : Database :=
  mkdb (mkframe ["id"; "date"; "service"; "cost"; "currency"; "provider"]
          [stamped_today])
    [scenario.aws_compute] [].

(** The AWS-Compute scenario as [store_cost_data] stores it, the dates
    with the time of day of a pandas timestamp: EC2 records of 400 and 220,
    the second one on the day of the evaluation, and an S3 record of 300. *)
Definition timestamp_record (id : Z) (date service : string) (cost : float)
  : row :=
  [("id", VInt id); ("date", VText (date ++ " 00:00:00.000000"));
   ("service", VText service); ("cost", VReal cost);
   ("currency", VText "USD"); ("provider", VText "AWS")].

Definition timestamp_database : Database :=
  mkdb
    (mkframe ["id"; "date"; "service"; "cost"; "currency"; "provider"]
       [ timestamp_record 1 "2024-03-02" "EC2" 400;
         timestamp_record 2 "2024-03-05" "S3" 300;
         timestamp_record 3 "2024-03-15" "EC2" 220 ])
    [scenario.aws_compute] [].

(** A ledger whose only record has a [date] cell that is no date. *)
Definition undated_database : Database :=
  mkdb
    (mkframe ["id"; "date"; "service"; "cost"; "currency"; "provider"]
       [ scenario.record "cost" 1 "2024-03-1" "EC2" 900 "AWS" ])
    [scenario.aws_compute] [].

(** A budget of 0 on a provider the ledger has no record of. *)
Definition azure_zero : Budget.t :=
  Budget.mk 3 "Azure-Freeze" 0 "monthly" (Some "Azure") None.

(** Nine costs whose sum depends on the order of the additions: 17.81,
    107.35, 123.49, 60.42, 93.17, 40.97, 212.09, 201.1 and 71.36 (the
    binary64 numbers nearest to them) add up to 927.7599999999999 the way
    numpy adds them and to 927.7600000000001 from left to right. *)
Definition nine_costs : list float :=
  [ 0x1.1cf5c28f5c28fp+4; 0x1.ad66666666666p+6; 0x1.edf5c28f5c28fp+6;
    0x1.e35c28f5c28f6p+5; 0x1.74ae147ae147bp+6; 0x1.47c28f5c28f5cp+5;
    0x1.a82e147ae147bp+7; 0x1.9233333333333p+7; 0x1.1d70a3d70a3d7p+6 ]%float.

(** A column of [n] costs: [(613 * i mod 1000) / 100 + 0.01] for [i] from 1
    to [n]. *)
Definition cost_series (n : nat) : list float :=
  map
    (fun i =>
       (pd.float_of_Z ((Z.of_nat i * 613) mod 1000) / 100
        + 0x1.47ae147ae147bp-7)%float)
    (seq 1 n).

(** The AWS-Compute ledger with no cost recorded, and a frozen budget (an
    amount of 0) on AWS and EC2. *)
Definition uncosted_database : Database :=
  mkdb
    (mkframe ["id"; "date"; "service"; "cost"; "currency"; "provider"]
       [ [("id", VInt 1); ("date", VText "2024-03-02"); ("service", VText "EC2");
          ("cost", VNull); ("currency", VText "USD");
          ("provider", VText "AWS")] ])
    [scenario.aws_compute] [].

Definition aws_zero : Budget.t :=
  Budget.mk 4 "AWS-Freeze" 0 "monthly" (Some "AWS") (Some "EC2").

End coverage.

(** * Properties *)

(** ** Order facts on binary64 numbers *)

Section FloatOrder.

Lemma SFcompare_refl_not_Lt (x : spec_float) : SFcompare x x <> Some Lt.
Proof.
  destruct x as [s | s | | s m e]; cbn; try discriminate.
  - destruct s; discriminate.
  - rewrite Z.compare_refl.
    change (Pos.compare_cont Eq m m) with (Pos.compare m m).
    rewrite Pos.compare_refl. destruct s; discriminate.
Qed.

(** [x > x] is false for every float, NaN included. *)
Lemma ltb_irrefl (x : float) : (x <? x)%float = false.
Proof.
  rewrite ltb_spec. unfold SFltb.
  pose proof (SFcompare_refl_not_Lt (Prim2SF x)) as H.
  destruct (SFcompare (Prim2SF x) (Prim2SF x)) as [[ | | ] | ]; congruence.
Qed.

Lemma SFcompare_Eq_not_Lt (x y : spec_float) :
  SFcompare x y = Some Eq -> SFcompare y x <> Some Lt.
Proof.
  destruct x as [s1 | s1 | | s1 m1 e1], y as [s2 | s2 | | s2 m2 e2]; cbn;
    try discriminate; try (destruct s1; discriminate);
    try (destruct s2; discriminate);
    try (destruct s1, s2; discriminate).
  destruct s1, s2; try discriminate;
    rewrite (Z.compare_antisym e1 e2);
    destruct (e1 ?= e2)%Z; cbn; try discriminate;
    change (Pos.compare_cont Eq m1 m2) with (Pos.compare m1 m2);
    change (Pos.compare_cont Eq m2 m1) with (Pos.compare m2 m1);
    rewrite (Pos.compare_antisym m1 m2);
    destruct (m1 ?= m2)%positive; cbn; discriminate.
Qed.

(** [x == y] excludes [x > y] (and 0.0 == -0.0). *)
Lemma eqb_not_ltb (x y : float) :
  (x =? y)%float = true -> (y <? x)%float = false.
Proof.
  rewrite FloatAxioms.eqb_spec, ltb_spec. unfold SFeqb, SFltb. intros H.
  destruct (SFcompare (Prim2SF x) (Prim2SF y)) as [[ | | ] | ] eqn:E;
    try discriminate.
  pose proof (SFcompare_Eq_not_Lt _ _ E) as N.
  destruct (SFcompare (Prim2SF y) (Prim2SF x)) as [[ | | ] | ]; congruence.
Qed.

(** A number that is at least 0 is not below 0. *)
Lemma nonneg_not_below_zero (x : float) :
  (0 <=? x)%float = true -> (x <? 0)%float = false.
Proof.
  rewrite leb_spec, ltb_spec. unfold SFleb, SFltb.
  change (Prim2SF 0) with (S754_zero false).
  destruct (Prim2SF x) as [s | s | | s m e]; cbn; try reflexivity;
    destruct s; (reflexivity || discriminate).
Qed.

End FloatOrder.

Lemma valid_first_of_month (y m d : Z) :
  valid y m d = true -> valid y m 1 = true.
Proof.
  unfold valid, days_in_month. intros H.
  repeat (apply andb_prop in H; destruct H as [H ?]).
  repeat (apply andb_true_intro; split); auto.
  destruct (m =? 2); [destruct (is_leap y)|]; auto.
  destruct ((m =? 4) || (m =? 6) || (m =? 9) || (m =? 11)); auto.
Qed.

Lemma valid_month_range (y m d : Z) :
  valid y m d = true -> 1 <= m <= 12.
Proof.
  unfold valid. intros H.
  repeat (apply andb_prop in H; destruct H as [H ?]).
  lia.
Qed.

Lemma quarter_month_cases (m : Z) :
  1 <= m <= 12 ->
  let q := ((m - 1) / 3) * 3 + 1 in
  (q = 1 \/ q = 4 \/ q = 7 \/ q = 10) /\ q <= m < q + 3.
Proof.
  intros Hm q. subst q.
  pose proof (Z.div_mod (m - 1) 3 ltac:(lia)) as Hdm.
  pose proof (Z.mod_pos_bound (m - 1) 3 ltac:(lia)) as Hmod.
  split; lia.
Qed.

Lemma valid_first_of_quarter (y m d : Z) :
  valid y m d = true -> valid y (((m - 1) / 3) * 3 + 1) 1 = true.
Proof.
  intros H. pose proof (valid_month_range _ _ _ H) as Hm.
  destruct (quarter_month_cases m Hm) as [[Hq | [Hq | [Hq | Hq]]] _];
    rewrite Hq; unfold valid in *;
    repeat (apply andb_prop in H; destruct H as [H ?]);
    repeat (apply andb_true_intro; split); auto.
Qed.

Lemma valid_first_of_year (y m d : Z) :
  valid y m d = true -> valid y 1 1 = true.
Proof.
  unfold valid. intros H.
  repeat (apply andb_prop in H; destruct H as [H ?]).
  repeat (apply andb_true_intro; split); auto.
Qed.

(** C2. For every well-formed timestamp [now] and every budget, the
    evaluation window starts on day 1 of [now]'s month when the period is
    'monthly', on day 1 of month [((month-1)//3)*3+1] (one of 1, 4, 7, 10)
    when it is 'quarterly' and on January 1 of [now]'s year when it is
    'yearly'; whenever there is a window it ends on [now]'s date; and no
    [ValueError] is raised on the way. *)
Theorem C2_period_window (now : datetime) (b : budget_alerts.entry.t) :
  valid_datetime now = true ->
  let d := dt_date now in
  let q := ((month d - 1) / 3) * 3 + 1 in
  let period := budget_alerts.entry.period b in
  (period = "monthly" ->
   period_window now period = Some (Ok (mkdate (year d) (month d) 1, d))) /\
  (period = "quarterly" ->
   period_window now period = Some (Ok (mkdate (year d) q 1, d)) /\
   (q = 1 \/ q = 4 \/ q = 7 \/ q = 10)) /\
  (period = "yearly" ->
   period_window now period = Some (Ok (mkdate (year d) 1 1, d))) /\
  (forall w, period_window now period = Some (Ok w) -> snd w = d).
Proof.
  intros Hv. unfold valid_datetime in Hv. cbv zeta.
  unfold period_window, period_start, date_new.
  repeat split.
  - intros ->. cbn [String.eqb Ascii.eqb Bool.eqb].
    now rewrite (valid_first_of_month _ _ _ Hv).
  - rewrite H. cbn [String.eqb Ascii.eqb Bool.eqb].
    now rewrite (valid_first_of_quarter _ _ _ Hv).
  - apply (quarter_month_cases (month (dt_date now))),
      (valid_month_range _ _ _ Hv).
  - intros ->. cbn [String.eqb Ascii.eqb Bool.eqb].
    now rewrite (valid_first_of_year _ _ _ Hv).
  - intros w.
    destruct (String.eqb _ "monthly");
      [ | destruct (String.eqb _ "quarterly");
          [ | destruct (String.eqb _ "yearly"); [ | discriminate]]];
      match goal with |- context [if ?c then _ else _] => destruct c end;
      cbn [bind]; intros E; try discriminate E;
      injection E as <-; reflexivity.
Qed.

(** The window of a monthly budget on 29 February of a leap year. *)
Lemma C2_period_window_witness :
  let now := mkdatetime (mkdate 2024 2 29) 13 5 0 in
  period_window now "monthly" = Some (Ok (mkdate 2024 2 1, mkdate 2024 2 29)).
Proof.
  exact (proj1 (C2_period_window (mkdatetime (mkdate 2024 2 29) 13 5 0)
                  scenario.aws_compute_entry eq_refl) eq_refl).
Defined.

(** ** The loop of [check_budgets] *)

Import pd db budget_alerts.

Lemma bind_Ok {A B : Type} (m : result A) (k : A -> result B) (b : B) :
  bind m k = Ok b -> exists a, m = Ok a /\ k a = Ok b.
Proof. destruct m as [a | e]; cbn; [eauto | discriminate]. Qed.

Ltac bind_inv H :=
  let x := fresh "x" in
  let Hx := fresh "H" x in
  apply bind_Ok in H; destruct H as (x & Hx & H).

(** What a turn of the loop returns, read off the spend of the budget. *)
Lemma check_budget_spec (now : datetime) (d : Database) (name : string)
    (b : entry.t) (total : float) :
  total_cost now d b = Ok (Some total) ->
  check_budget now d name b =
    Ok (if (entry.amount b <? total)%float
        then Some (make_alert now name b total) else None).
Proof.
  intros H. unfold check_budget. rewrite H. cbn [bind].
  destruct (entry.amount b <? total)%float; reflexivity.
Qed.

Lemma check_budget_alert (now : datetime) (d : Database) (name : string)
    (b : entry.t) (a : alert.t) :
  check_budget now d name b = Ok (Some a) ->
  exists total,
    total_cost now d b = Ok (Some total) /\
    (entry.amount b <? total)%float = true /\
    a = make_alert now name b total.
Proof.
  unfold check_budget. intros H. bind_inv H.
  destruct x as [total | ]; [ | discriminate].
  destruct (entry.amount b <? total)%float eqn:E; [ | discriminate].
  exists total. repeat split; congruence.
Qed.

(** The alerts of the loop are exactly the alerts of its turns. *)
Lemma check_items_alerts (now : datetime) (d : Database) :
  forall items alerts items',
    check_items now d items = Ok (alerts, items') ->
    forall a, In a alerts <->
      exists name b, In (name, b) items /\
                     check_budget now d name b = Ok (Some a).
Proof.
  induction items as [ | [name b] rest IH]; intros alerts items' H a.
  - cbn in H. injection H as <- <-. split; [intros [] | intros (? & ? & [] & _)].
  - cbn [check_items] in H. bind_inv H. bind_inv H.
    destruct x0 as [alerts0 rest'].
    specialize (IH _ _ Hx0 a).
    destruct x as [al | ]; injection H as <- <-.
    + split.
      * intros [<- | Hin].
        -- exists name, b. split; [left; reflexivity | assumption].
        -- apply IH in Hin. destruct Hin as (n & b' & Hin & Hc).
           exists n, b'. split; [right | ]; assumption.
      * intros (n & b' & [Heq | Hin] & Hc).
        -- injection Heq as <- <-. left. congruence.
        -- right. apply IH. eauto.
    + split.
      * intros Hin. apply IH in Hin. destruct Hin as (n & b' & Hin & Hc).
        exists n, b'. split; [right | ]; assumption.
      * intros (n & b' & [Heq | Hin] & Hc).
        -- injection Heq as <- <-. congruence.
        -- apply IH. eauto.
Qed.

Lemma NoDup_keys_functional {V : Type} (d : dict V) (k : string) (v v' : V) :
  NoDup (keys d) -> In (k, v) d -> In (k, v') d -> v = v'.
Proof.
  unfold keys. induction d as [ | [k0 v0] d IH]; cbn; intros Hnd H1 H2.
  - contradiction.
  - inversion Hnd as [ | ? ? Hnotin Hnd']; subst.
    destruct H1 as [H1 | H1], H2 as [H2 | H2].
    + congruence.
    + injection H1 as -> ->. exfalso. apply Hnotin.
      change k with (fst (k, v')). now apply in_map.
    + injection H2 as -> ->. exfalso. apply Hnotin.
      change k with (fst (k, v)). now apply in_map.
    + now apply IH.
Qed.

(** In a registry (no name twice), the alerts named after a budget are the
    alerts of its turn of the loop. *)
Lemma alerts_of_budget (now : datetime) (d : Database)
    (self self' : BudgetAlert) (alerts : list alert.t)
    (name : string) (b : entry.t) :
  NoDup (keys (budgets self)) ->
  In (name, b) (budgets self) ->
  check_budgets now d self = Ok (alerts, self') ->
  forall a, (In a alerts /\ alert.name a = name) <->
            check_budget now d name b = Ok (Some a).
Proof.
  intros Hnd Hin Hcb a.
  unfold check_budgets in Hcb. bind_inv Hcb. destruct x as [als items'].
  injection Hcb as -> <-.
  pose proof (check_items_alerts now d _ _ _ Hx a) as Hal.
  split.
  - intros [Ha Hname]. apply Hal in Ha. destruct Ha as (n & b' & Hin' & Hc).
    pose proof Hc as Hc'.
    apply check_budget_alert in Hc'. destruct Hc' as (t & _ & _ & ->).
    cbn in Hname. subst n.
    assert (b' = b) by (eapply NoDup_keys_functional; eassumption).
    now subst b'.
  - intros Hc. split.
    + apply Hal. eauto.
    + apply check_budget_alert in Hc. destruct Hc as (t & _ & _ & ->).
      reflexivity.
Qed.

(** C1. For every budget of the registry that [check_budgets] evaluates
    (its spend [total] is computed), an alert carrying the budget's name is
    emitted iff [total > amount], strictly: spend equal to the amount (the
    same float, or [==] to it) yields no alert. The alert carries the spend, the amount and the percentage
    [(total - amount) / amount * 100]; with amount 1000 and spend 1250 the
    percentage is 25.0. *)
Theorem C1_breach_iff_strictly_over (now : datetime) (d : Database)
    (self self' : BudgetAlert) (alerts : list alert.t)
    (name : string) (b : entry.t) (total : float) :
  NoDup (keys (budgets self)) ->
  In (name, b) (budgets self) ->
  check_budgets now d self = Ok (alerts, self') ->
  total_cost now d b = Ok (Some total) ->
  ((exists a, In a alerts /\ alert.name a = name) <->
   (entry.amount b <? total)%float = true) /\
  (forall a, In a alerts -> alert.name a = name ->
     alert.actual a = total /\ alert.budget a = entry.amount b /\
     alert.percentage a =
       ((total - entry.amount b) / entry.amount b * 100)%float) /\
  (total = entry.amount b \/ (total =? entry.amount b)%float = true ->
     ~ exists a, In a alerts /\ alert.name a = name) /\
  (entry.amount b = 1000%float -> total = 1250%float ->
     exists a, In a alerts /\ alert.name a = name /\
               alert.percentage a = 25%float).
Proof.
  intros Hnd Hin Hcb Htot.
  pose proof (alerts_of_budget now d self self' alerts name b Hnd Hin Hcb)
    as Hal.
  pose proof (check_budget_spec now d name b total Htot) as Hspec.
  assert (Hfrom : forall a, In a alerts -> alert.name a = name ->
            (entry.amount b <? total)%float = true /\
            a = make_alert now name b total).
  { intros a Ha Hname. assert (Hc : In a alerts /\ alert.name a = name) by auto.
    apply Hal in Hc. rewrite Hspec in Hc.
    destruct (entry.amount b <? total)%float; [ | discriminate].
    split; congruence. }
  assert (Hto : (entry.amount b <? total)%float = true ->
            In (make_alert now name b total) alerts).
  { intros Hlt. apply Hal. rewrite Hspec, Hlt. reflexivity. }
  split; [ | split; [ | split]].
  - split.
    + intros (a & Ha & Hname). now apply (Hfrom a).
    + intros Hlt. exists (make_alert now name b total). split; auto.
  - intros a Ha Hname. destruct (Hfrom a Ha Hname) as [_ ->]. cbn. auto.
  - intros Heq (a & Ha & Hname). destruct (Hfrom a Ha Hname) as [Hlt _].
    destruct Heq as [-> | Heq].
    + rewrite ltb_irrefl in Hlt. discriminate.
    + rewrite (eqb_not_ltb _ _ Heq) in Hlt. discriminate.
  - intros Ham ->. exists (make_alert now name b 1250%float).
    split; [ | split].
    + apply Hto. rewrite Ham. reflexivity.
    + reflexivity.
    + cbn. rewrite Ham. reflexivity.
Qed.

(** Spend of exactly the amount: the AWS-Compute budget of 500 against EC2
    records summing to 500 raises no alert. *)
Example spend_equal_to_amount :
  total_cost scenario.now scenario.exact_database scenario.aws_compute_entry
    = Ok (Some 500%float) /\
  check_budgets scenario.now scenario.exact_database
    (script.load_budgets [scenario.aws_compute]) =
    Ok ([], mkself [("AWS-Compute", scenario.aws_compute_entry)] []).
Proof. split; vm_compute; reflexivity. Qed.

(** The budget of 1000 against a ledger holding 1250: one alert, 25.0%. *)
Lemma C1_breach_iff_strictly_over_witness :
  ((exists a, In a [scenario.total_alert] /\ alert.name a = "Total") <->
   (entry.amount scenario.total_entry <? 1250)%float = true) /\
  (forall a, In a [scenario.total_alert] -> alert.name a = "Total" ->
     alert.actual a = 1250%float /\
     alert.budget a = entry.amount scenario.total_entry /\
     alert.percentage a =
       ((1250 - entry.amount scenario.total_entry)
        / entry.amount scenario.total_entry * 100)%float) /\
  (1250%float = entry.amount scenario.total_entry \/
   (1250 =? entry.amount scenario.total_entry)%float = true ->
     ~ exists a, In a [scenario.total_alert] /\ alert.name a = "Total") /\
  (entry.amount scenario.total_entry = 1000%float -> 1250%float = 1250%float ->
     exists a, In a [scenario.total_alert] /\ alert.name a = "Total" /\
               alert.percentage a = 25%float).
Proof.
  apply (C1_breach_iff_strictly_over scenario.now scenario.total_database
           (mkself [("Total", scenario.total_entry)] [])
           (mkself [("Total", touch scenario.now scenario.total_entry)] [])
           [scenario.total_alert] "Total" scenario.total_entry 1250%float).
  - repeat constructor. intros [].
  - left. reflexivity.
  - vm_compute. reflexivity.
  - vm_compute. reflexivity.
Defined.


(** ** ISO dates compare as text the way dates compare *)

Lemma digit_compare (x y : Z) :
  Ascii.compare (digit x) (digit y) = (x mod 10 ?= y mod 10).
Proof.
  unfold digit.
  pose proof (Z.mod_pos_bound x 10 eq_refl) as Hx.
  pose proof (Z.mod_pos_bound y 10 eq_refl) as Hy.
  generalize dependent (y mod 10). generalize dependent (x mod 10).
  intros u Hu v Hv.
  assert (Eu : u = 0 \/ u = 1 \/ u = 2 \/ u = 3 \/ u = 4 \/
               u = 5 \/ u = 6 \/ u = 7 \/ u = 8 \/ u = 9) by lia.
  assert (Ev : v = 0 \/ v = 1 \/ v = 2 \/ v = 3 \/ v = 4 \/
               v = 5 \/ v = 6 \/ v = 7 \/ v = 8 \/ v = 9) by lia.
  clear Hu Hv.
  repeat (destruct Eu as [-> | Eu]); try subst u;
    repeat (destruct Ev as [-> | Ev]); try subst v; reflexivity.
Qed.

Lemma compare_pad2 (a b : Z) (r1 r2 : string) :
  String.compare (pad2 a ++ r1) (pad2 b ++ r2) =
  match a mod 100 ?= b mod 100 with
  | Eq => String.compare r1 r2
  | c => c
  end.
Proof.
  unfold pad2. cbn [append String.compare]. rewrite !digit_compare.
  destruct (Z.compare_spec ((a / 10) mod 10) ((b / 10) mod 10));
    destruct (Z.compare_spec (a mod 10) (b mod 10));
    destruct (Z.compare_spec (a mod 100) (b mod 100));
    try reflexivity; exfalso; Z.div_mod_to_equations; lia.
Qed.

Lemma compare_pad4 (a b : Z) (r1 r2 : string) :
  0 <= a < 10000 -> 0 <= b < 10000 ->
  String.compare (pad4 a ++ r1) (pad4 b ++ r2) =
  match a ?= b with
  | Eq => String.compare r1 r2
  | c => c
  end.
Proof.
  intros Ha Hb. unfold pad4. cbn [append String.compare].
  rewrite !digit_compare, compare_pad2.
  destruct (Z.compare_spec ((a / 1000) mod 10) ((b / 1000) mod 10));
    destruct (Z.compare_spec ((a / 100) mod 10) ((b / 100) mod 10));
    destruct (Z.compare_spec (a mod 100) (b mod 100));
    destruct (Z.compare_spec a b);
    try reflexivity; exfalso; Z.div_mod_to_equations; lia.
Qed.

Lemma valid_bounds (y m d : Z) :
  valid y m d = true -> 1 <= y <= 9999 /\ 1 <= m <= 12 /\ 1 <= d <= 31.
Proof.
  unfold valid, days_in_month. intros H.
  repeat (apply andb_prop in H; destruct H as [H ?]).
  destruct (m =? 2); [destruct (is_leap y) | destruct (_ || _)]; lia.
Qed.

(** The text order SQLite applies to ['%Y-%m-%d'] dates is the order of
    the dates. *)
Lemma strftime_compare (a b : date) :
  valid_date a = true -> valid_date b = true ->
  String.compare (strftime_Ymd a) (strftime_Ymd b) = date_compare a b.
Proof.
  unfold valid_date. intros Ha Hb.
  apply valid_bounds in Ha, Hb. unfold strftime_Ymd, date_compare.
  rewrite compare_pad4 by lia.
  destruct (year a ?= year b); try reflexivity.
  cbn [append String.compare]. change (Ascii.compare "-" "-") with Eq. cbv iota.
  rewrite compare_pad2, !Z.mod_small by lia.
  destruct (month a ?= month b); try reflexivity.
  cbn [append String.compare]. change (Ascii.compare "-" "-") with Eq. cbv iota.
  change (pad2 (day a)) with (pad2 (day a) ++ "")%string.
  change (pad2 (day b)) with (pad2 (day b) ++ "")%string.
  rewrite compare_pad2, !Z.mod_small by lia.
  now destruct (day a ?= day b).
Qed.

Lemma strftime_leb (a b : date) :
  valid_date a = true -> valid_date b = true ->
  String.leb (strftime_Ymd a) (strftime_Ymd b) = date_leb a b.
Proof.
  intros Ha Hb. unfold String.leb, date_leb.
  now rewrite strftime_compare.
Qed.

(** ** The ledger query and the spend *)

Import spec.

Lemma string_compare_refl (s : string) : String.compare s s = Eq.
Proof.
  induction s as [ | a s IH]; cbn; [reflexivity | ].
  unfold Ascii.compare. now rewrite N.compare_refl.
Qed.

Lemma string_compare_Eq_eqb (s t : string) :
  match String.compare s t with Eq => true | _ => false end = String.eqb s t.
Proof.
  destruct (String.eqb_spec s t) as [-> | Hne].
  - now rewrite string_compare_refl.
  - destruct (String.compare s t) eqn:E; try reflexivity.
    apply String.compare_eq_iff in E. contradiction.
Qed.

Lemma sql_ge_leb (v : value) (p : string) :
  sql_test SqlGe v p =
    match v with VText s => String.leb p s | _ => false end.
Proof.
  destruct v as [ | z | f | s]; try reflexivity.
  unfold sql_test, sql_compare, String.leb.
  rewrite (String.compare_antisym s p).
  now destruct (String.compare p s).
Qed.

Lemma sql_le_leb (v : value) (p : string) :
  sql_test SqlLe v p =
    match v with VText s => String.leb s p | VNull => false | _ => true end.
Proof.
  destruct v as [ | z | f | s]; reflexivity.
Qed.

Lemma sql_eq_eq_str (v : value) (p : string) :
  sql_test SqlEq v p = eq_str v p.
Proof.
  destruct v as [ | z | f | s]; try reflexivity.
  unfold sql_test, sql_compare, eq_str.
  rewrite <- string_compare_Eq_eqb. now destruct (String.compare s p).
Qed.

Lemma window_conditions (r : row) (s e : string) :
  sql_test SqlGe (cell r "date") s && sql_test SqlLe (cell r "date") e =
  date_between s e r.
Proof.
  unfold date_between. rewrite sql_ge_leb, sql_le_leb.
  now destruct (cell r "date").
Qed.

Lemma strftime_truthy (x : date) : truthy (Some (strftime_Ymd x)) = true.
Proof. reflexivity. Qed.

Lemma strftime_or_else (x : date) :
  or_else (Some (strftime_Ymd x)) "" = strftime_Ymd x.
Proof. reflexivity. Qed.

Lemma and_where_provider (r : row) (provider : option string) :
  forallb (holds r) (and_where "provider" SqlEq provider) =
  scoped provider (cell r "provider").
Proof.
  unfold and_where, scoped, truthy, or_else.
  destruct provider as [p | ]; [ | reflexivity].
  destruct (String.eqb p ""); cbn; [reflexivity | ].
  now rewrite sql_eq_eq_str, andb_true_r.
Qed.

Lemma and_where_columns (c : string) (op : sql_op) (param : option string)
    (cols : list string) :
  mem c cols = true ->
  find (fun q : condition => negb (mem (fst (fst q)) cols))
    (and_where c op param) = None.
Proof.
  intros H. unfold and_where. destruct (truthy param); cbn; [ | reflexivity].
  now rewrite H.
Qed.

(** The ledger query of [check_budgets]: the rows whose date text lies
    between the two bounds and that pass the provider filter, under the
    columns of the table. *)
Lemma get_cost_data_window (start_date end_date : date)
    (provider : option string) (d : Database) :
  mem "date" (columns (cost_data d)) = true ->
  mem "provider" (columns (cost_data d)) = true ->
  get_cost_data (Some (strftime_Ymd start_date)) (Some (strftime_Ymd end_date))
    provider d =
  Ok (mkframe (columns (cost_data d))
        (filter
           (fun r =>
              date_between (strftime_Ymd start_date) (strftime_Ymd end_date) r &&
              scoped provider (cell r "provider"))
           (rows (cost_data d)))).
Proof.
  intros Hdate Hprov. unfold get_cost_data, read_sql_query.
  change (and_where "date" SqlGe (Some (strftime_Ymd start_date)))
    with [("date", SqlGe, strftime_Ymd start_date)].
  change (and_where "date" SqlLe (Some (strftime_Ymd end_date)))
    with [("date", SqlLe, strftime_Ymd end_date)].
  cbn [app find fst]. rewrite Hdate. cbn [negb].
  rewrite (and_where_columns _ _ _ _ Hprov).
  f_equal. f_equal. apply filter_ext. intros r.
  cbn [forallb holds]. rewrite and_where_provider, andb_assoc.
  now rewrite window_conditions.
Qed.

Lemma filter_filter {A : Type} (f g : A -> bool) (l : list A) :
  filter g (filter f l) = filter (fun x => f x && g x) l.
Proof.
  induction l as [ | x l IH]; cbn; [reflexivity | ].
  destruct (f x); cbn; [destruct (g x) | ]; now rewrite IH.
Qed.

Lemma mem_nonempty (c : string) (cols : list string) :
  mem c cols = true -> cols <> [].
Proof. now destruct cols. Qed.

Lemma empty_rows (cols : list string) (rs : list row) :
  cols <> [] ->
  empty (mkframe cols rs) = match rs with [] => true | _ => false end.
Proof. destruct cols; [congruence | reflexivity]. Qed.

Lemma where_eq_scoped (cols : list string) (rs : list row)
    (service : option string) :
  mem "service" cols = true ->
  (if truthy service
   then where_eq (mkframe cols rs) "service" (or_else service "")
   else Ok (mkframe cols rs)) =
  Ok (mkframe cols (filter (fun r => scoped service (cell r "service")) rs)).
Proof.
  intros H. unfold truthy, or_else, scoped, where_eq. cbn [columns rows].
  destruct service as [s | ].
  - destruct (String.eqb s ""); cbn [negb].
    + f_equal. f_equal. induction rs as [ | r rs IH]; cbn; congruence.
    + now rewrite H.
  - f_equal. f_equal. induction rs as [ | r rs IH]; cbn; congruence.
Qed.

Lemma cost_field_present (df : DataFrame) :
  cost_schema df = true -> mem (cost_field df) (columns df) = true.
Proof.
  unfold cost_schema, cost_field. intros H.
  apply andb_prop in H. destruct H as [_ H].
  destruct (mem "cost" (columns df)) eqn:E; [assumption | exact H].
Qed.

(** What [total_cost] adds up: the cost cells of the rows the query lists
    (date text between the bounds, provider) that pass the service mask; a
    budget whose query lists no row is skipped. *)
Lemma total_cost_rows (now : datetime) (d : Database) (b : entry.t)
    (start_date end_date : date) :
  cost_schema (cost_data d) = true ->
  period_window now (entry.period b) = Some (Ok (start_date, end_date)) ->
  let listed := fun r =>
    date_between (strftime_Ymd start_date) (strftime_Ymd end_date) r &&
    scoped (entry.provider b) (cell r "provider") in
  total_cost now d b =
    match filter listed (rows (cost_data d)) with
    | [] => Ok None
    | _ =>
        total <- pd.sum
                   (map (fun r => cell r (cost_field (cost_data d)))
                      (filter
                         (fun r =>
                            listed r &&
                            scoped (entry.service b) (cell r "service"))
                         (rows (cost_data d)))) ;;
        Ok (Some total)
    end.
Proof.
  intros Hs Hw listed. pose proof (cost_field_present _ Hs) as Hcf.
  unfold cost_schema in Hs.
  repeat (apply andb_prop in Hs; destruct Hs as [Hs ?]).
  unfold total_cost. rewrite Hw. cbn [bind].
  rewrite get_cost_data_window by assumption. cbn [bind]. fold listed.
  rewrite empty_rows by (eapply mem_nonempty; eassumption).
  destruct (filter listed (rows (cost_data d))) eqn:Hq; [reflexivity | ].
  rewrite <- Hq. rewrite where_eq_scoped by assumption. cbn [bind columns].
  fold (cost_field (cost_data d)).
  unfold getitem. cbn [columns rows]. rewrite Hcf. cbn [bind].
  rewrite filter_filter.
  destruct (pd.sum _); reflexivity.
Qed.

(** ** Date cells and calendar days *)

Lemma compare_append_tail (t : string) :
  forall a b : string,
    String.length a = String.length b ->
    String.compare (a ++ t) b =
    match String.compare a b with
    | Eq => match t with EmptyString => Eq | _ => Gt end
    | c => c
    end.
Proof.
  induction a as [ | x a IH]; intros [ | y b]; cbn; try discriminate.
  - intros _. now destruct t.
  - intros H. injection H as H. destruct (Ascii.compare x y); auto.
Qed.

Lemma strftime_length (x : date) : String.length (strftime_Ymd x) = 10%nat.
Proof. reflexivity. Qed.

Lemma date_compare_antisym (a b : date) :
  date_compare a b = CompOpp (date_compare b a).
Proof.
  unfold date_compare. rewrite (Z.compare_antisym (year a) (year b)).
  destruct (year a ?= year b); cbn; try reflexivity.
  rewrite (Z.compare_antisym (month a) (month b)).
  destruct (month a ?= month b); cbn; try reflexivity.
  apply Z.compare_antisym.
Qed.

(** A text that goes on after the date sorts after the date itself. *)
Lemma stamped_after_start (start_date x : date) (t : string) :
  valid_date start_date = true -> valid_date x = true ->
  String.leb (strftime_Ymd start_date) (strftime_Ymd x ++ t) =
  date_leb start_date x.
Proof.
  intros Hs Hx. unfold String.leb, date_leb.
  rewrite String.compare_antisym, compare_append_tail
    by (now rewrite !strftime_length).
  rewrite strftime_compare, (date_compare_antisym start_date x) by assumption.
  destruct (date_compare x start_date); destruct t; reflexivity.
Qed.

Lemma stamped_before_end (end_date x : date) (t : string) :
  valid_date end_date = true -> valid_date x = true -> t <> "" ->
  String.leb (strftime_Ymd x ++ t) (strftime_Ymd end_date) =
  date_ltb x end_date.
Proof.
  intros He Hx Ht. unfold String.leb, date_ltb.
  rewrite compare_append_tail by (now rewrite !strftime_length).
  rewrite strftime_compare by assumption.
  destruct (date_compare x end_date); destruct t; congruence.
Qed.

Lemma date_ltb_leb (a b : date) : date_ltb a b = true -> date_leb a b = true.
Proof. unfold date_ltb, date_leb. now destruct (date_compare a b). Qed.

Lemma string_append_nil (s : string) : (s ++ "")%string = s.
Proof. induction s as [ | c s IH]; cbn; congruence. Qed.

Lemma digit_congr (a b : Z) : a mod 10 = b mod 10 -> digit a = digit b.
Proof. unfold digit. now intros ->. Qed.

Lemma digit_of_value (c : ascii) (n : Z) :
  digit_value c = Some n -> 0 <= n <= 9 /\ digit n = c.
Proof.
  unfold digit_value. cbv zeta.
  destruct ((48 <=? Z.of_N (N_of_ascii c)) && (Z.of_N (N_of_ascii c) <=? 57))
    eqn:E; [ | discriminate].
  intros H. injection H as <-. apply andb_prop in E. destruct E as [E1 E2].
  apply Z.leb_le in E1, E2. split; [lia | ].
  unfold digit. rewrite Z.mod_small by lia.
  replace (48 + Z.to_nat (Z.of_N (N_of_ascii c) - 48))%nat
    with (nat_of_ascii c) by (unfold nat_of_ascii; lia).
  apply ascii_nat_embedding.
Qed.

Lemma two_digits_pad (c1 c2 : ascii) (n : Z) :
  two_digits c1 c2 = Some n ->
  0 <= n <= 99 /\ pad2 n = String c1 (String c2 "").
Proof.
  unfold two_digits.
  destruct (digit_value c1) as [a | ] eqn:E1; [ | discriminate].
  destruct (digit_value c2) as [b | ] eqn:E2; [ | discriminate].
  intros H. assert (Hn : n = 10 * a + b) by congruence. subst n. clear H.
  apply digit_of_value in E1, E2. destruct E1 as [Ha <-], E2 as [Hb <-].
  split; [lia | ]. unfold pad2. f_equal; [ | f_equal].
  - apply digit_congr. Z.div_mod_to_equations. lia.
  - apply digit_congr. Z.div_mod_to_equations. lia.
Qed.

Lemma pad4_split (yh yl : Z) :
  0 <= yh <= 99 -> 0 <= yl <= 99 ->
  pad4 (100 * yh + yl) = (pad2 yh ++ pad2 yl)%string.
Proof.
  intros Hh Hl. unfold pad4, pad2. cbn [append].
  f_equal; [ | f_equal; [ | f_equal; [ | f_equal]]];
    apply digit_congr; Z.div_mod_to_equations; lia.
Qed.

(** A text that starts with a day is that day as [strftime] prints it,
    followed by the rest. *)
Lemma day_prefix_text (s : string) (x : date) (rest : string) :
  day_prefix s = Some (x, rest) ->
  valid_date x = true /\ s = (strftime_Ymd x ++ rest)%string.
Proof.
  unfold day_prefix.
  destruct s as [ | y1 [ | y2 [ | y3 [ | y4 [ | h1 [ | m1 [ | m2 [ | h2
    [ | d1 [ | d2 rest']]]]]]]]]]; try discriminate.
  destruct (two_digits y1 y2) as [yh | ] eqn:Eyh; [ | discriminate].
  destruct (two_digits y3 y4) as [yl | ] eqn:Eyl; [ | discriminate].
  destruct (two_digits m1 m2) as [m | ] eqn:Em; [ | discriminate].
  destruct (two_digits d1 d2) as [dd | ] eqn:Ed; [ | discriminate].
  destruct (Ascii.eqb h1 "-" && Ascii.eqb h2 "-" && valid (100 * yh + yl) m dd)
    eqn:E; [ | discriminate].
  intros H.
  assert (Hx : x = mkdate (100 * yh + yl) m dd) by congruence.
  assert (Hrest : rest = rest') by congruence. subst x rest. clear H.
  apply andb_prop in E. destruct E as [E Hv].
  apply andb_prop in E. destruct E as [E1 E2].
  apply Ascii.eqb_eq in E1, E2. subst h1 h2.
  apply two_digits_pad in Eyh, Eyl, Em, Ed.
  destruct Eyh as [Hyh Pyh], Eyl as [Hyl Pyl], Em as [_ Pm], Ed as [_ Pd].
  split; [exact Hv | ].
  unfold strftime_Ymd. cbn [year month day].
  rewrite pad4_split, Pyh, Pyl, Pm, Pd by assumption. reflexivity.
Qed.

Lemma record_date_text (r : row) (x : date) :
  record_date r = Some x ->
  valid_date x = true /\
  exists rest, cell r "date" = VText (strftime_Ymd x ++ rest).
Proof.
  unfold record_date. destruct (cell r "date") as [ | z | f | s];
    try discriminate.
  destruct (day_prefix s) as [[x' rest] | ] eqn:E; [ | discriminate].
  cbn. intros H. injection H as <-.
  apply day_prefix_text in E. destruct E as [Hv ->].
  split; [exact Hv | ]. eexists. reflexivity.
Qed.

Lemma plain_date_text (r : row) :
  plain_date r = true ->
  exists x, valid_date x = true /\ record_date r = Some x /\
            cell r "date" = VText (strftime_Ymd x).
Proof.
  unfold plain_date, record_date.
  destruct (cell r "date") as [ | z | f | s]; try discriminate.
  destruct (day_prefix s) as [[x rest] | ] eqn:E; [ | discriminate].
  intros H. apply String.eqb_eq in H. subst rest.
  apply day_prefix_text in E. destruct E as [Hv ->].
  exists x. rewrite string_append_nil. auto.
Qed.

(** On a date cell that holds a date and nothing else, the text test of the
    query is the calendar window. *)
Lemma plain_date_between (start_date end_date : date) (r : row) :
  valid_date start_date = true -> valid_date end_date = true ->
  plain_date r = true ->
  date_between (strftime_Ymd start_date) (strftime_Ymd end_date) r =
  in_window start_date end_date r.
Proof.
  intros Hs He Hp. destruct (plain_date_text r Hp) as (x & Hx & Hr & Hc).
  unfold date_between, in_window. rewrite Hr, Hc.
  now rewrite !strftime_leb.
Qed.

(** On a date cell that holds a date, with or without more text, the text
    test of the query lets through no record from outside the calendar
    window. *)
Lemma dated_between (start_date end_date : date) (r : row) (x : date) :
  valid_date start_date = true -> valid_date end_date = true ->
  record_date r = Some x ->
  date_between (strftime_Ymd start_date) (strftime_Ymd end_date) r = true ->
  in_window start_date end_date r = true.
Proof.
  intros Hs He Hr. destruct (record_date_text r x Hr) as (Hx & rest & Hc).
  unfold date_between, in_window. rewrite Hr, Hc.
  rewrite stamped_after_start by assumption.
  intros H. apply andb_prop in H. destruct H as [H1 H2]. rewrite H1. cbn.
  destruct rest as [ | c rest].
  - rewrite string_append_nil in H2. now rewrite strftime_leb in H2.
  - rewrite stamped_before_end in H2 by (assumption || discriminate).
    now apply date_ltb_leb.
Qed.

Lemma window_valid (now : datetime) (period : string)
    (start_date end_date : date) :
  valid_datetime now = true ->
  period_window now period = Some (Ok (start_date, end_date)) ->
  valid_date start_date = true /\ valid_date end_date = true.
Proof.
  intros Hv. unfold period_window.
  destruct (period_start now period) as [[s | e] | ] eqn:E; cbn;
    try discriminate.
  intros H. injection H as <- <-. split; [ | exact Hv].
  unfold period_start, date_new in E.
  repeat match type of E with
         | context [if String.eqb ?a ?b then _ else _] =>
             destruct (String.eqb a b)
         end;
    try discriminate;
    match type of E with
    | context [valid ?y ?m ?dd] => destruct (valid y m dd) eqn:V
    end;
    try discriminate; injection E as <-; exact V.
Qed.

Lemma filter_ext_rows {A : Type} (f g : A -> bool) (l : list A) :
  (forall x, In x l -> f x = g x) -> filter f l = filter g l.
Proof.
  induction l as [ | x l IH]; cbn; intros H; [reflexivity | ].
  rewrite (H x) by now left. rewrite IH by (intros; apply H; now right).
  reflexivity.
Qed.

(** On a ledger of plain dates, [total_cost] computes the spend of the
    specification over the calendar window, except that a budget whose
    query returns nothing is skipped. *)
Lemma total_cost_spec (now : datetime) (d : Database) (b : entry.t)
    (w : date * date) :
  valid_datetime now = true ->
  cost_schema (cost_data d) = true ->
  plain_dates (cost_data d) = true ->
  period_window now (entry.period b) = Some (Ok w) ->
  total_cost now d b =
    match queried_records now b d with
    | [] => Ok None
    | _ => total <- spend now b d ;; Ok (Some total)
    end.
Proof.
  intros Hv Hs Hp Hw. destruct w as [start_date end_date].
  destruct (window_valid _ _ _ _ Hv Hw) as [Vs Ve].
  rewrite (total_cost_rows now d b start_date end_date Hs Hw). cbv zeta.
  unfold spend, queried_records, matching_records. rewrite Hw.
  unfold plain_dates in Hp. rewrite forallb_forall in Hp.
  rewrite (filter_ext_rows
             (fun r =>
                date_between (strftime_Ymd start_date) (strftime_Ymd end_date) r &&
                scoped (entry.provider b) (cell r "provider"))
             (fun r =>
                in_window start_date end_date r &&
                scoped (entry.provider b) (cell r "provider")))
    by (intros r Hr; now rewrite plain_date_between by auto).
  rewrite (filter_ext_rows
             (fun r =>
                date_between (strftime_Ymd start_date) (strftime_Ymd end_date) r &&
                scoped (entry.provider b) (cell r "provider") &&
                scoped (entry.service b) (cell r "service"))
             (in_scope start_date end_date b))
    by (intros r Hr; unfold in_scope; now rewrite plain_date_between by auto).
  reflexivity.
Qed.

(** C3. On a ledger whose [date] cells hold plain calendar dates, as the
    declared type of the column has it, the spend [check_budgets] measures a
    budget on is the sum of the cost column ([cost], or [amount] when the
    frame has no [cost]) over the records dated within the calendar window,
    of the budget's provider when one is set (filtered by the query) and of
    the budget's service when one is set (filtered in memory); a budget
    whose query returns no record is skipped. On the AWS-Compute scenario
    (EC2 records of 400 and 220 in the window, S3 records of 300) exactly
    one alert results, with spend 620 and 24.0 percent over, under either
    name of the cost column. On the same scenario with the dates stored as
    [store_cost_data] stores them, with a time of day, the EC2 record of the
    day of the evaluation lies in the window and is left out by the query:
    the spend in the window is 620, [check_budgets] measures 400 and raises
    no alert. *)
Theorem C3_spend_aggregation :
  (forall (now : datetime) (d : Database) (b : entry.t) (w : date * date),
      valid_datetime now = true ->
      cost_schema (cost_data d) = true ->
      plain_dates (cost_data d) = true ->
      period_window now (entry.period b) = Some (Ok w) ->
      total_cost now d b =
        match queried_records now b d with
        | [] => Ok None
        | _ => total <- spend now b d ;; Ok (Some total)
        end) /\
  spend scenario.now scenario.aws_compute_entry scenario.database = Ok 620%float /\
  check_budgets scenario.now scenario.database
    (script.load_budgets [scenario.aws_compute]) =
    Ok ([scenario.aws_compute_alert],
        mkself [("AWS-Compute",
                 touch scenario.now scenario.aws_compute_entry)] []) /\
  check_budgets scenario.now scenario.database_amount
    (script.load_budgets [scenario.aws_compute]) =
    Ok ([scenario.aws_compute_alert],
        mkself [("AWS-Compute",
                 touch scenario.now scenario.aws_compute_entry)] []) /\
  spend scenario.now scenario.aws_compute_entry coverage.timestamp_database
    = Ok 620%float /\
  total_cost scenario.now coverage.timestamp_database scenario.aws_compute_entry
    = Ok (Some 400%float) /\
  check_budgets scenario.now coverage.timestamp_database
    (script.load_budgets [scenario.aws_compute]) =
    Ok ([], mkself [("AWS-Compute", scenario.aws_compute_entry)] []).
Proof.
  split; [ | repeat split; vm_compute; reflexivity].
  intros now d b w Hv Hs Hp Hw. now apply total_cost_spec with (w := w).
Qed.

(** The general part of C3 at the scenario: the spend of the AWS-Compute
    budget is computed and is 620. *)
Lemma C3_spend_aggregation_witness :
  total_cost scenario.now scenario.database scenario.aws_compute_entry =
  Ok (Some 620%float).
Proof.
  rewrite (proj1 C3_spend_aggregation scenario.now scenario.database
             scenario.aws_compute_entry
             (mkdate 2024 3 1, mkdate 2024 3 15) eq_refl eq_refl eq_refl
             eq_refl).
  vm_compute. reflexivity.
Defined.

(** ** Budgets the evaluator passes over *)

Lemma check_items_app (now : datetime) (d : Database) :
  forall l1 l2,
    check_items now d (l1 ++ l2)%list =
    (r1 <- check_items now d l1 ;;
     r2 <- check_items now d l2 ;;
     Ok (fst r1 ++ fst r2, snd r1 ++ snd r2)%list).
Proof.
  induction l1 as [ | [n b] l1 IH]; intros l2.
  - cbn. destruct (check_items now d l2) as [[? ?] | ]; reflexivity.
  - cbn [app check_items]. rewrite IH.
    destruct (check_budget now d n b) as [a | e]; cbn [bind]; [ | reflexivity].
    destruct (check_items now d l1) as [[al1 r1] | e]; cbn [bind];
      [ | reflexivity].
    destruct (check_items now d l2) as [[al2 r2] | e]; destruct a; reflexivity.
Qed.

Lemma check_items_length (now : datetime) (d : Database) :
  forall items alerts items',
    check_items now d items = Ok (alerts, items') ->
    List.length items' = List.length items.
Proof.
  induction items as [ | [n b] rest IH]; intros alerts items' H.
  - cbn in H. now injection H as <- <-.
  - cbn [check_items] in H. bind_inv H. bind_inv H.
    destruct x0 as [al r']. apply IH in Hx0.
    destruct x; injection H as <- <-; cbn; congruence.
Qed.

Lemma unknown_period_no_window (now : datetime) (period : string) :
  ~ known_period period -> period_window now period = None.
Proof.
  unfold known_period, period_window, period_start. intros H.
  destruct (String.eqb_spec period "monthly"); [tauto | ].
  destruct (String.eqb_spec period "quarterly"); [tauto | ].
  destruct (String.eqb_spec period "yearly"); [tauto | reflexivity].
Qed.

(** C4. A budget whose period is none of 'monthly', 'quarterly', 'yearly' is
    skipped: its turn of the loop yields no alert and raises nothing, and
    [check_budgets] returns (or raises) on the registry holding it exactly
    what it does on the registry without it, the skipped entry staying in
    place untouched. *)
Theorem C4_unknown_period_skipped (now : datetime) (d : Database)
    (name : string) (b : entry.t) :
  ~ known_period (entry.period b) ->
  check_budget now d name b = Ok None /\
  forall (pre post : dict entry.t) (notes : list alert.t),
    match check_budgets now d (mkself (pre ++ post)%list notes) with
    | Ok (alerts, self') =>
        exists pre' post',
          budgets self' = (pre' ++ post')%list /\
          List.length pre' = List.length pre /\
          check_budgets now d (mkself (pre ++ (name, b) :: post)%list notes) =
            Ok (alerts, mkself (pre' ++ (name, b) :: post')%list notes)
    | Raise e =>
        check_budgets now d (mkself (pre ++ (name, b) :: post)%list notes) = Raise e
    end.
Proof.
  intros Hp.
  assert (Hskip : check_budget now d name b = Ok None).
  { unfold check_budget, total_cost.
    now rewrite (unknown_period_no_window _ _ Hp). }
  split; [exact Hskip | ].
  intros pre post notes. unfold check_budgets. cbn [budgets notifications].
  rewrite !check_items_app. cbn [check_items]. rewrite Hskip. cbn [bind].
  destruct (check_items now d pre) as [[al1 pre'] | e] eqn:Hpre; cbn [bind];
    [ | reflexivity].
  destruct (check_items now d post) as [[al2 post'] | e]; cbn [bind fst snd];
    [ | reflexivity].
  exists pre', post'. repeat split.
  eapply check_items_length; eassumption.
Qed.

(** A 'weekly' budget between no other budgets. *)
Lemma C4_unknown_period_skipped_witness :
  check_budget scenario.now scenario.database "Sprint" scenario.weekly_entry
    = Ok None /\
  check_budgets scenario.now scenario.database
    (mkself [("Sprint", scenario.weekly_entry)] []) =
    Ok ([], mkself [("Sprint", scenario.weekly_entry)] []).
Proof.
  assert (Hp : ~ known_period (entry.period scenario.weekly_entry)).
  { intros [H | [H | H]]; discriminate H. }
  pose proof (C4_unknown_period_skipped scenario.now scenario.database
                "Sprint" scenario.weekly_entry Hp) as [Hskip Hloop].
  split; [exact Hskip | ].
  specialize (Hloop [] [] []).
  change (check_budgets scenario.now scenario.database (mkself ([] ++ []) []))
    with (Ok (@nil alert.t, mkself [] [])) in Hloop.
  destruct Hloop as (pre' & post' & Hb & Hl & H).
  destruct pre'; [ | discriminate Hl].
  cbn in Hb. subst post'. exact H.
Defined.

Lemma period_window_total (now : datetime) (period : string) :
  valid_datetime now = true ->
  period_window now period = None \/
  exists w, period_window now period = Some (Ok w).
Proof.
  unfold valid_datetime. intros Hv.
  unfold period_window, period_start, date_new.
  destruct (String.eqb period "monthly").
  { rewrite (valid_first_of_month _ _ _ Hv). right. eexists. reflexivity. }
  destruct (String.eqb period "quarterly").
  { rewrite (valid_first_of_quarter _ _ _ Hv). right. eexists. reflexivity. }
  destruct (String.eqb period "yearly").
  { rewrite (valid_first_of_year _ _ _ Hv). right. eexists. reflexivity. }
  now left.
Qed.

Lemma filter_nil_incl {A : Type} (f g : A -> bool) (l : list A) :
  (forall x, In x l -> f x = true -> g x = true) ->
  filter g l = [] -> filter f l = [].
Proof.
  induction l as [ | x l IH]; cbn; intros H Hg; [reflexivity | ].
  destruct (f x) eqn:Ef.
  - rewrite (H x (or_introl eq_refl) Ef) in Hg. discriminate.
  - apply IH; [intros; apply H; auto | ].
    destruct (g x); [discriminate | assumption].
Qed.

(** C5, amended. For every budget whose amount is at least 0, on a ledger
    that has the columns the evaluator reads and whose [date] cells each
    hold a calendar date (alone or followed by a time of day): when no
    record matches the budget's window and filters, the budget's turn of the
    loop raises nothing and yields no alert: either the budget is skipped
    (the query returned nothing) or its spend is 0, which the amount is not
    below. No alert named after the budget is among those of
    [check_budgets]. *)
Theorem C5_no_records_no_alert (now : datetime) (d : Database)
    (name : string) (b : entry.t) :
  valid_datetime now = true ->
  cost_schema (cost_data d) = true ->
  dated (cost_data d) = true ->
  (0 <=? entry.amount b)%float = true ->
  matching_records now b d = [] ->
  (total_cost now d b = Ok None \/ total_cost now d b = Ok (Some 0%float)) /\
  check_budget now d name b = Ok None /\
  forall self self' alerts,
    NoDup (keys (budgets self)) ->
    In (name, b) (budgets self) ->
    check_budgets now d self = Ok (alerts, self') ->
    ~ exists a, In a alerts /\ alert.name a = name.
Proof.
  intros Hv Hs Hd Hamt Hm.
  assert (Ht : total_cost now d b = Ok None \/
               total_cost now d b = Ok (Some 0%float)).
  { destruct (period_window_total now (entry.period b) Hv)
      as [Hw | [[start_date end_date] Hw]].
    - left. unfold total_cost. now rewrite Hw.
    - destruct (window_valid _ _ _ _ Hv Hw) as [Vs Ve].
      rewrite (total_cost_rows now d b start_date end_date Hs Hw). cbv zeta.
      unfold matching_records in Hm. rewrite Hw in Hm.
      unfold dated in Hd. rewrite forallb_forall in Hd.
      assert (Hnone :
        filter
          (fun r =>
             date_between (strftime_Ymd start_date) (strftime_Ymd end_date) r &&
             scoped (entry.provider b) (cell r "provider") &&
             scoped (entry.service b) (cell r "service"))
          (rows (cost_data d)) = []).
      { apply (filter_nil_incl _ (in_scope start_date end_date b));
          [ | exact Hm].
        intros r Hr H. apply andb_prop in H. destruct H as [H Hsvc].
        apply andb_prop in H. destruct H as [Hdate Hprov].
        unfold in_scope. rewrite Hprov, Hsvc, !andb_true_r.
        specialize (Hd r Hr).
        destruct (record_date r) as [x | ] eqn:Ex; [ | discriminate].
        now apply (dated_between _ _ _ x). }
      rewrite Hnone. clear Hnone Hm.
      match goal with
      | |- context [match ?l with [] => _ | _ :: _ => _ end] => destruct l
      end; [now left | right].
      reflexivity. }
  assert (Hc : check_budget now d name b = Ok None).
  { unfold check_budget. destruct Ht as [-> | ->]; cbn [bind]; [reflexivity | ].
    now rewrite (nonneg_not_below_zero _ Hamt). }
  repeat split; try assumption.
  intros self self' alerts Hnd Hin Hcb (a & Ha).
  apply (alerts_of_budget now d self self' alerts name b Hnd Hin Hcb) in Ha.
  congruence.
Qed.

(** The ledger has AWS records in the window, none of the Lambda service:
    the spend is 0 and no alert results. *)
Lemma C5_no_records_no_alert_witness :
  (total_cost scenario.now scenario.database scenario.lambda_entry = Ok None \/
   total_cost scenario.now scenario.database scenario.lambda_entry
     = Ok (Some 0%float)) /\
  check_budget scenario.now scenario.database "Functions" scenario.lambda_entry
    = Ok None /\
  forall self self' alerts,
    NoDup (keys (budgets self)) ->
    In ("Functions", scenario.lambda_entry) (budgets self) ->
    check_budgets scenario.now scenario.database self = Ok (alerts, self') ->
    ~ exists a, In a alerts /\ alert.name a = "Functions".
Proof.
  apply (C5_no_records_no_alert scenario.now scenario.database "Functions"
           scenario.lambda_entry).
  - reflexivity.
  - reflexivity.
  - reflexivity.
  - reflexivity.
  - vm_compute. reflexivity.
Defined.

(** C5, as stated for every budget, fails in three ways, each on a budget
    no record of the ledger matches. A budget with an amount below zero: the
    code compares the spend 0 with the amount as it is, and the budget of -5
    whose service has no record in the window (its provider has some, so the
    query result is not empty) is reported, 100 percent under. A ledger
    without the [service] column: the service mask raises [KeyError]. A
    [date] cell that is no date: the text '2024-03-1' lies between
    '2024-03-01' and '2024-03-15' in the order of texts, the query returns
    the record, and its cost of 900 is reported against the budget of
    500. *)
Lemma C5_no_records_counterexample :
  (valid_datetime scenario.now = true /\
   matching_records scenario.now scenario.negative_entry scenario.database = [] /\
   check_budgets scenario.now scenario.database
     (mkself [("Refund", scenario.negative_entry)] []) =
     Ok ([alert.mk "Refund" (-5) 0 (-100) "monthly" "AWS" "Lambda" "2024-03-15"],
         mkself [("Refund", touch scenario.now scenario.negative_entry)] [])) /\
  (matching_records scenario.now scenario.aws_compute_entry
     coverage.unserviced_database = [] /\
   check_budgets scenario.now coverage.unserviced_database
     (mkself [("AWS-Compute", scenario.aws_compute_entry)] []) =
     Raise (KeyError "service")) /\
  (matching_records scenario.now scenario.aws_compute_entry
     coverage.undated_database = [] /\
   check_budgets scenario.now coverage.undated_database
     (mkself [("AWS-Compute", scenario.aws_compute_entry)] []) =
     Ok ([alert.mk "AWS-Compute" 500 900 80 "monthly" "AWS" "EC2" "2024-03-15"],
         mkself [("AWS-Compute",
                  touch scenario.now scenario.aws_compute_entry)] [])).
Proof. repeat split; vm_compute; reflexivity. Qed.

(** ** The alert table *)

Import notification script.

Lemma fold_max_ge (l : list Z) (i : Z) :
  i <= fold_left Z.max l i /\ Forall (fun x => x <= fold_left Z.max l i) l.
Proof.
  revert i. induction l as [ | x l IH]; intros i; cbn.
  - split; [lia | constructor].
  - destruct (IH (Z.max i x)) as [H1 H2]. split; [lia | ].
    constructor; [lia | exact H2].
Qed.

(** The id of a new row is above every id in use. *)
Lemma next_rowid_fresh (ids : list Z) :
  Forall (fun x => x < next_rowid ids) ids.
Proof.
  destruct ids as [ | i rest]; [constructor | ].
  unfold next_rowid. destruct (fold_max_ge rest i) as [H1 H2].
  constructor; [lia | ].
  eapply Forall_impl; [ | exact H2]. cbn. intros; lia.
Qed.

Lemma find_none_app {A : Type} (f : A -> bool) (l : list A) (x : A) :
  Forall (fun a => f a = false) l -> find f (l ++ [x]) = find f [x].
Proof.
  induction 1 as [ | a l Ha _ IH]; [reflexivity | ].
  cbn [app find]. now rewrite Ha.
Qed.

Lemma map_untouched {A : Type} (f : A -> bool) (g : A -> A) (l : list A) :
  Forall (fun a => f a = false) l ->
  map (fun a => if f a then g a else a) l = l.
Proof.
  induction 1 as [ | a l Ha _ IH]; [reflexivity | ].
  cbn. now rewrite Ha, IH.
Qed.

Lemma older_ids_differ (alerts : list BudgetAlert.t) :
  Forall
    (fun a => (BudgetAlert.id a =? next_rowid (map BudgetAlert.id alerts)) = false)
    alerts.
Proof.
  pose proof (next_rowid_fresh (map BudgetAlert.id alerts)) as H.
  rewrite Forall_map in H. eapply Forall_impl; [ | exact H].
  cbn. intros a Ha. apply Z.eqb_neq. lia.
Qed.

(** Marking the alert just stored touches that row and no other. *)
Lemma mark_stored_alert (now : datetime) (budget_id : Z)
    (actual_cost percentage : float) (d : Database) :
  let alert_id := next_rowid (map BudgetAlert.id (budget_alerts d)) in
  mark_alert_notified alert_id
    (snd (store_budget_alert now budget_id actual_cost percentage d)) =
  mkdb (cost_data d) (db.budgets d)
    (budget_alerts d ++
     [BudgetAlert.mk alert_id budget_id actual_cost percentage now true]).
Proof.
  intros alert_id. unfold store_budget_alert, mark_alert_notified.
  fold alert_id. cbn [snd budget_alerts cost_data db.budgets].
  pose proof (older_ids_differ (budget_alerts d)) as Hold. fold alert_id in Hold.
  rewrite (find_none_app _ _ _ Hold). cbn [find BudgetAlert.id].
  rewrite Z.eqb_refl. cbn [BudgetAlert.id]. f_equal.
  rewrite map_app. cbn [map BudgetAlert.id]. rewrite Z.eqb_refl.
  now rewrite (map_untouched _ _ _ Hold).
Qed.

(** One turn of the script's loop, when the budget of the alert is found
    and the new row got a usable id: one row is added, whose [notified] flag
    is the disjunction of the two channels' results. *)
Lemma process_alert_spec (fmt : formats) (cfg : config.t) (net : network)
    (now : datetime) (budgets_df : list Budget.t) (st : state) (a : alert.t)
    (b : Budget.t) :
  find (fun x => String.eqb (Budget.name x) (alert.name a)) budgets_df = Some b ->
  let alert_id := next_rowid (map BudgetAlert.id (budget_alerts (database st))) in
  let r := dispatch fmt cfg net a (trace st) in
  let sent := negb (alert_id =? 0) && (fst (fst r) || snd (fst r)) in
  process_alert fmt cfg net now budgets_df st a =
  mkstate
    (mkdb (cost_data (database st)) (db.budgets (database st))
       (budget_alerts (database st) ++
        [BudgetAlert.mk alert_id (Budget.id b) (alert.actual a)
           (alert.percentage a) now sent]))
    (if alert_id =? 0 then trace st else snd r).
Proof.
  intros Hfind alert_id r sent. unfold process_alert. rewrite Hfind.
  pose proof (mark_stored_alert now (Budget.id b) (alert.actual a)
                (alert.percentage a) (database st)) as Hmark.
  cbv zeta in Hmark. unfold store_budget_alert in *. cbn [snd] in Hmark.
  subst sent r alert_id.
  destruct (next_rowid (map BudgetAlert.id (budget_alerts (database st))) =? 0);
    [reflexivity | ].
  destruct (dispatch fmt cfg net a (trace st)) as [[e s] tr].
  cbn [fst snd negb andb].
  destruct (e || s); [now rewrite Hmark | reflexivity].
Qed.

(** ** The two channels *)

Import ledger.

Lemma send_email_unconfigured (cfg : config.t) (net : network)
    (subject body : string) (recipients : option (list string)) (html : bool)
    (tr : list request) :
  config.ENABLE_EMAIL cfg = false \/ config.EMAIL_SENDER cfg = "" \/
  ((recipients = None \/ recipients = Some []) /\
   config.EMAIL_RECIPIENTS cfg = []) ->
  send_email cfg net subject body recipients html tr = (false, tr).
Proof.
  unfold send_email. intros [H | [H | [Hr H]]].
  - now rewrite H.
  - rewrite H. cbn. now rewrite orb_true_r.
  - destruct (negb (config.ENABLE_EMAIL cfg) ||
              String.eqb (config.EMAIL_SENDER cfg) ""); [reflexivity | ].
    destruct Hr as [-> | ->]; now rewrite H.
Qed.

Lemma send_slack_unconfigured (cfg : config.t) (net : network)
    (message : string) (webhook_url : option string) (tr : list request) :
  config.ENABLE_SLACK cfg = false \/
  or_else webhook_url (config.SLACK_WEBHOOK_URL cfg) = "" ->
  send_slack_notification cfg net message webhook_url tr = (false, tr).
Proof.
  unfold send_slack_notification. intros [H | H].
  - now rewrite H.
  - rewrite H. now destruct (negb (config.ENABLE_SLACK cfg)).
Qed.

Lemma send_email_failed (cfg : config.t) (net : network)
    (subject body : string) (recipients : option (list string)) (html : bool)
    (tr : list request) :
  (forall rq, net tr rq = Failed) ->
  fst (send_email cfg net subject body recipients html tr) = false.
Proof.
  intros Hnet. unfold send_email, attempt.
  destruct (negb (config.ENABLE_EMAIL cfg) ||
            String.eqb (config.EMAIL_SENDER cfg) ""); [reflexivity | ].
  match goal with |- context [match ?l with [] => _ | _ :: _ => _ end] =>
    destruct l; [reflexivity | ] end.
  now rewrite Hnet.
Qed.

Lemma send_slack_failed (cfg : config.t) (net : network)
    (message : string) (webhook_url : option string) (tr : list request) :
  (forall rq, net tr rq = Failed) ->
  fst (send_slack_notification cfg net message webhook_url tr) = false.
Proof.
  intros Hnet. unfold send_slack_notification, attempt.
  destruct (negb (config.ENABLE_SLACK cfg)); [reflexivity | ].
  destruct (String.eqb _ ""); [reflexivity | ].
  now rewrite Hnet.
Qed.

Lemma dispatch_unfold (fmt : formats) (cfg : config.t) (net : network)
    (a : alert.t) (tr : list request) :
  let e := send_email cfg net (subject fmt a) (body fmt a) None true tr in
  let s := send_slack_notification cfg net (message fmt a) None (snd e) in
  dispatch fmt cfg net a tr = (fst e, fst s, snd s).
Proof.
  cbv zeta. unfold dispatch.
  destruct (send_email cfg net (subject fmt a) (body fmt a) None true tr)
    as [e tr1]. cbn [fst snd].
  now destruct (send_slack_notification cfg net (message fmt a) None tr1).
Qed.

Lemma dispatch_disabled (fmt : formats) (cfg : config.t) (net : network)
    (a : alert.t) (tr : list request) :
  config.ENABLE_EMAIL cfg = false -> config.ENABLE_SLACK cfg = false ->
  dispatch fmt cfg net a tr = (false, false, tr).
Proof.
  intros He Hs. rewrite dispatch_unfold.
  rewrite send_email_unconfigured by auto. cbn [fst snd].
  now rewrite send_slack_unconfigured by auto.
Qed.

(** A dispatch makes one request per configured channel. *)
Lemma dispatch_trace (fmt : formats) (cfg : config.t) (net : network)
    (a : alert.t) (tr : list request) :
  List.length (snd (dispatch fmt cfg net a tr)) =
  (List.length tr + channels cfg)%nat.
Proof.
  rewrite dispatch_unfold. cbn [snd].
  unfold channels, email_configured, slack_configured.
  unfold send_slack_notification, send_email, attempt.
  destruct (config.ENABLE_EMAIL cfg), (config.ENABLE_SLACK cfg);
    cbn [negb orb andb or_else];
    destruct (String.eqb (config.EMAIL_SENDER cfg) "");
    destruct (String.eqb (config.SLACK_WEBHOOK_URL cfg) "");
    destruct (config.EMAIL_RECIPIENTS cfg);
    cbn [negb orb andb snd fst];
    repeat match goal with
      | |- context [net ?t ?r] => destruct (net t r)
      end;
    cbn [snd]; rewrite ?length_app; cbn [List.length]; lia.
Qed.

(** ** One run of the script *)

Lemma keys_dict_set {V : Type} (k k' : string) (v : V) (d : dict V) :
  In k (keys (dict_set k' v d)) -> k = k' \/ In k (keys d).
Proof.
  unfold keys. induction d as [ | [k0 v0] d IH]; cbn.
  - intros [<- | []]. now left.
  - destruct (String.eqb_spec k0 k') as [-> | Hne]; cbn.
    + intros [<- | H]; auto.
    + intros [<- | H]; auto. destruct (IH H); auto.
Qed.

Lemma load_budgets_keys (budgets_df : list Budget.t) :
  forall self k,
    In k (keys (budgets
      (fold_left
         (fun self b =>
            add_budget (Budget.name b) (Budget.amount b) (Budget.period b)
              (Budget.provider b) (Budget.service b) self)
         budgets_df self))) ->
    In k (keys (budgets self)) \/ In k (map Budget.name budgets_df).
Proof.
  induction budgets_df as [ | b rest IH]; intros self k H; cbn in *.
  - now left.
  - apply IH in H. destruct H as [H | H]; [ | auto].
    unfold add_budget in H. cbn [budgets] in H.
    apply keys_dict_set in H. destruct H as [-> | H]; auto.
Qed.

Lemma find_by_name (budgets_df : list Budget.t) (name : string) :
  In name (map Budget.name budgets_df) ->
  exists b, find (fun x => String.eqb (Budget.name x) name) budgets_df = Some b.
Proof.
  induction budgets_df as [ | b rest IH]; cbn; [intros [] | ].
  intros H. destruct (String.eqb_spec (Budget.name b) name) as [E | Hne].
  - eauto.
  - destruct H as [H | H]; [contradiction | auto].
Qed.

(** Every alert of the evaluation is named after a row of the budget table,
    so the script finds its budget id. *)
Lemma alerts_have_budgets (now : datetime) (d : Database)
    (budgets_df : list Budget.t) (alerts : list alert.t) (self' : BudgetAlert) :
  check_budgets now d (load_budgets budgets_df) = Ok (alerts, self') ->
  Forall
    (fun a => exists b,
       find (fun x => String.eqb (Budget.name x) (alert.name a)) budgets_df
         = Some b)
    alerts.
Proof.
  intros H. unfold check_budgets in H. bind_inv H. destruct x as [als items'].
  injection H as -> <-. apply Forall_forall. intros a Ha.
  apply (check_items_alerts _ _ _ _ _ Hx) in Ha.
  destruct Ha as (n & b & Hin & Hc).
  apply check_budget_alert in Hc. destruct Hc as (t & _ & _ & ->).
  cbn [alert.name make_alert]. apply find_by_name.
  assert (Hk : In n (keys (budgets (load_budgets budgets_df)))).
  { unfold keys. change n with (fst (n, b)). now apply in_map. }
  apply load_budgets_keys in Hk. destruct Hk as [[] | Hk]. exact Hk.
Qed.

Lemma next_rowid_pos (ids : list Z) :
  Forall (fun x => 0 < x) ids -> 0 < next_rowid ids.
Proof.
  destruct ids as [ | i rest]; cbn; [lia | ].
  intros H. inversion H; subst. destruct (fold_max_ge rest i). lia.
Qed.

Import cycle.

(** The loop over the alerts stores and dispatches each of them. *)
Lemma process_alerts_spec (fmt : formats) (cfg : config.t) (net : network)
    (now : datetime) (budgets_df : list Budget.t) :
  forall (alerts : list alert.t) (st : state),
    Forall
      (fun a => exists b,
         find (fun x => String.eqb (Budget.name x) (alert.name a)) budgets_df
           = Some b)
      alerts ->
    grows_by cfg alerts st
      (fold_left (process_alert fmt cfg net now budgets_df) alerts st).
Proof.
  unfold grows_by.
  induction alerts as [ | a alerts IH]; intros st Hfound; cbn [fold_left].
  - repeat split. exists []. rewrite app_nil_r.
    repeat split; auto; cbn; lia.
  - inversion Hfound as [ | ? ? [b Hb] Hrest]; subst.
    pose proof (process_alert_spec fmt cfg net now budgets_df st a b Hb) as H1.
    cbv zeta in H1.
    set (st1 := process_alert fmt cfg net now budgets_df st a) in *.
    set (alert_id := next_rowid (map BudgetAlert.id (budget_alerts (database st))))
      in *.
    set (r := dispatch fmt cfg net a (trace st)) in *.
    assert (Hd1 : database st1 =
              mkdb (cost_data (database st)) (db.budgets (database st))
                (budget_alerts (database st) ++
                 [BudgetAlert.mk alert_id (Budget.id b) (alert.actual a)
                    (alert.percentage a) now
                    (negb (alert_id =? 0) && (fst (fst r) || snd (fst r)))]))
      by (rewrite H1; reflexivity).
    assert (Ht1 : trace st1 = if alert_id =? 0 then trace st else snd r)
      by (rewrite H1; reflexivity).
    clearbody st1. clear H1.
    destruct (IH st1 Hrest) as (Hc & Hb' & news & Hal & Hrows & Hoff & Hon).
    rewrite Hc, Hb', Hal, Hd1. cbn [cost_data db.budgets budget_alerts].
    repeat split.
    eexists. rewrite <- app_assoc. cbn [app]. split; [reflexivity | ].
    split; [constructor; [now split | exact Hrows] | ]. split.
    + intros He Hs. destruct (Hoff He Hs) as [Hn Htr]. split.
      * constructor; [ | exact Hn]. cbn [BudgetAlert.notified].
        subst r. rewrite (dispatch_disabled _ _ _ _ _ He Hs). cbn.
        apply andb_false_r.
      * rewrite Htr, Ht1. subst r.
        rewrite (dispatch_disabled _ _ _ _ _ He Hs). cbn [snd].
        now destruct (alert_id =? 0).
    + intros Hpos.
      assert (Hid : 0 < alert_id).
      { subst alert_id. apply next_rowid_pos. now rewrite Forall_map. }
      assert (Hpos1 : Forall (fun row => 0 < BudgetAlert.id row)
                        (budget_alerts (database st1))).
      { rewrite Hd1. cbn [budget_alerts]. apply Forall_app.
        split; [exact Hpos | ]. constructor; [exact Hid | constructor]. }
      destruct (Hon Hpos1) as [Hn Htr]. split.
      * constructor; [exact Hid | exact Hn].
      * rewrite Htr, Ht1.
        replace (alert_id =? 0) with false by (symmetry; apply Z.eqb_neq; lia).
        subst r. rewrite dispatch_trace. cbn [List.length]. lia.
Qed.

Lemma grows_by_nil (cfg : config.t) (st : state) : grows_by cfg [] st st.
Proof.
  unfold grows_by. repeat split. exists []. rewrite app_nil_r.
  repeat split; auto; cbn; lia.
Qed.

Lemma grows_by_trans (cfg : config.t) (als1 als2 : list alert.t)
    (st st1 st2 : state) :
  grows_by cfg als1 st st1 -> grows_by cfg als2 st1 st2 ->
  grows_by cfg (als1 ++ als2) st st2.
Proof.
  intros (Hc1 & Hb1 & n1 & Ha1 & Hr1 & Hoff1 & Hon1)
         (Hc2 & Hb2 & n2 & Ha2 & Hr2 & Hoff2 & Hon2).
  unfold grows_by. rewrite Hc2, Hb2, Ha2, Ha1, <- app_assoc.
  repeat split; try assumption.
  exists (n1 ++ n2). split; [reflexivity | ].
  split; [now apply Forall2_app | ]. split.
  - intros He Hs. destruct (Hoff1 He Hs) as [F1 T1].
    destruct (Hoff2 He Hs) as [F2 T2].
    split; [now apply Forall_app | congruence].
  - intros Hpos. destruct (Hon1 Hpos) as [P1 L1].
    assert (Hpos1 : Forall (fun row => 0 < BudgetAlert.id row)
                      (budget_alerts (database st1)))
      by (rewrite Ha1; now apply Forall_app).
    destruct (Hon2 Hpos1) as [P2 L2].
    split; [now apply Forall_app | ].
    rewrite L2, L1, length_app. lia.
Qed.

(** The evaluation reads the ledger and nothing else of the database. *)
Lemma total_cost_ext (now : datetime) (d d' : Database) (b : entry.t) :
  cost_data d' = cost_data d -> total_cost now d' b = total_cost now d b.
Proof.
  intros H. unfold total_cost, get_cost_data. now rewrite H.
Qed.

Lemma check_items_ext (now : datetime) (d d' : Database) :
  cost_data d' = cost_data d ->
  forall items, check_items now d' items = check_items now d items.
Proof.
  intros H. induction items as [ | [n b] rest IH]; [reflexivity | ].
  cbn [check_items]. unfold check_budget.
  now rewrite (total_cost_ext now d d' b H), IH.
Qed.

Lemma alerts_at_ext (now : datetime) (d d' : Database) :
  cost_data d' = cost_data d -> db.budgets d' = db.budgets d ->
  alerts_at d' now = alerts_at d now.
Proof.
  intros Hc Hb. unfold alerts_at, check_budgets, get_budgets.
  now rewrite Hb, (check_items_ext now d d' Hc).
Qed.

(** One run stores and dispatches the alerts the evaluation finds. *)
Lemma run_spec (fmt : formats) (cfg : config.t) (net : network)
    (st : state) (now : datetime) :
  grows_by cfg (alerts_at (database st) now) st (run fmt cfg net st now).
Proof.
  unfold run, check_budgets_and_send_alerts, alerts_at, get_budgets.
  destruct (db.budgets (database st)) as [ | b0 rest] eqn:Hdf.
  - cbn. apply grows_by_nil.
  - destruct (check_budgets now (database st) (load_budgets (b0 :: rest)))
      as [[alerts self'] | e] eqn:Hcb; cbn [bind fst].
    + destruct alerts as [ | a alerts]; [apply grows_by_nil | ].
      apply process_alerts_spec.
      eapply alerts_have_budgets; eassumption.
    + apply grows_by_nil.
Qed.

(** Runs at the instants [nows] store and dispatch, one after the other, the
    alerts each evaluation finds; what an evaluation finds does not depend on
    the runs before it. *)
Lemma runs_spec (fmt : formats) (cfg : config.t) (net : network) :
  forall (nows : list datetime) (st : state),
    grows_by cfg (flat_map (alerts_at (database st)) nows) st
      (runs fmt cfg net nows st).
Proof.
  unfold runs.
  induction nows as [ | now nows IH]; intros st; cbn [fold_left flat_map].
  - apply grows_by_nil.
  - pose proof (run_spec fmt cfg net st now) as H1.
    eapply grows_by_trans; [exact H1 | ].
    destruct H1 as (Hc & Hb & _).
    replace (flat_map (alerts_at (database st)) nows)
      with (flat_map (alerts_at (database (run fmt cfg net st now))) nows).
    + apply IH.
    + apply flat_map_ext. intros t. now apply alerts_at_ext.
Qed.

(** C6. The two channels of a dispatch. A disabled or unconfigured channel
    returns [False] and makes no request; an enabled and addressed channel is
    attempted: it makes its one request (the SMTP session for the message,
    the POST of the text to the webhook) and returns [True] when the request
    goes through (for the chat channel, with status 200); a channel whose
    attempt raises
    returns [False] (the functions always return); both channels are called,
    the chat channel whatever the email channel returned (with email
    disabled and the chat request answered 200 the results are [False] and
    [True]); the alert row
    stored for the dispatch ends up with [notified] equal to "some channel
    returned [True]"; and with both channels disabled, any number of runs
    makes no request, leaves the flags of the rows in place as they were and
    stores the new rows with [notified = False]. *)
Theorem C6_dispatch_channels (fmt : formats) (cfg : config.t) (net : network) :
  (forall subject body recipients html tr,
      config.ENABLE_EMAIL cfg = false \/ config.EMAIL_SENDER cfg = "" \/
      ((recipients = None \/ recipients = Some []) /\
       config.EMAIL_RECIPIENTS cfg = []) ->
      send_email cfg net subject body recipients html tr = (false, tr)) /\
  (forall message webhook_url tr,
      config.ENABLE_SLACK cfg = false \/
      or_else webhook_url (config.SLACK_WEBHOOK_URL cfg) = "" ->
      send_slack_notification cfg net message webhook_url tr = (false, tr)) /\
  (forall subject body recipients html tr,
      config.ENABLE_EMAIL cfg = true -> config.EMAIL_SENDER cfg <> "" ->
      let to :=
        match recipients with
        | Some (r :: rs) => r :: rs
        | _ => config.EMAIL_RECIPIENTS cfg
        end in
      to <> [] ->
      let rq :=
        SmtpSend (config.SMTP_SERVER cfg) (config.SMTP_PORT cfg)
          (negb (String.eqb (config.SMTP_USERNAME cfg) "") &&
           negb (String.eqb (config.SMTP_PASSWORD cfg) ""))
          (config.EMAIL_SENDER cfg) to subject body html in
      send_email cfg net subject body recipients html tr =
      (match net tr rq with Completed _ => true | Failed => false end,
       tr ++ [rq])) /\
  (forall message webhook_url tr,
      config.ENABLE_SLACK cfg = true ->
      let url := or_else webhook_url (config.SLACK_WEBHOOK_URL cfg) in
      url <> "" ->
      send_slack_notification cfg net message webhook_url tr =
      (match net tr (HttpPost url message) with
       | Completed status_code => status_code =? 200
       | Failed => false
       end,
       tr ++ [HttpPost url message])) /\
  (forall subject body recipients html message webhook_url tr,
      (forall rq, net tr rq = Failed) ->
      fst (send_email cfg net subject body recipients html tr) = false /\
      fst (send_slack_notification cfg net message webhook_url tr) = false) /\
  (forall a tr,
      let e := send_email cfg net (subject fmt a) (body fmt a) None true tr in
      let s := send_slack_notification cfg net (message fmt a) None (snd e) in
      dispatch fmt cfg net a tr = (fst e, fst s, snd s)) /\
  (forall a tr,
      config.ENABLE_EMAIL cfg = false -> slack_configured cfg = true ->
      net tr (HttpPost (config.SLACK_WEBHOOK_URL cfg) (message fmt a))
        = Completed 200 ->
      fst (dispatch fmt cfg net a tr) = (false, true)) /\
  (forall now budgets_df st a b,
      find (fun x => String.eqb (Budget.name x) (alert.name a)) budgets_df
        = Some b ->
      let alert_id :=
        next_rowid (map BudgetAlert.id (budget_alerts (database st))) in
      alert_id <> 0 ->
      let r := dispatch fmt cfg net a (trace st) in
      process_alert fmt cfg net now budgets_df st a =
      mkstate
        (mkdb (cost_data (database st)) (db.budgets (database st))
           (budget_alerts (database st) ++
            [BudgetAlert.mk alert_id (Budget.id b) (alert.actual a)
               (alert.percentage a) now (fst (fst r) || snd (fst r))]))
        (snd r)) /\
  (config.ENABLE_EMAIL cfg = false -> config.ENABLE_SLACK cfg = false ->
   forall nows st,
     trace (runs fmt cfg net nows st) = trace st /\
     exists news,
       budget_alerts (database (runs fmt cfg net nows st)) =
         budget_alerts (database st) ++ news /\
       Forall (fun row => BudgetAlert.notified row = false) news).
Proof.
  split; [ | split; [ | split; [ | split; [ | split; [ | split; [ | split;
    [ | split]]]]]]].
  - intros. now apply send_email_unconfigured.
  - intros. now apply send_slack_unconfigured.
  - intros subject body recipients html tr Hen Hsender to Hto rq.
    unfold send_email, attempt. rewrite Hen.
    apply String.eqb_neq in Hsender. rewrite Hsender. cbn [negb orb].
    fold to. destruct to as [ | r rs] eqn:Eto; [congruence | ].
    fold rq. now destruct (net tr rq).
  - intros message webhook_url tr Hen url Hurl.
    unfold send_slack_notification, attempt. rewrite Hen. cbn [negb].
    fold url. apply String.eqb_neq in Hurl. rewrite Hurl.
    now destruct (net tr (HttpPost url message)).
  - intros. split; [now apply send_email_failed | now apply send_slack_failed].
  - intros. apply dispatch_unfold.
  - intros a tr He Hs Hnet. rewrite dispatch_unfold.
    rewrite send_email_unconfigured by auto. cbn [fst snd].
    unfold slack_configured in Hs. apply andb_prop in Hs.
    destruct Hs as [Hen Hurl].
    unfold send_slack_notification, attempt. rewrite Hen. cbn [negb or_else].
    apply negb_true_iff in Hurl. now rewrite Hurl, Hnet.
  - intros now budgets_df st a b Hfind alert_id Hid r.
    rewrite (process_alert_spec fmt cfg net now budgets_df st a b Hfind).
    fold alert_id. fold r.
    apply Z.eqb_neq in Hid. now rewrite Hid.
  - intros He Hs nows st.
    destruct (runs_spec fmt cfg net nows st)
      as (_ & _ & news & Hal & _ & Hoff & _).
    destruct (Hoff He Hs) as [Hn Htr]. split; [exact Htr | ].
    exists news. now split.
Qed.

(** The alert of the AWS-Compute scenario on a network that answers every
    request. With email disabled and the chat channel on, the POST is made
    and the alert is stored with [notified = True]; with email enabled and
    addressed and the chat channel off, the message is sent and the alert is
    stored with [notified = True] as well. *)
Lemma C6_dispatch_channels_witness :
  process_alert scenario.plain scenario.chat_only scenario.healthy
    scenario.now [scenario.aws_compute]
    (mkstate scenario.database []) scenario.aws_compute_alert =
  mkstate
    (mkdb (cost_data scenario.database) [scenario.aws_compute]
       [BudgetAlert.mk 1 1 620 24 scenario.now true])
    [HttpPost "https://hooks.slack.test/services/T0"
       (message scenario.plain scenario.aws_compute_alert)] /\
  send_email coverage.mail_only scenario.healthy
    (subject scenario.plain scenario.aws_compute_alert)
    (body scenario.plain scenario.aws_compute_alert) None true [] =
  (true,
   [SmtpSend "smtp.gmail.com" 587 false "finops@example.org"
      ["team@example.org"]
      (subject scenario.plain scenario.aws_compute_alert)
      (body scenario.plain scenario.aws_compute_alert) true]) /\
  process_alert scenario.plain coverage.mail_only scenario.healthy
    scenario.now [scenario.aws_compute]
    (mkstate scenario.database []) scenario.aws_compute_alert =
  mkstate
    (mkdb (cost_data scenario.database) [scenario.aws_compute]
       [BudgetAlert.mk 1 1 620 24 scenario.now true])
    [SmtpSend "smtp.gmail.com" 587 false "finops@example.org"
       ["team@example.org"]
       (subject scenario.plain scenario.aws_compute_alert)
       (body scenario.plain scenario.aws_compute_alert) true].
Proof.
  destruct (C6_dispatch_channels scenario.plain scenario.chat_only
              scenario.healthy) as (_ & _ & _ & _ & _ & _ & _ & Hchat & _).
  destruct (C6_dispatch_channels scenario.plain coverage.mail_only
              scenario.healthy) as (_ & _ & Hsend & _ & _ & _ & _ & Hmail & _).
  split; [ | split].
  - pose proof (Hchat scenario.now [scenario.aws_compute]
                  (mkstate scenario.database []) scenario.aws_compute_alert
                  scenario.aws_compute eq_refl) as H.
    cbv zeta in H. rewrite H; [reflexivity | discriminate].
  - apply (Hsend (subject scenario.plain scenario.aws_compute_alert)
             (body scenario.plain scenario.aws_compute_alert) None true []);
      [reflexivity | discriminate | discriminate].
  - pose proof (Hmail scenario.now [scenario.aws_compute]
                  (mkstate scenario.database []) scenario.aws_compute_alert
                  scenario.aws_compute eq_refl) as H.
    cbv zeta in H. rewrite H; [reflexivity | discriminate].
Defined.

(** ** The [notified] flag *)

Lemma row_later_refl (a : BudgetAlert.t) : row_later a a.
Proof. unfold row_later, same_alert. tauto. Qed.

Lemma row_later_trans (a b c : BudgetAlert.t) :
  row_later a b -> row_later b c -> row_later a c.
Proof.
  unfold row_later, same_alert.
  intros [(? & ? & ? & ? & ?) ?] [(? & ? & ? & ? & ?) ?].
  repeat split; try congruence; auto.
Qed.

Lemma Forall2_row_later_refl (l : list BudgetAlert.t) : Forall2 row_later l l.
Proof. induction l; constructor; auto using row_later_refl. Qed.

Lemma Forall2_row_later_trans (l1 l2 l3 : list BudgetAlert.t) :
  Forall2 row_later l1 l2 -> Forall2 row_later l2 l3 -> Forall2 row_later l1 l3.
Proof.
  intros H. revert l3. induction H as [ | a b l1 l2 Hab _ IH]; intros l3 H23.
  - inversion H23. constructor.
  - inversion H23 as [ | ? c ? l3' Hbc Hrest]; subst.
    constructor; [eapply row_later_trans; eassumption | now apply IH].
Qed.

Lemma table_later_refl (l : list BudgetAlert.t) : table_later l l.
Proof.
  exists l, []. split; [now rewrite app_nil_r | apply Forall2_row_later_refl].
Qed.

Lemma table_later_trans (l1 l2 l3 : list BudgetAlert.t) :
  table_later l1 l2 -> table_later l2 l3 -> table_later l1 l3.
Proof.
  intros (o1 & n1 & -> & H1) (o2 & n2 & -> & H2).
  apply Forall2_app_inv_l in H2. destruct H2 as (o2a & o2b & Ha & Hb & ->).
  exists o2a, (o2b ++ n2). split; [now rewrite app_assoc | ].
  eapply Forall2_row_later_trans; eassumption.
Qed.

Lemma store_later (now : datetime) (budget_id : Z)
    (actual_cost percentage : float) (d : Database) :
  table_later (budget_alerts d)
    (budget_alerts (snd (store_budget_alert now budget_id actual_cost percentage d))).
Proof.
  cbn. eexists _, _. split; [reflexivity | apply Forall2_row_later_refl].
Qed.

Lemma mark_later (alert_id : Z) (d : Database) :
  table_later (budget_alerts d) (budget_alerts (mark_alert_notified alert_id d)).
Proof.
  unfold mark_alert_notified.
  destruct (find _ (budget_alerts d)) as [alert | ]; [ | apply table_later_refl].
  cbn [budget_alerts]. eexists _, []. split; [now rewrite app_nil_r | ].
  induction (budget_alerts d) as [ | a l IH]; cbn; constructor; [ | exact IH].
  destruct (BudgetAlert.id a =? BudgetAlert.id alert);
    [ | apply row_later_refl].
  unfold row_later, same_alert, set_notified. cbn. tauto.
Qed.

(** C7. An alert row is created with [notified = False]; and through every
    sequence of ledger operations (record, mark notified, queries) each row
    stays in place with its id, budget, spend, percentage and date, and a
    [notified] flag that, once [True], stays [True]. *)
Theorem C7_notified_never_reverts :
  (forall now budget_id actual_cost percentage d,
      exists row,
        budget_alerts
          (snd (store_budget_alert now budget_id actual_cost percentage d)) =
          budget_alerts d ++ [row] /\
        BudgetAlert.id row =
          fst (store_budget_alert now budget_id actual_cost percentage d) /\
        BudgetAlert.notified row = false) /\
  (forall (ops : list operation) (d : Database),
      exists olds news,
        budget_alerts (fold_left apply ops d) = olds ++ news /\
        Forall2
          (fun a a' =>
             same_alert a a' /\
             (BudgetAlert.notified a = true -> BudgetAlert.notified a' = true))
          (budget_alerts d) olds).
Proof.
  split.
  - intros. eexists. cbn. repeat split.
  - assert (Hstep : forall op d,
              table_later (budget_alerts d) (budget_alerts (apply d op))).
    { intros [now bid c p | alert_id | bid n | ] d; cbn [apply].
      - apply store_later.
      - apply mark_later.
      - apply table_later_refl.
      - apply table_later_refl. }
    induction ops as [ | op ops IH]; intros d; cbn [fold_left].
    + apply table_later_refl.
    + eapply table_later_trans; [apply Hstep | apply IH].
Qed.

(** ** Repeated runs *)



(** The depth of the splitting of [pairwise_sum]: the length of the array
    is fuel enough, and more fuel changes nothing. *)
Lemma pairwise_sum_fuel :
  forall (fuel fuel' : nat) (a : list float),
    (List.length a <= fuel)%nat -> (List.length a <= fuel')%nat ->
    pd.pairwise_sum fuel a = pd.pairwise_sum fuel' a.
Proof.
  induction fuel as [ | fuel IH]; intros fuel' a H H'.
  - destruct a; [ | cbn in H; lia]. now destruct fuel'.
  - destruct fuel' as [ | fuel'].
    + destruct a; [reflexivity | cbn in H'; lia].
    + cbn [pd.pairwise_sum]. cbv zeta.
      destruct (List.length a <? 8)%nat; [reflexivity | ].
      destruct (List.length a <=? 128)%nat eqn:E; [reflexivity | ].
      apply Nat.leb_gt in E.
      set (n2 := (List.length a / 2 - (List.length a / 2) mod 8)%nat).
      assert (Hn2 : (1 <= n2 < List.length a)%nat).
      { subst n2.
        pose proof (Nat.div_mod_eq (List.length a) 2) as D2.
        pose proof (Nat.mod_upper_bound (List.length a) 2 ltac:(lia)) as M2.
        pose proof (Nat.mod_upper_bound (List.length a / 2) 8 ltac:(lia)) as M8.
        lia. }
      f_equal; apply IH; rewrite ?length_firstn, ?length_skipn; lia.
Qed.

(** From eight cells on the order of the additions is numpy's: nine costs
    that add up to less than 927.76 in [Series.sum()] and to more than
    927.76 when added from left to right. *)
Example sum_in_numpy_order :
  pd.sum (map VReal coverage.nine_costs) = Ok 0x1.cfe147ae147adp+9%float /\
  fold_left PrimFloat.add coverage.nine_costs 0%float
    = 0x1.cfe147ae147afp+9%float /\
  (0x1.cfe147ae147aep+9 <? 0x1.cfe147ae147adp+9)%float = false /\
  (0x1.cfe147ae147aep+9 <? 0x1.cfe147ae147afp+9)%float = true.
Proof. repeat split; vm_compute; reflexivity. Qed.

(** Columns of 17 cells (two groups of 8 and one number left over) and of
    300 cells (split into 144 and 156). *)
Example sum_of_long_columns :
  pd.sum (map VReal (coverage.cost_series 17))
    = Ok 0x1.603d70a3d70a4p+6%float /\
  fold_left PrimFloat.add (coverage.cost_series 17) 0%float
    = 0x1.603d70a3d70a3p+6%float /\
  pd.sum (map VReal (coverage.cost_series 300))
    = Ok 0x1.779ffffffffffp+10%float /\
  fold_left PrimFloat.add (coverage.cost_series 300) 0%float
    = 0x1.779fffffffffep+10%float.
Proof. repeat split; vm_compute; reflexivity. Qed.







Lemma dict_set_fresh {V : Type} (k : string) (v : V) (d : dict V) :
  ~ In k (keys d) -> dict_set k v d = d ++ [(k, v)].
Proof.
  unfold keys. induction d as [ | [k0 v0] d IH]; cbn; intros H; [reflexivity | ].
  destruct (String.eqb_spec k0 k) as [-> | Hne]; [tauto | ].
  rewrite IH; tauto.
Qed.

(** When no name occurs twice in the budget table, the registry the script
    loads holds every row of the table, in order. *)
Lemma load_budgets_unique_names (budgets_df : list Budget.t) :
  NoDup (map Budget.name budgets_df) ->
  budgets (load_budgets budgets_df) = map entry_of_row budgets_df.
Proof.
  unfold load_budgets.
  change (map entry_of_row budgets_df)
    with (budgets init ++ map entry_of_row budgets_df).
  assert (Hgen : forall self,
             NoDup (keys (budgets self) ++ map Budget.name budgets_df) ->
             budgets
               (fold_left
                  (fun self b =>
                     add_budget (Budget.name b) (Budget.amount b)
                       (Budget.period b) (Budget.provider b)
                       (Budget.service b) self)
                  budgets_df self) =
             budgets self ++ map entry_of_row budgets_df).
  { induction budgets_df as [ | b rest IH]; intros self Hnd; cbn [fold_left map].
    - now rewrite app_nil_r.
    - assert (Hfresh : ~ In (Budget.name b) (keys (budgets self))).
      { apply NoDup_remove_2 in Hnd. intros Hin. apply Hnd.
        apply in_or_app. now left. }
      rewrite IH; unfold add_budget; cbn [budgets];
        rewrite (dict_set_fresh _ _ _ Hfresh).
      + now rewrite <- app_assoc.
      + unfold keys in *. rewrite map_app, <- app_assoc. exact Hnd. }
  intros Hnd. apply Hgen. exact Hnd.
Qed.



(** ** The registry *)

Import registry.

Lemma dict_get_set {V : Type} (k : string) (v : V) (d : dict V) :
  dict_get k (dict_set k v d) = Some v.
Proof.
  induction d as [ | [k0 v0] d IH]; cbn.
  - now rewrite String.eqb_refl.
  - destruct (String.eqb k0 k) eqn:E; cbn.
    + now rewrite String.eqb_refl.
    + now rewrite E.
Qed.

Lemma dict_set_NoDup {V : Type} (k : string) (v : V) (d : dict V) :
  NoDup (keys d) -> NoDup (keys (dict_set k v d)).
Proof.
  induction d as [ | [k0 v0] d IH]; cbn; intros H.
  - repeat constructor. intros [].
  - inversion H as [ | ? ? Hnotin Hnd]; subst.
    destruct (String.eqb_spec k0 k) as [-> | Hne]; cbn.
    + now constructor.
    + constructor; [ | now apply IH].
      intros Hin. apply keys_dict_set in Hin. destruct Hin; contradiction.
Qed.

Lemma differ_at_set {V : Type} (k : string) (v v' : V) (d : dict V) :
  differ_at k (dict_set k v d) (dict_set k v' d).
Proof.
  induction d as [ | [k0 v0] d IH]; cbn.
  - apply differ_here.
  - destruct (String.eqb_spec k0 k) as [-> | Hne];
      [apply differ_here | now apply differ_later].
Qed.

Lemma differ_at_step {V : Type} (k k1 : string) (v1 : V) (d d' : dict V) :
  differ_at k d d' -> differ_at k (dict_set k1 v1 d) (dict_set k1 v1 d').
Proof.
  induction 1 as [v v' d | k0 v0 d d' Hne Hd IH | d]; cbn.
  - destruct (String.eqb_spec k k1); [apply differ_none | apply differ_here].
  - destruct (String.eqb_spec k0 k1) as [<- | Hne1];
      apply differ_later; assumption.
  - apply differ_none.
Qed.

Lemma differ_at_overwrite {V : Type} (k : string) (v : V) (d d' : dict V) :
  differ_at k d d' -> dict_set k v d = dict_set k v d'.
Proof.
  induction 1 as [v1 v1' d | k0 v0 d d' Hne _ IH | d]; cbn.
  - now rewrite String.eqb_refl.
  - apply String.eqb_neq in Hne. now rewrite Hne, IH.
  - reflexivity.
Qed.

Lemma add_all_differ (k : string) (calls : list (string * definition)) :
  forall self self',
    notifications self = notifications self' ->
    differ_at k (budgets self) (budgets self') ->
    notifications (add_all calls self) = notifications (add_all calls self') /\
    differ_at k (budgets (add_all calls self)) (budgets (add_all calls self')).
Proof.
  unfold add_all.
  induction calls as [ | [n def] calls IH]; intros self self' Hn Hd; cbn.
  - now split.
  - apply IH; cbn; [exact Hn | now apply differ_at_step].
Qed.

Lemma add_all_NoDup (calls : list (string * definition)) :
  forall self,
    NoDup (keys (budgets self)) -> NoDup (keys (budgets (add_all calls self))).
Proof.
  unfold add_all.
  induction calls as [ | [n def] calls IH]; intros self H; cbn; [exact H | ].
  apply IH. cbn. now apply dict_set_NoDup.
Qed.

(** C9. Of two [add_budget] calls with the same name, whatever calls come
    between them, the second replaces the first: the registry then holds
    the second definition under the name, and is the registry it would be
    had the first call carried any other definition, so an evaluation never
    sees the earlier one. A registry built by [add_budget] calls never holds
    a name twice. *)
Theorem C9_add_budget_replaces :
  (forall (name : string) (first second : definition)
          (between : list (string * definition)) (self : BudgetAlert),
      let self' := add name second (add_all between (add name first self)) in
      dict_get name (budgets self') = Some (entry_of second) /\
      forall (other : definition) (now : datetime) (d : Database),
        self' = add name second (add_all between (add name other self)) /\
        check_budgets now d self' =
        check_budgets now d
          (add name second (add_all between (add name other self)))) /\
  (forall calls : list (string * definition),
      NoDup (keys (budgets (add_all calls init)))).
Proof.
  split.
  - intros name first second between self self'. split.
    + apply dict_get_set.
    + intros other now d.
      assert (E : self' = add name second
                            (add_all between (add name other self))).
      { destruct (add_all_differ name between (add name first self)
                    (add name other self) eq_refl (differ_at_set _ _ _ _))
          as [Hn Hd].
        subst self'. unfold add, add_budget. f_equal; [ | exact Hn].
        now apply differ_at_overwrite. }
      split; [exact E | now rewrite <- E].
  - intros calls. apply add_all_NoDup. constructor.
Qed.

(** ** Marking an unknown alert *)

Lemma find_no_match {A : Type} (f : A -> bool) (l : list A) :
  Forall (fun a => f a = false) l -> find f l = None.
Proof.
  induction 1 as [ | a l Ha _ IH]; cbn; [reflexivity | now rewrite Ha].
Qed.

(** C10. For an [alert_id] that no stored alert carries,
    [mark_alert_notified] changes nothing: the database is returned as it
    was (and the function, total, raises nothing). *)
Theorem C10_mark_unknown_alert (alert_id : Z) (d : Database) :
  Forall (fun a => BudgetAlert.id a <> alert_id) (budget_alerts d) ->
  mark_alert_notified alert_id d = d.
Proof.
  intros H. unfold mark_alert_notified. rewrite find_no_match; [reflexivity | ].
  eapply Forall_impl; [ | exact H]. cbn. intros a Ha. now apply Z.eqb_neq.
Qed.

(** Alert 99 in a table holding alerts 1 and 2. *)
Lemma C10_mark_unknown_alert_witness :
  mark_alert_notified 99 scenario.two_alerts = scenario.two_alerts.
Proof.
  apply (C10_mark_unknown_alert 99 scenario.two_alerts).
  repeat constructor; discriminate.
Defined.

(** * Further properties of the code *)

(** ** The evaluation loop, turn by turn *)

Import evaluation.

Lemma check_items_turns (now : datetime) (d : Database) :
  forall items alerts items',
    check_items now d items = Ok (alerts, items') ->
    alerts = flat_map (alert_of now d) items /\
    items' = map (stamp now d) items.
Proof.
  induction items as [ | [name b] rest IH]; intros alerts items' H.
  - cbn in H. injection H as <- <-. split; reflexivity.
  - cbn [check_items] in H. bind_inv H. bind_inv H.
    destruct x0 as [alerts0 rest'].
    destruct (IH _ _ Hx0) as [-> ->].
    assert (Ea : alert_of now d (name, b) =
                 match x with Some a => [a] | None => [] end).
    { unfold alert_of. cbn [fst snd]. rewrite Hx. reflexivity. }
    assert (Es : stamp now d (name, b) =
                 match x with
                 | Some _ => (name, touch now b)
                 | None => (name, b)
                 end).
    { unfold stamp. rewrite Ea. now destruct x. }
    cbn [flat_map map]. rewrite Ea, Es.
    destruct x as [a | ]; injection H as <- <-; split; reflexivity.
Qed.

Lemma alert_of_name (now : datetime) (d : Database) (item : string * entry.t)
    (a : alert.t) :
  In a (alert_of now d item) -> alert.name a = fst item.
Proof.
  unfold alert_of.
  destruct (check_budget now d (fst item) (snd item)) as [[a' | ] | e] eqn:E;
    cbn; try contradiction.
  intros [<- | []].
  apply check_budget_alert in E. destruct E as (t & _ & _ & ->). reflexivity.
Qed.

Lemma alert_of_short (now : datetime) (d : Database) (item : string * entry.t) :
  (List.length (alert_of now d item) <= 1)%nat.
Proof.
  unfold alert_of.
  destruct (check_budget now d (fst item) (snd item)) as [[a' | ] | e];
    cbn; lia.
Qed.

Lemma alert_names_in_keys (now : datetime) (d : Database) :
  forall (items : dict entry.t) (n : string),
    In n (map alert.name (flat_map (alert_of now d) items)) ->
    In n (keys items).
Proof.
  induction items as [ | item rest IH]; cbn; intros n H; [assumption | ].
  rewrite map_app in H. apply in_app_or in H. destruct H as [H | H].
  - left. apply in_map_iff in H. destruct H as (a & <- & Ha).
    symmetry. eapply alert_of_name; eassumption.
  - right. now apply IH.
Qed.

Lemma alert_names_NoDup (now : datetime) (d : Database) :
  forall items : dict entry.t,
    NoDup (keys items) ->
    NoDup (map alert.name (flat_map (alert_of now d) items)).
Proof.
  induction items as [ | item rest IH]; cbn; intros Hnd; [constructor | ].
  inversion Hnd as [ | ? ? Hnotin Hnd']; subst.
  rewrite map_app.
  pose proof (alert_of_short now d item) as Hlen.
  pose proof (alert_of_name now d item) as Hname.
  destruct (alert_of now d item) as [ | a [ | a' l]]; cbn in *; try lia.
  - now apply IH.
  - constructor; [ | now apply IH].
    intros Hin. apply alert_names_in_keys in Hin.
    rewrite (Hname a) in Hin by (now left). contradiction.
Qed.

Lemma alerts_at_most_items (now : datetime) (d : Database) :
  forall items : dict entry.t,
    (List.length (flat_map (alert_of now d) items) <= List.length items)%nat.
Proof.
  induction items as [ | item rest IH]; cbn; [lia | ].
  rewrite length_app. pose proof (alert_of_short now d item). lia.
Qed.

(** X1. When [check_budgets] returns, its alerts are the alerts of the
    turns of its loop in the order of the registry: at most one per budget,
    each under the name of its budget, so that no two alerts of a registry
    carry one name. *)
Theorem check_budgets_alerts_in_order (now : datetime) (d : Database)
    (self self' : BudgetAlert) (alerts : list alert.t) :
  check_budgets now d self = Ok (alerts, self') ->
  alerts = flat_map (alert_of now d) (budgets self) /\
  (List.length alerts <= List.length (budgets self))%nat /\
  incl (map alert.name alerts) (keys (budgets self)) /\
  (NoDup (keys (budgets self)) -> NoDup (map alert.name alerts)).
Proof.
  intros H. unfold check_budgets in H. bind_inv H. destruct x as [als items'].
  injection H as -> _.
  destruct (check_items_turns now d _ _ _ Hx) as [-> _].
  split; [reflexivity | split; [ | split]].
  - apply alerts_at_most_items.
  - intros n. apply alert_names_in_keys.
  - apply alert_names_NoDup.
Qed.

(** The Total budget in front of a budget nothing matches: one alert. *)
Lemma check_budgets_alerts_in_order_witness :
  [scenario.total_alert] =
    flat_map (alert_of scenario.now scenario.total_database)
      [("Total", scenario.total_entry); ("Functions", scenario.lambda_entry)] /\
  (1 <= 2)%nat /\
  incl ["Total"] ["Total"; "Functions"] /\
  (NoDup ["Total"; "Functions"] -> NoDup ["Total"]).
Proof.
  apply (check_budgets_alerts_in_order scenario.now scenario.total_database
           (mkself [("Total", scenario.total_entry);
                    ("Functions", scenario.lambda_entry)] [])
           (mkself [("Total", touch scenario.now scenario.total_entry);
                    ("Functions", scenario.lambda_entry)] [])
           [scenario.total_alert]).
  vm_compute. reflexivity.
Defined.

(** X2. When [check_budgets] returns, the registry holds the same budgets
    under the same names in the same order; the only field written is
    [last_alert], set to [now] on exactly the budgets that raised an alert;
    [notifications] is not touched. *)
Theorem check_budgets_registry_frame (now : datetime) (d : Database)
    (self self' : BudgetAlert) (alerts : list alert.t) :
  check_budgets now d self = Ok (alerts, self') ->
  budgets self' = map (stamp now d) (budgets self) /\
  keys (budgets self') = keys (budgets self) /\
  notifications self' = notifications self /\
  Forall2
    (fun old new =>
       entry.amount (snd new) = entry.amount (snd old) /\
       entry.period (snd new) = entry.period (snd old) /\
       entry.provider (snd new) = entry.provider (snd old) /\
       entry.service (snd new) = entry.service (snd old) /\
       entry.last_alert (snd new) =
         match alert_of now d old with
         | [] => entry.last_alert (snd old)
         | _ => Some now
         end)
    (budgets self) (budgets self').
Proof.
  intros H. unfold check_budgets in H. bind_inv H. destruct x as [als items'].
  injection H as _ <-. cbn [budgets notifications].
  destruct (check_items_turns now d _ _ _ Hx) as [_ ->].
  split; [reflexivity | split; [ | split; [reflexivity | ]]].
  - unfold keys. rewrite map_map. apply map_ext. intros item.
    unfold stamp. now destruct (alert_of now d item).
  - clear Hx. induction (budgets self) as [ | item rest IH]; cbn [map];
      constructor.
    + unfold stamp. destruct (alert_of now d item); cbn; auto.
    + exact IH.
Qed.

Lemma check_budgets_registry_frame_witness :
  budgets (mkself [("Total", touch scenario.now scenario.total_entry);
                   ("Functions", scenario.lambda_entry)] []) =
    map (stamp scenario.now scenario.total_database)
      [("Total", scenario.total_entry); ("Functions", scenario.lambda_entry)].
Proof.
  apply (check_budgets_registry_frame scenario.now scenario.total_database
           (mkself [("Total", scenario.total_entry);
                    ("Functions", scenario.lambda_entry)] [])
           (mkself [("Total", touch scenario.now scenario.total_entry);
                    ("Functions", scenario.lambda_entry)] [])
           [scenario.total_alert]).
  vm_compute. reflexivity.
Defined.

Lemma check_items_stamped (now now' : datetime) (d d' : Database) :
  forall items : dict entry.t,
    (r <- check_items now' d' (map (stamp now d) items) ;; Ok (fst r)) =
    (r <- check_items now' d' items ;; Ok (fst r)).
Proof.
  induction items as [ | [name b] rest IH]; [reflexivity | ].
  cbn [map check_items].
  assert (E : exists b', stamp now d (name, b) = (name, b') /\
                check_budget now' d' name b' = check_budget now' d' name b).
  { unfold stamp. destruct (alert_of now d (name, b)); cbn [fst snd].
    - exists b. split; reflexivity.
    - exists (touch now b). split; reflexivity. }
  destruct E as (b' & -> & ->).
  destruct (check_budget now' d' name b) as [a | e]; cbn [bind];
    [ | reflexivity].
  destruct (check_items now' d' (map (stamp now d) rest)) as [[al1 r1] | e1],
    (check_items now' d' rest) as [[al2 r2] | e2];
    cbn [bind fst] in IH |- *; try discriminate IH.
  - injection IH as ->. now destruct a.
  - injection IH as ->. reflexivity.
Qed.

(** X3. [last_alert] is written and never read: on the registry
    [check_budgets] leaves behind, a later evaluation (at any instant, on any
    database) finds the alerts it finds on the registry as it was before, and
    fails where it fails there. Nothing holds back the alert of a budget
    that has alerted before. *)
Theorem last_alert_is_never_read (now : datetime) (d : Database)
    (self self' : BudgetAlert) (alerts : list alert.t) :
  check_budgets now d self = Ok (alerts, self') ->
  (forall now' d',
     found (check_budgets now' d' self') = found (check_budgets now' d' self)) /\
  found (check_budgets now d self') = Ok alerts.
Proof.
  intros H.
  assert (G : forall now' d',
            found (check_budgets now' d' self') =
            found (check_budgets now' d' self)).
  { intros now' d'. unfold check_budgets in H. bind_inv H.
    destruct x as [als items']. injection H as _ <-.
    destruct (check_items_turns now d _ _ _ Hx) as [_ ->].
    unfold found, check_budgets. cbn [budgets notifications].
    pose proof (check_items_stamped now now' d d' (budgets self)) as E.
    destruct (check_items now' d' (map (stamp now d) (budgets self)))
      as [[al1 r1] | e1],
      (check_items now' d' (budgets self)) as [[al2 r2] | e2];
      cbn [bind fst] in E |- *; congruence. }
  split; [exact G | ]. rewrite G, H. reflexivity.
Qed.

(** The alerted Total budget alerts again on the registry that carries its
    [last_alert]. *)
Lemma last_alert_is_never_read_witness :
  found (check_budgets scenario.now scenario.total_database
           (mkself [("Total", touch scenario.now scenario.total_entry)] [])) =
  Ok [scenario.total_alert].
Proof.
  apply (last_alert_is_never_read scenario.now scenario.total_database
           (mkself [("Total", scenario.total_entry)] [])
           (mkself [("Total", touch scenario.now scenario.total_entry)] [])
           [scenario.total_alert]).
  vm_compute. reflexivity.
Defined.

Lemma check_items_raises (now : datetime) (d : Database) (name : string)
    (b : entry.t) (e : exn) :
  check_budget now d name b = Raise e ->
  forall items : dict entry.t,
    In (name, b) items -> exists e', check_items now d items = Raise e'.
Proof.
  intros Hc. induction items as [ | [n0 b0] rest IH]; intros Hin;
    [contradiction | ].
  cbn [check_items]. destruct Hin as [Heq | Hin].
  - injection Heq as -> ->. rewrite Hc. cbn. eauto.
  - destruct (check_budget now d n0 b0) as [a | e0]; cbn [bind]; [ | eauto].
    destruct (IH Hin) as (e' & ->). cbn. eauto.
Qed.

(** X4. An exception in the turn of one budget ends [check_budgets]: the
    alerts found for the budgets before it are lost with it, and the script,
    which calls [check_budgets] before it writes or sends anything, ends
    without an alert stored or a request made. *)
Theorem one_failing_budget_silences_all (now : datetime) (d : Database)
    (self : BudgetAlert) (name : string) (b : entry.t) (e : exn) :
  In (name, b) (budgets self) ->
  check_budget now d name b = Raise e ->
  (exists e', check_budgets now d self = Raise e') /\
  forall fmt cfg net tr,
    self = load_budgets (get_budgets d) ->
    (exists e',
       check_budgets_and_send_alerts fmt cfg net now (mkstate d tr) = Raise e') /\
    run fmt cfg net (mkstate d tr) now = mkstate d tr.
Proof.
  intros Hin Hc.
  destruct (check_items_raises now d name b e Hc _ Hin) as (e' & He').
  assert (Hcb : check_budgets now d self = Raise e').
  { unfold check_budgets. rewrite He'. reflexivity. }
  split; [eauto | ].
  intros fmt cfg net tr ->.
  assert (Hs : check_budgets_and_send_alerts fmt cfg net now (mkstate d tr)
               = Raise e').
  { unfold check_budgets_and_send_alerts. cbn [database].
    destruct (get_budgets d) as [ | b0 rest] eqn:Eb; [contradiction | ].
    rewrite Hcb. reflexivity. }
  split; [eauto | ]. unfold run. now rewrite Hs.
Qed.

(** A ledger without the [service] column: the AWS-All budget alone is
    breached and alerts; with the AWS-Compute budget behind it, whose turn
    raises [KeyError], the run stores and sends nothing. *)
Lemma one_failing_budget_silences_all_witness :
  alerts_at (mkdb coverage.unserviced_table [coverage.aws_all] [])
    scenario.now <> [] /\
  run scenario.plain scenario.chat_only scenario.healthy
    (mkstate coverage.unserviced_database []) scenario.now =
  mkstate coverage.unserviced_database [].
Proof.
  split; [vm_compute; discriminate | ].
  apply (one_failing_budget_silences_all scenario.now
           coverage.unserviced_database
           (load_budgets (get_budgets coverage.unserviced_database))
           "AWS-Compute" scenario.aws_compute_entry (KeyError "service")).
  - right. left. reflexivity.
  - vm_compute. reflexivity.
  - reflexivity.
Defined.

(** X5. A run of the script that finds no alert (no budget, no breach, or
    an evaluation that raised) leaves the database as it was and makes no
    request. *)
Theorem run_without_alert_is_idle (fmt : formats) (cfg : config.t)
    (net : network) (st : state) (now : datetime) :
  alerts_at (database st) now = [] ->
  run fmt cfg net st now = st.
Proof.
  unfold alerts_at, run, check_budgets_and_send_alerts. intros H.
  destruct (get_budgets (database st)) as [ | b0 rest]; [reflexivity | ].
  destruct (check_budgets now (database st) (load_budgets (b0 :: rest)))
    as [r | e]; cbn [bind]; [ | reflexivity].
  now rewrite H.
Qed.

(** The AWS-Compute budget met exactly: nothing happens. *)
Lemma run_without_alert_is_idle_witness :
  run scenario.plain scenario.chat_only scenario.healthy
    (mkstate scenario.exact_database []) scenario.now =
  mkstate scenario.exact_database [].
Proof.
  apply (run_without_alert_is_idle scenario.plain scenario.chat_only
           scenario.healthy (mkstate scenario.exact_database []) scenario.now).
  vm_compute. reflexivity.
Defined.

(** ** The windows of the three periods *)

Lemma string_compare_trans (s : string) :
  forall t u,
    String.compare s t <> Gt -> String.compare t u <> Gt ->
    String.compare s u <> Gt.
Proof.
  induction s as [ | a s IH]; intros [ | b t] [ | c u]; cbn;
    try congruence.
  unfold Ascii.compare.
  destruct (N.compare_spec (N_of_ascii a) (N_of_ascii b)) as [E1 | E1 | E1],
    (N.compare_spec (N_of_ascii b) (N_of_ascii c)) as [E2 | E2 | E2],
    (N.compare_spec (N_of_ascii a) (N_of_ascii c)) as [E3 | E3 | E3];
    try congruence; try (exfalso; lia).
  apply IH.
Qed.

Lemma string_leb_trans (s t u : string) :
  String.leb s t = true -> String.leb t u = true -> String.leb s u = true.
Proof.
  unfold String.leb. intros H1 H2.
  pose proof (string_compare_trans s t u) as H.
  destruct (String.compare s t), (String.compare t u), (String.compare s u);
    try reflexivity; try discriminate; exfalso; apply H; congruence.
Qed.

(** The ledger query with an earlier start returns at least the rows of
    the query with the later start, and raises when that one raises. *)
Lemma get_cost_data_earlier_start (a b e : date) (provider : option string)
    (d : Database) :
  valid_date a = true -> valid_date b = true -> date_leb a b = true ->
  match get_cost_data (Some (strftime_Ymd b)) (Some (strftime_Ymd e)) provider d,
        get_cost_data (Some (strftime_Ymd a)) (Some (strftime_Ymd e)) provider d
  with
  | Ok later, Ok earlier => incl (rows later) (rows earlier)
  | Raise _, Raise _ => True
  | _, _ => False
  end.
Proof.
  intros Ha Hb Hab. unfold get_cost_data, read_sql_query.
  change (and_where "date" SqlGe (Some (strftime_Ymd a)))
    with [("date", SqlGe, strftime_Ymd a)].
  change (and_where "date" SqlGe (Some (strftime_Ymd b)))
    with [("date", SqlGe, strftime_Ymd b)].
  change (and_where "date" SqlLe (Some (strftime_Ymd e)))
    with [("date", SqlLe, strftime_Ymd e)].
  cbn [app find fst].
  destruct (negb (mem "date" (columns (cost_data d)))); [exact I | ].
  destruct (find _ (and_where "provider" SqlEq provider)); [exact I | ].
  cbn [rows]. intros r Hin. apply filter_In in Hin. destruct Hin as [Hin Hq].
  apply filter_In. split; [assumption | ].
  cbn [forallb holds] in Hq |- *.
  apply andb_prop in Hq. destruct Hq as [Hge Hrest]. rewrite Hrest, andb_true_r.
  rewrite sql_ge_leb in Hge |- *.
  destruct (cell r "date") as [ | z | f | s]; try discriminate.
  apply (string_leb_trans _ (strftime_Ymd b)); [ | assumption].
  now rewrite strftime_leb.
Qed.

Lemma window_rows_start (now : datetime) (start_date : date)
    (period : string) (provider : option string) (d : Database) :
  period_window now period = Some (Ok (start_date, dt_date now)) ->
  window_rows now period provider d =
  match get_cost_data (Some (strftime_Ymd start_date))
          (Some (strftime_Ymd (dt_date now))) provider d with
  | Ok cost_data => rows cost_data
  | Raise _ => []
  end.
Proof. intros H. unfold window_rows. now rewrite H. Qed.

Lemma starts_ordered (y m : Z) :
  1 <= m <= 12 ->
  let q := ((m - 1) / 3) * 3 + 1 in
  date_leb (mkdate y 1 1) (mkdate y q 1) = true /\
  date_leb (mkdate y q 1) (mkdate y m 1) = true.
Proof.
  intros Hm q. destruct (quarter_month_cases m Hm) as [Hq Hle]. fold q in Hq, Hle.
  unfold date_leb, date_compare. cbn [year month day].
  rewrite !Z.compare_refl. split.
  - destruct (Z.compare_spec 1 q); try reflexivity. lia.
  - destruct (Z.compare_spec q m); try reflexivity. lia.
Qed.

(** X6. At every instant the three windows nest: the ledger query of a
    monthly budget returns no row that the query of a quarterly budget on
    the same provider misses, and the quarterly one no row that the yearly
    one misses, whatever the cells of the ledger hold. *)
Theorem windows_nest (now : datetime) (provider : option string)
    (d : Database) :
  valid_datetime now = true ->
  incl (window_rows now "monthly" provider d)
       (window_rows now "quarterly" provider d) /\
  incl (window_rows now "quarterly" provider d)
       (window_rows now "yearly" provider d).
Proof.
  intros Hv. pose proof Hv as Hv'. unfold valid_datetime in Hv'.
  set (y := year (dt_date now)) in *. set (m := month (dt_date now)) in *.
  pose proof (valid_month_range _ _ _ Hv') as Hm.
  destruct (starts_ordered y m Hm) as [Hyq Hqm].
  assert (Wm : period_window now "monthly" =
               Some (Ok (mkdate y m 1, dt_date now))).
  { unfold period_window, period_start, date_new. cbn [String.eqb Ascii.eqb Bool.eqb].
    fold y m. now rewrite (valid_first_of_month _ _ _ Hv'). }
  assert (Wq : period_window now "quarterly" =
               Some (Ok (mkdate y (((m - 1) / 3) * 3 + 1) 1, dt_date now))).
  { unfold period_window, period_start, date_new. cbn [String.eqb Ascii.eqb Bool.eqb].
    fold y m. now rewrite (valid_first_of_quarter _ _ _ Hv'). }
  assert (Wy : period_window now "yearly" =
               Some (Ok (mkdate y 1 1, dt_date now))).
  { unfold period_window, period_start, date_new. cbn [String.eqb Ascii.eqb Bool.eqb].
    fold y m. now rewrite (valid_first_of_year _ _ _ Hv'). }
  rewrite (window_rows_start _ _ _ _ _ Wm), (window_rows_start _ _ _ _ _ Wq),
    (window_rows_start _ _ _ _ _ Wy).
  split.
  - pose proof (get_cost_data_earlier_start
                  (mkdate y (((m - 1) / 3) * 3 + 1) 1) (mkdate y m 1)
                  (dt_date now) provider d
                  (valid_first_of_quarter _ _ _ Hv')
                  (valid_first_of_month _ _ _ Hv') Hqm) as H.
    destruct (get_cost_data (Some (strftime_Ymd (mkdate y m 1))) _ provider d),
      (get_cost_data
         (Some (strftime_Ymd (mkdate y (((m - 1) / 3) * 3 + 1) 1))) _ provider d);
      try contradiction; [exact H | apply incl_refl].
  - pose proof (get_cost_data_earlier_start
                  (mkdate y 1 1) (mkdate y (((m - 1) / 3) * 3 + 1) 1)
                  (dt_date now) provider d
                  (valid_first_of_year _ _ _ Hv')
                  (valid_first_of_quarter _ _ _ Hv') Hyq) as H.
    destruct (get_cost_data
                (Some (strftime_Ymd (mkdate y (((m - 1) / 3) * 3 + 1) 1))) _
                provider d),
      (get_cost_data (Some (strftime_Ymd (mkdate y 1 1))) _ provider d);
      try contradiction; [exact H | apply incl_refl].
Qed.

(** Mid March 2024: the record of late February is in the quarter only. *)
Lemma windows_nest_witness :
  incl (window_rows scenario.now "monthly" (Some "AWS") scenario.database)
       (window_rows scenario.now "quarterly" (Some "AWS") scenario.database) /\
  incl (window_rows scenario.now "quarterly" (Some "AWS") scenario.database)
       (window_rows scenario.now "yearly" (Some "AWS") scenario.database).
Proof.
  apply (windows_nest scenario.now (Some "AWS") scenario.database).
  reflexivity.
Defined.

(** ** Records dated with a timestamp *)

(** X7. A record whose [date] cell holds the day followed by more text (a
    time of day, as a timestamp column stores it) passes the ledger query
    iff its day is on or after the start date and strictly before the end
    date: the text comparison of [date <= ?] leaves out the records of the
    end date, the day of the evaluation. *)
Theorem timestamp_records_miss_the_end_date (start_date end_date x : date)
    (t : string) (r : row) (provider : option string) (d : Database)
    (returned : DataFrame) :
  valid_date start_date = true -> valid_date end_date = true ->
  valid_date x = true ->
  t <> "" ->
  cell r "date" = VText (strftime_Ymd x ++ t) ->
  get_cost_data (Some (strftime_Ymd start_date)) (Some (strftime_Ymd end_date))
    provider d = Ok returned ->
  (In r (rows returned) <->
   In r (rows (db.cost_data d)) /\
   date_leb start_date x = true /\ date_ltb x end_date = true /\
   scoped provider (cell r "provider") = true).
Proof.
  intros Hs He Hx Ht Hcell H. unfold get_cost_data, read_sql_query in H.
  change (and_where "date" SqlGe (Some (strftime_Ymd start_date)))
    with [("date", SqlGe, strftime_Ymd start_date)] in H.
  change (and_where "date" SqlLe (Some (strftime_Ymd end_date)))
    with [("date", SqlLe, strftime_Ymd end_date)] in H.
  cbn [app] in H.
  destruct (find _ _) in H; [discriminate | ]. injection H as <-. cbn [rows].
  rewrite filter_In. cbn [forallb holds].
  rewrite and_where_provider, sql_ge_leb, sql_le_leb, Hcell.
  rewrite stamped_after_start, stamped_before_end by assumption.
  rewrite !andb_true_iff. tauto.
Qed.

(** A record of 900 stamped at midnight of the day of the evaluation: the
    query of that day does not return it. *)
Lemma timestamp_records_miss_the_end_date_witness :
  In coverage.stamped_today [] <->
  In coverage.stamped_today (rows (cost_data coverage.stamped_database)) /\
  date_leb (mkdate 2024 3 1) (mkdate 2024 3 15) = true /\
  date_ltb (mkdate 2024 3 15) (mkdate 2024 3 15) = true /\
  scoped (Some "AWS") (cell coverage.stamped_today "provider") = true.
Proof.
  apply (timestamp_records_miss_the_end_date
           (mkdate 2024 3 1) (mkdate 2024 3 15) (mkdate 2024 3 15)
           " 00:00:00.000000" coverage.stamped_today (Some "AWS")
           coverage.stamped_database
           (mkframe (columns (cost_data coverage.stamped_database)) [])).
  - reflexivity.
  - reflexivity.
  - reflexivity.
  - discriminate.
  - reflexivity.
  - vm_compute. reflexivity.
Defined.

(** ** The alert ledger *)

Lemma filter_partition_length {A : Type} (p q : A -> bool) (l : list A) :
  List.length (filter p l) =
  (List.length (filter (fun a => p a && q a) l) +
   List.length (filter (fun a => p a && negb (q a)) l))%nat.
Proof.
  induction l as [ | a l IH]; cbn; [reflexivity | ].
  destruct (p a), (q a); cbn; lia.
Qed.

(** X8. [get_budget_alerts] with [notified=True] and with [notified=False]
    split what it returns without that filter: every alert is in exactly one
    of the two; and without any filter it returns the whole table. *)
Theorem alert_queries_partition (budget_id : option Z) (d : Database) :
  (forall a,
     In a (get_budget_alerts budget_id None d) <->
     In a (get_budget_alerts budget_id (Some true) d) \/
     In a (get_budget_alerts budget_id (Some false) d)) /\
  (forall a,
     ~ (In a (get_budget_alerts budget_id (Some true) d) /\
        In a (get_budget_alerts budget_id (Some false) d))) /\
  List.length (get_budget_alerts budget_id None d) =
    (List.length (get_budget_alerts budget_id (Some true) d) +
     List.length (get_budget_alerts budget_id (Some false) d))%nat /\
  get_budget_alerts None None d = budget_alerts d.
Proof.
  unfold get_budget_alerts.
  set (p := fun a : BudgetAlert.t =>
              match budget_id with
              | Some b => BudgetAlert.budget_id a =? b
              | None => true
              end).
  split; [ | split; [ | split]].
  - intros a. rewrite !filter_In. fold (p a).
    destruct (BudgetAlert.notified a); cbn; rewrite ?andb_true_r, ?andb_false_r;
      intuition discriminate.
  - intros a [H1 H2]. apply filter_In in H1, H2. fold (p a) in H1, H2.
    destruct H1 as [_ H1], H2 as [_ H2].
    destruct (BudgetAlert.notified a); cbn in H1, H2;
      rewrite ?andb_false_r in *; discriminate.
  - rewrite (filter_ext _ p) by (intros a; apply andb_true_r).
    rewrite (filter_partition_length p BudgetAlert.notified).
    f_equal; f_equal; apply filter_ext; intros a; fold (p a);
      now destruct (BudgetAlert.notified a).
  - clear p. generalize (budget_alerts d). intros l.
    induction l as [ | a l IH]; cbn in *; congruence.
Qed.

Lemma get_budget_alerts_app (budget_id : option Z) (notified : option bool)
    (c : DataFrame) (bs : list Budget.t) (l1 l2 : list BudgetAlert.t) :
  get_budget_alerts budget_id notified (mkdb c bs (l1 ++ l2)) =
  get_budget_alerts budget_id notified (mkdb c bs l1) ++
  get_budget_alerts budget_id notified (mkdb c bs l2).
Proof. unfold get_budget_alerts. cbn [budget_alerts]. apply filter_app. Qed.

Lemma get_budget_alerts_frame (budget_id : option Z) (notified : option bool)
    (d : Database) :
  get_budget_alerts budget_id notified d =
  get_budget_alerts budget_id notified
    (mkdb (cost_data d) (db.budgets d) (budget_alerts d)).
Proof. reflexivity. Qed.

Lemma get_budget_alerts_row (budget_id alert_id : Z) (notified flag : bool)
    (actual_cost percentage : float) (now : datetime)
    (c : DataFrame) (bs : list Budget.t) :
  get_budget_alerts (Some budget_id) (Some notified)
    (mkdb c bs
       [BudgetAlert.mk alert_id budget_id actual_cost percentage now flag]) =
  if Bool.eqb flag notified
  then [BudgetAlert.mk alert_id budget_id actual_cost percentage now flag]
  else [].
Proof.
  unfold get_budget_alerts.
  cbn [budget_alerts filter BudgetAlert.budget_id BudgetAlert.notified].
  rewrite Z.eqb_refl. now destruct (Bool.eqb flag notified).
Qed.

(** X9. Store, query, mark, query: the alert [store_budget_alert] records
    is the last row [get_budget_alerts] returns for its budget among the
    alerts not notified; once [mark_alert_notified] is called with the id
    that was returned, the row is the last one among the notified alerts of
    the budget, its flag raised and nothing else changed, and the alerts not
    notified are those from before the store. *)
Theorem stored_alert_round_trip (now : datetime) (budget_id : Z)
    (actual_cost percentage : float) (d : Database) :
  let r := store_budget_alert now budget_id actual_cost percentage d in
  let marked := mark_alert_notified (fst r) (snd r) in
  get_budget_alerts (Some budget_id) (Some false) (snd r) =
    get_budget_alerts (Some budget_id) (Some false) d ++
    [BudgetAlert.mk (fst r) budget_id actual_cost percentage now false] /\
  get_budget_alerts (Some budget_id) (Some true) (snd r) =
    get_budget_alerts (Some budget_id) (Some true) d /\
  get_budget_alerts (Some budget_id) (Some true) marked =
    get_budget_alerts (Some budget_id) (Some true) d ++
    [BudgetAlert.mk (fst r) budget_id actual_cost percentage now true] /\
  get_budget_alerts (Some budget_id) (Some false) marked =
    get_budget_alerts (Some budget_id) (Some false) d.
Proof.
  intros r marked.
  pose proof (mark_stored_alert now budget_id actual_cost percentage d) as Hm.
  cbv zeta in Hm. subst marked r. unfold store_budget_alert in *.
  cbn [fst snd] in *. rewrite Hm.
  rewrite !get_budget_alerts_app, <- !get_budget_alerts_frame.
  rewrite !get_budget_alerts_row. cbn [Bool.eqb]. rewrite !app_nil_r. auto.
Qed.

Lemma find_has_id (alert_id : Z) (l : list BudgetAlert.t) (a : BudgetAlert.t) :
  find (fun x => BudgetAlert.id x =? alert_id) l = Some a ->
  BudgetAlert.id a = alert_id.
Proof. intros H. apply find_some in H. now apply Z.eqb_eq. Qed.

Lemma find_none_all {A : Type} (f : A -> bool) (l : list A) :
  find f l = None -> Forall (fun a => f a = false) l.
Proof.
  intros H. apply Forall_forall. intros a Ha.
  exact (find_none f l H a Ha).
Qed.

(** [mark_alert_notified] raises the flag of the rows that carry the id. *)
Lemma mark_alert_notified_rows (alert_id : Z) (d : Database) :
  mark_alert_notified alert_id d =
  mkdb (cost_data d) (db.budgets d)
    (map (fun a => if BudgetAlert.id a =? alert_id then set_notified a else a)
       (budget_alerts d)).
Proof.
  unfold mark_alert_notified.
  destruct (find _ (budget_alerts d)) as [alert | ] eqn:E.
  - now rewrite (find_has_id _ _ _ E).
  - rewrite (map_untouched _ _ _ (find_none_all _ _ E)). now destruct d.
Qed.

(** X10. [mark_alert_notified] touches the rows that carry the id and no
    other, and only their flag; marking twice is marking once, and marking
    two alerts gives the same table in either order. *)
Theorem mark_alert_notified_idempotent (i j : Z) (d : Database) :
  budget_alerts (mark_alert_notified i d) =
    map (fun a => if BudgetAlert.id a =? i then set_notified a else a)
      (budget_alerts d) /\
  mark_alert_notified i (mark_alert_notified i d) = mark_alert_notified i d /\
  mark_alert_notified i (mark_alert_notified j d) =
    mark_alert_notified j (mark_alert_notified i d).
Proof.
  rewrite !mark_alert_notified_rows. cbn [cost_data db.budgets budget_alerts].
  split; [reflexivity | split]; f_equal; rewrite !map_map; apply map_ext;
    intros a.
  - destruct (BudgetAlert.id a =? i) eqn:E; cbn [set_notified BudgetAlert.id];
      rewrite E; reflexivity.
  - destruct (BudgetAlert.id a =? i) eqn:Ei, (BudgetAlert.id a =? j) eqn:Ej;
      cbn [set_notified BudgetAlert.id]; rewrite ?Ei, ?Ej; reflexivity.
Qed.

Lemma NoDup_snoc_above (l : list Z) (n : Z) :
  NoDup l -> Forall (fun x => x < n) l -> NoDup (l ++ [n]).
Proof.
  intros Hnd Hlt. induction l as [ | x l IH]; cbn.
  - constructor; [intros [] | constructor].
  - inversion Hnd as [ | ? ? Hx Hnd']; subst.
    inversion Hlt as [ | ? ? Hxn Hlt']; subst.
    constructor; [ | now apply IH].
    intros Hin. apply in_app_or in Hin. destruct Hin as [Hin | [Heq | []]].
    + contradiction.
    + lia.
Qed.

Lemma store_ids (now : datetime) (budget_id : Z) (actual_cost percentage : float)
    (d : Database) :
  map BudgetAlert.id
    (budget_alerts (snd (store_budget_alert now budget_id actual_cost percentage d))) =
  map BudgetAlert.id (budget_alerts d) ++
  [next_rowid (map BudgetAlert.id (budget_alerts d))].
Proof. cbn. now rewrite map_app. Qed.

Lemma mark_ids (alert_id : Z) (d : Database) :
  map BudgetAlert.id (budget_alerts (mark_alert_notified alert_id d)) =
  map BudgetAlert.id (budget_alerts d).
Proof.
  rewrite mark_alert_notified_rows. cbn [budget_alerts]. rewrite map_map.
  apply map_ext. intros a. now destruct (BudgetAlert.id a =? alert_id).
Qed.

Lemma apply_ids_NoDup (d : Database) (op : operation) :
  NoDup (map BudgetAlert.id (budget_alerts d)) ->
  NoDup (map BudgetAlert.id (budget_alerts (apply d op))).
Proof.
  intros H. destruct op as [now b ac pc | i | b n | ]; cbn [apply];
    try assumption.
  - rewrite store_ids. apply NoDup_snoc_above; [assumption | ].
    apply next_rowid_fresh.
  - now rewrite mark_ids.
Qed.

Lemma process_alert_ids (fmt : formats) (cfg : config.t) (net : network)
    (now : datetime) (budgets_df : list Budget.t) (st : state) (a : alert.t) :
  NoDup (map BudgetAlert.id (budget_alerts (database st))) ->
  NoDup (map BudgetAlert.id
           (budget_alerts
              (database (process_alert fmt cfg net now budgets_df st a)))).
Proof.
  intros H.
  destruct (find (fun x => String.eqb (Budget.name x) (alert.name a)) budgets_df)
    as [b | ] eqn:E.
  - rewrite (process_alert_spec fmt cfg net now budgets_df st a b E).
    cbn [database budget_alerts]. rewrite map_app. cbn [map BudgetAlert.id].
    apply NoDup_snoc_above; [assumption | apply next_rowid_fresh].
  - unfold process_alert. now rewrite E.
Qed.

Lemma run_ids (fmt : formats) (cfg : config.t) (net : network)
    (st : state) (now : datetime) :
  NoDup (map BudgetAlert.id (budget_alerts (database st))) ->
  NoDup (map BudgetAlert.id (budget_alerts (database (run fmt cfg net st now)))).
Proof.
  intros H. unfold run, check_budgets_and_send_alerts.
  destruct (get_budgets (database st)) as [ | b0 rest]; [assumption | ].
  destruct (check_budgets now (database st) (load_budgets (b0 :: rest)))
    as [[alerts self'] | e]; cbn [bind fst]; [ | assumption].
  destruct alerts as [ | a alerts]; [assumption | ].
  generalize (a :: alerts). clear a alerts. intros alerts.
  revert st H. induction alerts as [ | a alerts IH]; intros st H; cbn [fold_left];
    [assumption | ].
  apply IH. now apply process_alert_ids.
Qed.

(** X11. Alert ids stay unique: no sequence of ledger operations (record,
    mark, query) and no sequence of runs of the script gives two alert rows
    one id. *)
Theorem alert_ids_stay_unique (d : Database) :
  NoDup (map BudgetAlert.id (budget_alerts d)) ->
  (forall ops : list operation,
     NoDup (map BudgetAlert.id (budget_alerts (fold_left apply ops d)))) /\
  (forall fmt cfg net (nows : list datetime) (tr : list request),
     NoDup (map BudgetAlert.id
              (budget_alerts
                 (database (runs fmt cfg net nows (mkstate d tr)))))).
Proof.
  intros H. split.
  - intros ops. revert d H. induction ops as [ | op ops IH]; intros d H;
      cbn [fold_left]; [assumption | ].
    apply IH. now apply apply_ids_NoDup.
  - intros fmt cfg net nows tr. unfold runs.
    assert (G : forall st,
              NoDup (map BudgetAlert.id (budget_alerts (database st))) ->
              NoDup (map BudgetAlert.id
                       (budget_alerts
                          (database (fold_left (run fmt cfg net) nows st))))).
    { induction nows as [ | now nows IH]; intros st Hst; cbn [fold_left];
        [assumption | ].
      apply IH. now apply run_ids. }
    apply G. exact H.
Qed.

(** Two runs on a table holding alerts 1 and 2: ids 1, 2, 3, 4. *)
Lemma alert_ids_stay_unique_witness :
  NoDup (map BudgetAlert.id
           (budget_alerts
              (database
                 (runs scenario.plain scenario.chat_only scenario.healthy
                    [scenario.now; scenario.now]
                    (mkstate scenario.two_alerts []))))).
Proof.
  apply (alert_ids_stay_unique scenario.two_alerts).
  repeat constructor; cbn; intuition discriminate.
Defined.

Lemma process_alert_rows (fmt : formats) (cfg : config.t) (net : network)
    (now : datetime) (budgets_df : list Budget.t) (st : state) (a : alert.t) :
  let st' := process_alert fmt cfg net now budgets_df st a in
  cost_data (database st') = cost_data (database st) /\
  db.budgets (database st') = db.budgets (database st) /\
  exists news,
    budget_alerts (database st') = budget_alerts (database st) ++ news /\
    Forall
      (fun row =>
         In (BudgetAlert.budget_id row) (map Budget.id budgets_df) /\
         BudgetAlert.alert_date row = now)
      news.
Proof.
  cbv zeta.
  destruct (find (fun x => String.eqb (Budget.name x) (alert.name a)) budgets_df)
    as [b | ] eqn:E.
  - rewrite (process_alert_spec fmt cfg net now budgets_df st a b E).
    cbn [database cost_data db.budgets budget_alerts].
    split; [reflexivity | split; [reflexivity | ]].
    eexists. split; [reflexivity | ].
    constructor; [ | constructor]. cbn. split; [ | reflexivity].
    apply in_map. apply find_some in E. apply E.
  - assert (Hst : process_alert fmt cfg net now budgets_df st a = st)
      by (unfold process_alert; now rewrite E).
    rewrite Hst. repeat split. exists []. now rewrite app_nil_r.
Qed.

(** What the loop over the alerts of one run leaves in the alert table. *)
Lemma process_alerts_rows (fmt : formats) (cfg : config.t) (net : network)
    (now : datetime) (budgets_df : list Budget.t) :
  forall (alerts : list alert.t) (st : state),
    let st' := fold_left (process_alert fmt cfg net now budgets_df) alerts st in
    cost_data (database st') = cost_data (database st) /\
    db.budgets (database st') = db.budgets (database st) /\
    exists news,
      budget_alerts (database st') = budget_alerts (database st) ++ news /\
      Forall
        (fun row =>
           In (BudgetAlert.budget_id row) (map Budget.id budgets_df) /\
           BudgetAlert.alert_date row = now)
        news.
Proof.
  induction alerts as [ | a alerts IH]; intros st; cbn [fold_left].
  - repeat split. exists []. now rewrite app_nil_r.
  - cbv zeta in IH.
    destruct (IH (process_alert fmt cfg net now budgets_df st a))
      as (Hc & Hb & news2 & Hn2 & Hall2).
    destruct (process_alert_rows fmt cfg net now budgets_df st a)
      as (Hc1 & Hb1 & news1 & Hn1 & Hall1).
    split; [congruence | split; [congruence | ]].
    exists (news1 ++ news2). split.
    + rewrite Hn2, Hn1. now rewrite app_assoc.
    + apply Forall_app. now split.
Qed.

Lemma run_cases (fmt : formats) (cfg : config.t) (net : network)
    (st : state) (now : datetime) :
  run fmt cfg net st now = st \/
  exists alerts,
    run fmt cfg net st now =
    fold_left (process_alert fmt cfg net now (db.budgets (database st)))
      alerts st.
Proof.
  unfold run, check_budgets_and_send_alerts, get_budgets.
  destruct (db.budgets (database st)) as [ | b0 rest]; [now left | ].
  destruct (check_budgets now (database st) (load_budgets (b0 :: rest)))
    as [[alerts self'] | e]; cbn [bind fst]; [ | now left].
  destruct alerts as [ | a alerts]; [now left | ].
  right. now exists (a :: alerts).
Qed.

Lemma run_rows (fmt : formats) (cfg : config.t) (net : network)
    (st : state) (now : datetime) :
  let st' := run fmt cfg net st now in
  cost_data (database st') = cost_data (database st) /\
  db.budgets (database st') = db.budgets (database st) /\
  exists news,
    budget_alerts (database st') = budget_alerts (database st) ++ news /\
    Forall
      (fun row =>
         In (BudgetAlert.budget_id row)
            (map Budget.id (db.budgets (database st))) /\
         BudgetAlert.alert_date row = now)
      news.
Proof.
  cbv zeta. destruct (run_cases fmt cfg net st now) as [-> | (alerts & ->)].
  - repeat split. exists []. now rewrite app_nil_r.
  - apply process_alerts_rows.
Qed.

(** X12. The runs of the script only append to the alert table: the rows
    that were there stay as they are (an alert left unnotified because both
    channels failed is not taken up again by a later run), and every new row
    carries the id of a row of the budget table and the instant of one of
    the runs. The cost ledger and the budget table are not written. *)
Theorem runs_only_append (fmt : formats) (cfg : config.t) (net : network) :
  forall (nows : list datetime) (st : state),
    let st' := runs fmt cfg net nows st in
    cost_data (database st') = cost_data (database st) /\
    db.budgets (database st') = db.budgets (database st) /\
    exists news,
      budget_alerts (database st') = budget_alerts (database st) ++ news /\
      Forall
        (fun row =>
           In (BudgetAlert.budget_id row)
              (map Budget.id (db.budgets (database st))) /\
           In (BudgetAlert.alert_date row) nows)
        news.
Proof.
  unfold runs. induction nows as [ | now nows IH]; intros st; cbn [fold_left].
  - repeat split. exists []. split; [now rewrite app_nil_r | constructor].
  - cbv zeta in IH.
    destruct (IH (run fmt cfg net st now)) as (Hc & Hb & news2 & Hn2 & Hall2).
    destruct (run_rows fmt cfg net st now) as (Hc1 & Hb1 & news1 & Hn1 & Hall1).
    split; [congruence | split; [congruence | ]].
    exists (news1 ++ news2). split.
    + rewrite Hn2, Hn1. now rewrite app_assoc.
    + apply Forall_app. split.
      * eapply Forall_impl; [ | exact Hall1]. cbn. intros row [H1 H2].
        split; [assumption | now left].
      * eapply Forall_impl; [ | exact Hall2]. cbn. intros row [H1 H2].
        split; [now rewrite <- Hb1 | now right].
Qed.

(** ** Budgets: creation and names *)

Import db_more.

Lemma load_budgets_snoc (budgets_df : list Budget.t) (b : Budget.t) :
  load_budgets (budgets_df ++ [b]) =
  add_budget (Budget.name b) (Budget.amount b) (Budget.period b)
    (Budget.provider b) (Budget.service b) (load_budgets budgets_df).
Proof. unfold load_budgets. now rewrite fold_left_app. Qed.

(** X13. [create_budget] appends one row to the budget table under an id
    above every id in use (so ids stay unique) and returns that id; it
    checks nothing, a name already in use included, and writes neither the
    cost ledger nor the alert table. For the script, the new row is one more
    [add_budget] call after those of the rows before it. *)
Theorem create_budget_appends (name : string) (amount : float)
    (period : string) (provider service : option string) (d : Database) :
  let r := create_budget name amount period provider service d in
  get_budgets (snd r) =
    get_budgets d ++ [Budget.mk (fst r) name amount period provider service] /\
  Forall (fun b => Budget.id b < fst r) (get_budgets d) /\
  (NoDup (map Budget.id (get_budgets d)) ->
   NoDup (map Budget.id (get_budgets (snd r)))) /\
  cost_data (snd r) = cost_data d /\
  budget_alerts (snd r) = budget_alerts d /\
  load_budgets (get_budgets (snd r)) =
    add_budget name amount period provider service (load_budgets (get_budgets d)).
Proof.
  cbv zeta. unfold create_budget, get_budgets.
  cbn [fst snd db.budgets cost_data budget_alerts].
  pose proof (next_rowid_fresh (map Budget.id (db.budgets d))) as Hfresh.
  split; [reflexivity | split; [ | split; [ | split; [ | split]]]];
    try reflexivity.
  - rewrite Forall_map in Hfresh. exact Hfresh.
  - intros Hnd. rewrite map_app. cbn [map Budget.id].
    now apply NoDup_snoc_above.
  - now rewrite load_budgets_snoc.
Qed.

Lemma dict_get_set_any {V : Type} (k k' : string) (v : V) (d : dict V) :
  dict_get k (dict_set k' v d) =
  if String.eqb k' k then Some v else dict_get k d.
Proof.
  induction d as [ | [k0 v0] d IH]; cbn.
  - reflexivity.
  - destruct (String.eqb_spec k0 k') as [-> | Hne]; cbn.
    + destruct (String.eqb k' k); reflexivity.
    + rewrite IH. destruct (String.eqb_spec k0 k) as [-> | Hne'];
        [ | reflexivity].
      destruct (String.eqb_spec k' k) as [-> | _]; [congruence | reflexivity].
Qed.

Lemma find_snoc {A : Type} (f : A -> bool) (l : list A) (x : A) :
  find f (l ++ [x]) =
  match find f l with
  | Some y => Some y
  | None => if f x then Some x else None
  end.
Proof.
  induction l as [ | a l IH]; cbn; [reflexivity | ].
  now destruct (f a).
Qed.

(** The definition the registry holds under a name is that of the last row
    of the budget table with this name. *)
Lemma load_budgets_last (name : string) :
  forall (budgets_df : list Budget.t) (self : BudgetAlert),
    dict_get name
      (budgets
         (fold_left
            (fun self b =>
               add_budget (Budget.name b) (Budget.amount b) (Budget.period b)
                 (Budget.provider b) (Budget.service b) self)
            budgets_df self)) =
    match find (fun b => String.eqb (Budget.name b) name) (rev budgets_df) with
    | Some b => Some (snd (entry_of_row b))
    | None => dict_get name (budgets self)
    end.
Proof.
  induction budgets_df as [ | b rest IH]; intros self; cbn [fold_left rev].
  - reflexivity.
  - rewrite IH, find_snoc.
    destruct (find _ (rev rest)); [reflexivity | ].
    unfold add_budget. cbn [budgets]. rewrite dict_get_set_any.
    now destruct (String.eqb (Budget.name b) name).
Qed.

Lemma find_rev_some {A : Type} (f : A -> bool) (l : list A) (x : A) :
  find f l = Some x -> exists y, find f (rev l) = Some y.
Proof.
  intros H. apply find_some in H. destruct H as [Hin Hf].
  destruct (find f (rev l)) as [y | ] eqn:E; [eauto | ].
  apply in_rev in Hin. pose proof (find_none f (rev l) E x Hin). congruence.
Qed.

(** X14. Nothing keeps two rows of the budget table from carrying one
    name. The script then evaluates the definition of the last row with that
    name (it overwrites the earlier ones in the registry), but files the
    alert under the id of the first row with that name. *)
Theorem duplicate_names_last_definition_first_id
    (budgets_df : list Budget.t) (name : string) :
  In name (map Budget.name budgets_df) ->
  exists first last,
    find (fun b => String.eqb (Budget.name b) name) budgets_df = Some first /\
    find (fun b => String.eqb (Budget.name b) name) (rev budgets_df)
      = Some last /\
    dict_get name (budgets (load_budgets budgets_df)) =
      Some (snd (entry_of_row last)) /\
    forall fmt cfg net now st a,
      alert.name a = name ->
      exists row,
        budget_alerts
          (database (process_alert fmt cfg net now budgets_df st a)) =
          budget_alerts (database st) ++ [row] /\
        BudgetAlert.budget_id row = Budget.id first.
Proof.
  intros Hin. destruct (find_by_name budgets_df name Hin) as (first & Hfirst).
  destruct (find_rev_some _ _ _ Hfirst) as (last & Hlast).
  exists first, last. split; [assumption | split; [assumption | split]].
  - unfold load_budgets. rewrite load_budgets_last. now rewrite Hlast.
  - intros fmt cfg net now st a Hname. subst name.
    rewrite (process_alert_spec fmt cfg net now budgets_df st a first Hfirst).
    cbn [database budget_alerts]. eexists. split; reflexivity.
Qed.

(** Two rows named AWS-Compute, 1000 (id 1) before 100 (id 2), against 620
    spent: the run evaluates 100 and files the alert, 520%, under id 1. *)
Lemma duplicate_names_last_definition_first_id_witness :
  budget_alerts
    (database
       (run scenario.plain scenario.chat_only scenario.healthy
          (mkstate coverage.twice_named_database []) scenario.now)) =
    [BudgetAlert.mk 1 1 620 520 scenario.now true] /\
  exists first last,
    find (fun b => String.eqb (Budget.name b) "AWS-Compute")
      coverage.twice_named = Some first /\
    find (fun b => String.eqb (Budget.name b) "AWS-Compute")
      (rev coverage.twice_named) = Some last /\
    dict_get "AWS-Compute" (budgets (load_budgets coverage.twice_named)) =
      Some (snd (entry_of_row last)) /\
    forall fmt cfg net now st a,
      alert.name a = "AWS-Compute" ->
      exists row,
        budget_alerts
          (database (process_alert fmt cfg net now coverage.twice_named st a)) =
          budget_alerts (database st) ++ [row] /\
        BudgetAlert.budget_id row = Budget.id first.
Proof.
  split; [vm_compute; reflexivity | ].
  apply (duplicate_names_last_definition_first_id coverage.twice_named
           "AWS-Compute").
  left. reflexivity.
Defined.

(** ** The email path of the analyzer *)

Import analyzer.

(** X15. [BudgetAlert.send_alert_email] does what the script's call of
    [send_email] does: on every configuration, network and alert it makes
    the same request, or none, and returns the same flag. *)
Theorem send_alert_email_is_send_email (fmt : formats) (cfg : config.t)
    (net : network) (a : alert.t) (tr : list request) :
  send_alert_email fmt cfg net a tr =
  send_email cfg net (subject fmt a) (body fmt a) None true tr.
Proof.
  unfold send_alert_email, send_email, alert_mail.
  destruct (config.ENABLE_EMAIL cfg), (String.eqb (config.EMAIL_SENDER cfg) "");
    cbn [negb orb]; try reflexivity.
  now destruct (config.EMAIL_RECIPIENTS cfg).
Qed.

Lemma send_alert_email_trace (fmt : formats) (cfg : config.t) (net : network)
    (a : alert.t) (tr : list request) :
  (if config.ENABLE_EMAIL cfg
   then snd (send_alert_email fmt cfg net a tr) else tr) =
  tr ++ (if email_configured cfg then [alert_mail fmt cfg a] else []).
Proof.
  unfold send_alert_email, email_configured, attempt.
  destruct (config.ENABLE_EMAIL cfg); cbn [negb orb andb];
    [ | now rewrite app_nil_r].
  destruct (String.eqb (config.EMAIL_SENDER cfg) ""); cbn [negb orb andb];
    [now rewrite app_nil_r | ].
  destruct (config.EMAIL_RECIPIENTS cfg); [now rewrite app_nil_r | ].
  now destruct (net tr (alert_mail fmt cfg a)).
Qed.

Lemma notify_all (fmt : formats) (cfg : config.t) (net : network) :
  forall (alerts notes : list alert.t) (tr : list request),
    fold_left (notify fmt cfg net) alerts (notes, tr) =
    (notes ++ alerts,
     tr ++ (if email_configured cfg
            then map (alert_mail fmt cfg) alerts else [])).
Proof.
  induction alerts as [ | a alerts IH]; intros notes tr; cbn [fold_left].
  - rewrite !app_nil_r. now destruct (email_configured cfg); rewrite ?app_nil_r.
  - unfold notify at 2. rewrite send_alert_email_trace, IH.
    rewrite <- !app_assoc. cbn [app].
    destruct (email_configured cfg); cbn [map app]; reflexivity.
Qed.

(** X16. [process_alerts] returns what [check_budgets] returns and raises
    what it raises. Every alert is appended to [notifications], in order and
    whatever becomes of its email; when email is enabled and addressed, one
    SMTP request is made per alert, in order, and otherwise none; the chat
    channel is never used and nothing is stored. *)
Theorem process_alerts_closed_form (fmt : formats) (cfg : config.t)
    (net : network) (now : datetime) (d : Database) (self : BudgetAlert)
    (tr : list request) :
  process_alerts fmt cfg net now d self tr =
  (r <- check_budgets now d self ;;
   Ok (fst r,
       mkself (budgets (snd r)) (notifications self ++ fst r),
       tr ++ (if email_configured cfg
              then map (alert_mail fmt cfg) (fst r) else []))) /\
  forall alerts, forallb is_smtp (map (alert_mail fmt cfg) alerts) = true.
Proof.
  split.
  - unfold process_alerts.
    destruct (check_budgets now d self) as [[alerts self'] | e] eqn:E;
      cbn [bind fst snd]; [ | reflexivity].
    rewrite notify_all.
    assert (Hn : notifications self' = notifications self).
    { unfold check_budgets in E. bind_inv E. destruct x as [als items'].
      now injection E as _ <-. }
    now rewrite Hn.
  - induction alerts as [ | a alerts IH]; cbn; [reflexivity | exact IH].
Qed.

(** ** The spend the budget page shows *)

(** X17. For every row of the budget table, one turn of the loop of the
    budget overview agrees with the evaluator on the registry entry of that
    row: a budget with an unknown period is left out by both; an exception
    of the spend computation is raised by both; and an entry of the status
    list carries the spend the evaluator computes (0 where the evaluator
    skips the budget because its query returns nothing) and that spend as a
    percentage of the amount. The page divides by the amount and can raise
    [ZeroDivisionError] where the evaluator raises nothing, only for an
    amount of zero; it does so for every budget of amount zero whose query
    returns nothing, and the exception ends the rendering of the
    overview. *)
Theorem page_spend_is_evaluator_spend (now : datetime) (d : Database)
    (budget : Budget.t) :
  let b := snd (entry_of_row budget) in
  let amount := Budget.amount budget in
  match budget_page.status_of now d budget with
  | budget_page.Returns None =>
      period_window now (Budget.period budget) = None /\
      total_cost now d b = Ok None
  | budget_page.Returns (Some s) =>
      period_window now (Budget.period budget) <> None /\
      exists total,
        total_cost now d b = Ok total /\
        let actual := match total with Some t => t | None => 0%float end in
        s = budget_page.status.mk (Budget.name budget)
              (budget_page.period_name now (Budget.period budget))
              amount actual (actual / amount * 100)%float
              (or_else (Budget.provider budget) "All")
              (or_else (Budget.service budget) "All")
  | budget_page.Fails (budget_page.Raised e) => total_cost now d b = Raise e
  | budget_page.Fails budget_page.ZeroDivisionError =>
      (amount =? 0)%float = true /\ exists total, total_cost now d b = Ok total
  end /\
  (period_window now (Budget.period budget) <> None ->
   total_cost now d b = Ok None ->
   (amount =? 0)%float = true ->
   forall rest,
     budget_page.status_of now d budget =
       budget_page.Fails budget_page.ZeroDivisionError /\
     budget_page.budget_status now d (budget :: rest) =
       budget_page.Fails budget_page.ZeroDivisionError).
Proof.
  cbv zeta. split.
  - unfold budget_page.status_of, total_cost, entry_of_row.
    cbn [snd entry.period entry.provider entry.service].
    destruct (period_window now (Budget.period budget)) as [[[s e] | ex] | ];
      cbn [bind budget_page.lift budget_page.then_];
      [ | reflexivity | split; reflexivity].
    destruct (get_cost_data _ _ (Budget.provider budget) d) as [df | ex];
      cbn [bind budget_page.lift budget_page.then_]; [ | reflexivity].
    unfold budget_page.actual_cost.
    destruct (empty df); cbn [bind budget_page.lift budget_page.then_ fst snd].
    + unfold budget_page.percentage_used. cbn [andb].
      destruct (Budget.amount budget =? 0)%float; cbn [budget_page.then_].
      * split; [reflexivity | eauto].
      * split; [discriminate | ]. exists None. split; reflexivity.
    + destruct (if truthy (Budget.service budget) then _ else _)
        as [df' | ex]; cbn [bind budget_page.lift budget_page.then_];
        [ | reflexivity].
      destruct (getitem df' _) as [cells | ex];
        cbn [bind budget_page.lift budget_page.then_]; [ | reflexivity].
      destruct (pd.sum cells) as [t | ex];
        cbn [bind budget_page.lift budget_page.then_ fst snd];
        [ | reflexivity].
      unfold budget_page.percentage_used.
      destruct (budget_page.object_column _ && _) eqn:E;
        cbn [budget_page.then_].
      * apply andb_prop in E. destruct E as [_ E]. split; [exact E | eauto].
      * split; [discriminate | ]. exists (Some t). split; reflexivity.
  - intros Hp Htot Hz rest.
    assert (H : budget_page.status_of now d budget =
                budget_page.Fails budget_page.ZeroDivisionError).
    { revert Htot. unfold budget_page.status_of, total_cost, entry_of_row.
      cbn [snd entry.period entry.provider entry.service].
      destruct (period_window now (Budget.period budget))
        as [[[s e] | ex] | ]; cbn [bind budget_page.lift budget_page.then_];
        [ | discriminate | now contradiction Hp].
      destruct (get_cost_data _ _ (Budget.provider budget) d) as [df | ex];
        cbn [bind budget_page.lift budget_page.then_]; [ | discriminate].
      unfold budget_page.actual_cost.
      destruct (empty df);
        cbn [bind budget_page.lift budget_page.then_ fst snd].
      - intros _. unfold budget_page.percentage_used. cbn [andb].
        now rewrite Hz.
      - destruct (if truthy (Budget.service budget) then _ else _)
          as [df' | ex]; cbn [bind]; [ | discriminate].
        destruct (getitem df' _) as [cells | ex]; cbn [bind];
          [ | discriminate].
        destruct (pd.sum cells) as [t | ex]; cbn [bind]; discriminate. }
    split; [exact H | ]. cbn [budget_page.budget_status]. now rewrite H.
Qed.

(** A budget of 0 on Azure, of which the ledger has no record: the
    evaluator skips the budget, the page raises. *)
Lemma page_spend_is_evaluator_spend_witness :
  total_cost scenario.now scenario.database
    (snd (entry_of_row coverage.azure_zero)) = Ok None /\
  budget_page.budget_status scenario.now scenario.database
    [coverage.azure_zero; scenario.aws_compute] =
  budget_page.Fails budget_page.ZeroDivisionError.
Proof.
  split; [reflexivity | ].
  apply (proj2 (page_spend_is_evaluator_spend scenario.now scenario.database
                  coverage.azure_zero));
    [discriminate | reflexivity | reflexivity].
Defined.

(** The status list of the AWS-Compute scenario, 620 spent of 500; the labels
    of the three periods in mid March 2024; and the division by an amount of
    0: a numpy sum over it is an infinity, the Python 0 of a column without
    any number raises. *)
Example budget_status_cases :
  budget_page.budget_status scenario.now scenario.database
    [scenario.aws_compute] =
  budget_page.Returns
    [budget_page.status.mk "AWS-Compute" "March 2024" 500 620 124 "AWS" "EC2"] /\
  budget_page.period_name scenario.now "quarterly" = "Q1 2024" /\
  budget_page.period_name scenario.now "yearly" = "2024" /\
  budget_page.status_of scenario.now scenario.database coverage.aws_zero =
  budget_page.Returns
    (Some (budget_page.status.mk "AWS-Freeze" "March 2024" 0 620 infinity
             "AWS" "EC2")) /\
  budget_page.status_of scenario.now coverage.uncosted_database
    coverage.aws_zero =
  budget_page.Fails budget_page.ZeroDivisionError.
Proof. repeat split; vm_compute; reflexivity. Qed.

(** ** Resource tags *)

(** X18. A stored tag is the last row [get_resource_tags] returns for its
    resource, provider and key, behind the tags stored for them before: a tag
    is never replaced, so a key can carry several values on one resource. The
    new id is above every id in use; and an empty text as a filter is no
    filter. *)
Theorem resource_tag_round_trip (resource_id provider key value : string)
    (tags : list ResourceTag.t) :
  let r := store_resource_tag resource_id provider key value tags in
  get_resource_tags (Some resource_id) (Some provider) (Some key) (snd r) =
    get_resource_tags (Some resource_id) (Some provider) (Some key) tags ++
    [ResourceTag.mk (fst r) resource_id provider key value] /\
  Forall (fun t => ResourceTag.id t < fst r) tags /\
  get_resource_tags None None None (snd r) = snd r /\
  (forall p k ts, get_resource_tags (Some "") p k ts = get_resource_tags None p k ts).
Proof.
  cbv zeta. unfold store_resource_tag, get_resource_tags. cbn [fst snd].
  split; [ | split; [ | split]].
  - rewrite filter_app. f_equal. cbn [filter ResourceTag.resource_id
      ResourceTag.provider ResourceTag.key].
    assert (T : forall s, text_filter (Some s) s = true).
    { intros s. unfold text_filter, truthy, or_else.
      destruct (String.eqb s "") eqn:E; cbn [negb]; [reflexivity | ].
      apply String.eqb_refl. }
    now rewrite !T.
  - pose proof (next_rowid_fresh (map ResourceTag.id tags)) as H.
    now rewrite Forall_map in H.
  - generalize (tags ++
      [ResourceTag.mk (next_rowid (map ResourceTag.id tags))
         resource_id provider key value]).
    intros l. induction l as [ | t l IH]; cbn in *; congruence.
  - reflexivity.
Qed.

(** ** The budget page: the form and the alert history *)

Lemma known_period_window (now : datetime) (period : string) :
  valid_datetime now = true -> known_period period ->
  exists w, period_window now period = Some (Ok w).
Proof.
  intros Hv Hk. destruct (period_window_total now period Hv) as [Hn | Hw];
    [ | exact Hw].
  exfalso. unfold period_window, period_start in Hn.
  destruct Hk as [-> | [-> | ->]]; cbn in Hn; discriminate.
Qed.

(** X19. The budget form creates a budget only when it is submitted with
    a name; the row it creates carries that name, one of the three periods
    the evaluator knows (so that it has a window at every instant), a
    provider that is unset or one of AWS, GCP, Azure (never the text 'All'),
    and a service that is unset or a non-empty text. *)
Theorem form_budgets_are_evaluated (name : string) (amount : float)
    (period : budget_page.period_choice)
    (provider : budget_page.provider_choice) (service : string)
    (submit : bool) (d : Database) :
  match budget_page.render_create_budget name amount period provider service
          submit d with
  | None => submit = false \/ name = ""
  | Some (budget_id, d') =>
      submit = true /\ name <> "" /\
      exists b,
        get_budgets d' = get_budgets d ++ [b] /\
        Budget.id b = budget_id /\ Budget.name b = name /\
        Budget.amount b = amount /\
        known_period (Budget.period b) /\
        Budget.provider b <> Some "All" /\
        Budget.service b <> Some "" /\
        truthy (Budget.service b) = negb (String.eqb service "") /\
        forall now, valid_datetime now = true ->
          exists w, period_window now (Budget.period b) = Some (Ok w)
  end.
Proof.
  unfold budget_page.render_create_budget.
  destruct submit; [ | now left].
  destruct (String.eqb_spec name "") as [-> | Hname]; [now right | ].
  unfold create_budget. split; [reflexivity | split; [assumption | ]].
  eexists. split; [reflexivity | ].
  cbn [Budget.id Budget.name Budget.amount Budget.period Budget.provider
       Budget.service].
  assert (Hk : known_period (budget_page.period_text period)).
  { unfold known_period. destruct period; cbn; auto. }
  repeat split; try assumption.
  - destruct provider; cbn; discriminate.
  - destruct (String.eqb_spec service "") as [-> | Hs]; congruence.
  - destruct (String.eqb service "") eqn:E; cbn; [reflexivity | now rewrite E].
  - intros now Hv. now apply known_period_window.
Qed.

Lemma filter_unique_id (budgets_df : list Budget.t) (i : Z) :
  NoDup (map Budget.id budgets_df) ->
  In i (map Budget.id budgets_df) ->
  exists b, filter (fun b => Budget.id b =? i) budgets_df = [b] /\
            In b budgets_df /\ Budget.id b = i.
Proof.
  induction budgets_df as [ | b0 rest IH]; cbn; intros Hnd Hin;
    [contradiction | ].
  inversion Hnd as [ | ? ? Hnotin Hnd']; subst.
  destruct (Z.eqb_spec (Budget.id b0) i) as [E | E].
  - exists b0. split; [ | split; [now left | assumption]].
    f_equal. subst i.
    assert (F : Forall (fun b => (Budget.id b =? Budget.id b0) = false) rest).
    { apply Forall_forall. intros b Hb. apply Z.eqb_neq. intros Heq.
      apply Hnotin. rewrite <- Heq. now apply in_map. }
    clear -F. induction F as [ | b l Hb _ IHF]; cbn; [reflexivity | ].
    now rewrite Hb.
  - destruct Hin as [Hin | Hin]; [contradiction | ].
    destruct (IH Hnd' Hin) as (b & Hf & Hb & Hid).
    exists b. split; [assumption | split; [now right | assumption]].
Qed.

Lemma merge_lines (budgets_df : list Budget.t) :
  NoDup (map Budget.id budgets_df) ->
  forall alerts_df : list BudgetAlert.t,
    Forall (fun a => In (BudgetAlert.budget_id a) (map Budget.id budgets_df))
      alerts_df ->
    Forall2
      (fun a m =>
         fst m = a /\ In (snd m) budgets_df /\
         Budget.id (snd m) = BudgetAlert.budget_id a)
      alerts_df (budget_page.merge alerts_df budgets_df).
Proof.
  intros Hnd. induction 1 as [ | a alerts Ha _ IH]; cbn; [constructor | ].
  destruct (filter_unique_id budgets_df _ Hnd Ha) as (b & -> & Hb & Hid).
  cbn. constructor; [ | exact IH]. cbn. auto.
Qed.

Lemma merge_display (budgets_df : list Budget.t)
    (alerts_df : list BudgetAlert.t) :
  NoDup (map Budget.id budgets_df) ->
  Forall (fun a => In (BudgetAlert.budget_id a) (map Budget.id budgets_df))
    alerts_df ->
  Forall2
    (fun a l =>
       budget_page.Actual_Cost l = BudgetAlert.actual_cost a /\
       budget_page.Percentage l = BudgetAlert.percentage a /\
       budget_page.Alert_Date l = BudgetAlert.alert_date a /\
       budget_page.Notified l = BudgetAlert.notified a /\
       exists b, In b budgets_df /\
                 Budget.id b = BudgetAlert.budget_id a /\
                 budget_page.Budget_Name l = Budget.name b /\
                 budget_page.Budget_Amount l = Budget.amount b)
    alerts_df
    (map
       (fun m : BudgetAlert.t * Budget.t =>
          budget_page.mkline (Budget.name (snd m))
            (BudgetAlert.actual_cost (fst m)) (Budget.amount (snd m))
            (BudgetAlert.percentage (fst m)) (BudgetAlert.alert_date (fst m))
            (BudgetAlert.notified (fst m)))
       (budget_page.merge alerts_df budgets_df)).
Proof.
  intros Hnd Href. pose proof (merge_lines budgets_df Hnd alerts_df Href) as Hm.
  clear Href.
  induction Hm as [ | a m als ms (Hfst & Hin & Hid) _ IH]; cbn [map].
  - constructor.
  - constructor; [ | exact IH].
    cbn. subst a. repeat split. exists (snd m). auto.
Qed.

(** X20. When the ids of the budget table are unique and every alert
    carries the id of one of its rows, the alert history shows one line per
    alert, in the order of the alert table: the spend, the percentage, the
    date and the flag of the alert beside the name and the amount of its
    budget as they are now. *)
Theorem history_shows_every_alert (d : Database) :
  NoDup (map Budget.id (db.budgets d)) ->
  Forall (fun a => In (BudgetAlert.budget_id a) (map Budget.id (db.budgets d)))
    (budget_alerts d) ->
  budget_alerts d <> [] ->
  exists display_df,
    budget_page.render_alert_history d = budget_page.Lines display_df /\
    Forall2
      (fun a l =>
         budget_page.Actual_Cost l = BudgetAlert.actual_cost a /\
         budget_page.Percentage l = BudgetAlert.percentage a /\
         budget_page.Alert_Date l = BudgetAlert.alert_date a /\
         budget_page.Notified l = BudgetAlert.notified a /\
         exists b, In b (db.budgets d) /\
                   Budget.id b = BudgetAlert.budget_id a /\
                   budget_page.Budget_Name l = Budget.name b /\
                   budget_page.Budget_Amount l = Budget.amount b)
      (budget_alerts d) display_df.
Proof.
  intros Hnd Href Hne. unfold budget_page.render_alert_history.
  assert (Hall : get_budget_alerts None None d = budget_alerts d).
  { unfold get_budget_alerts. generalize (budget_alerts d). intros l.
    induction l as [ | a l IH]; cbn in *; congruence. }
  rewrite Hall. unfold get_budgets.
  destruct (budget_alerts d) as [ | a0 alerts] eqn:Ea; [congruence | ].
  destruct (db.budgets d) as [ | b0 rest] eqn:Eb.
  - inversion Href as [ | ? ? Hin _]; subst. contradiction.
  - eexists. split; [reflexivity | ]. now apply merge_display.
Qed.

(** The history of a table holding alerts 1 and 2 of the AWS-Compute
    budget. *)
Lemma history_shows_every_alert_witness :
  exists display_df,
    budget_page.render_alert_history scenario.two_alerts =
      budget_page.Lines display_df /\
    List.length display_df = 2%nat.
Proof.
  destruct (history_shows_every_alert scenario.two_alerts)
    as (display_df & Hd & Hall).
  - repeat constructor. intros [].
  - repeat constructor.
  - discriminate.
  - exists display_df. split; [exact Hd | ].
    apply Forall2_length in Hall. symmetry. exact Hall.
Defined.
